(** * DzOsuINDev: route handlers of the leaderboard API

    A shallow embedding of [src/routes/compare.js] and
    [src/routes/search.js]: the two-player, per-beatmap and multi-player
    comparisons, the search handlers with their sort allow-lists, and the
    advanced-search query builder.  The handlers are written in a small
    monad that records every call to the cache service and to the
    database, so that what a handler asks of its collaborators, and in
    which order, is part of what is proved. *)

From Stdlib Require Import QArith Qround Qabs DecimalString DecimalNat Ascii.
From stdpp Require Import gmap strings list sorting.

Local Open Scope string_scope.

(** ** The JavaScript fragment the routes use *)

Module Js.

(** Values that cross the handlers.  A number is an exact rational (the
    idealisation of a finite double), [VNaN] is the not-a-number value,
    [VFun] a built-in function object, [VObj] a plain object such as
    [Object.prototype], and [VList] an array of strings. *)
Inductive value : Type :=
| VUndefined
| VNull
| VNum (q : Q)
| VNaN
| VStr (s : string)
| VList (l : list string)
| VFun (name : string)
| VObj.

(** [!!v]: undefined, null, 0, NaN and the empty string are falsy. *)
Definition truthy (v : value) : bool :=
  match v with
  | VUndefined | VNull | VNaN => false
  | VNum q => negb (Qeq_bool q 0)
  | VStr s => negb (String.eqb s "")
  | VList _ | VFun _ | VObj => true
  end.

(** [a || b] *)
Definition or (a b : value) : value := if truthy a then a else b.

(** [x < y] on numbers. *)
Definition ltb (x y : Q) : bool := negb (Qle_bool y x).

(** *** Doubles

    A number of the code is a double.  The model writes it as the
    rational it stands for and computes on rationals.  The two agree as
    long as the exact result is a double itself: the arithmetic of
    doubles rounds the exact result, and a double rounds to itself.
    [is_double q] says that [q] is [m * 2^e] for an integer [m] of at
    most 53 bits and [-1074 <= e <= 971]. *)

(** The number of trailing zero bits, and what is left without them. *)
Fixpoint twos (p : positive) : nat :=
  match p with
  | xO p' => S (twos p')
  | _ => 0
  end.

Fixpoint odd_part (p : positive) : positive :=
  match p with
  | xO p' => odd_part p'
  | _ => p
  end.

Definition is_double (q : Q) : bool :=
  match Qnum (Qred q) with
  | Z0 => true
  | Zpos n | Zneg n =>
      let d := Qden (Qred q) in
      let bits := Zpos (Pos.size (odd_part n)) in
      let e := (Z.of_nat (twos n) - Z.of_nat (twos d))%Z in
      Pos.eqb (odd_part d) 1
      && (bits <=? 53)%Z && (-1074 <=? e)%Z && (e + bits <=? 1024)%Z
  end.

(** The integers every one of which is a double: up to [2^53] in
    magnitude. *)
Definition safe_integer (z : Z) : bool := (Z.abs z <=? 2 ^ 53)%Z.

(** [a - b] on number operands; results are kept in lowest terms, so
    that equal numbers are equal terms.  Operands of other types are
    coerced by JavaScript through [ToNumber]; that coercion is outside
    the fragment, and the result is then [None]. *)
Definition sub (a b : value) : option value :=
  match a, b with
  | VNum x, VNum y => Some (VNum (Qred (x - y)))
  | VNaN, (VNum _ | VNaN) | VNum _, VNaN => Some VNaN
  | _, _ => None
  end.

(** [v === s] for a string [s]. *)
Definition is_string (v : value) (s : string) : bool :=
  match v with
  | VStr t => String.eqb t s
  | _ => false
  end.

(** [a < b] on number operands; a comparison with [NaN] is false. *)
Definition lt (a b : value) : option bool :=
  match a, b with
  | VNum x, VNum y => Some (ltb x y)
  | VNaN, (VNum _ | VNaN) | VNum _, VNaN => Some false
  | _, _ => None
  end.

(** The properties every object literal inherits from [Object.prototype]. *)
Definition Object_prototype : list (string * value) :=
  [ ("constructor", VFun "Object");
    ("__defineGetter__", VFun "__defineGetter__");
    ("__defineSetter__", VFun "__defineSetter__");
    ("hasOwnProperty", VFun "hasOwnProperty");
    ("__lookupGetter__", VFun "__lookupGetter__");
    ("__lookupSetter__", VFun "__lookupSetter__");
    ("isPrototypeOf", VFun "isPrototypeOf");
    ("propertyIsEnumerable", VFun "propertyIsEnumerable");
    ("toString", VFun "toString");
    ("valueOf", VFun "valueOf");
    ("__proto__", VObj);
    ("toLocaleString", VFun "toLocaleString") ].

Fixpoint assoc (k : string) (l : list (string * value)) : option value :=
  match l with
  | [] => None
  | (k', v) :: l' => if String.eqb k k' then Some v else assoc k l'
  end.

(** [o[k]] for a plain object [o]: an own property first, then the
    prototype, then [undefined]. *)
Definition get (o : gmap string value) (k : string) : value :=
  match o !! k with
  | Some v => v
  | None => default VUndefined (assoc k Object_prototype)
  end.

(** Decimal text of a natural number, as a template literal prints it. *)
Definition show_nat (n : nat) : string :=
  NilZero.string_of_uint (Nat.to_uint n).

Definition show_Z (z : Z) : string :=
  match z with
  | Zneg p => "-" +:+ show_nat (Pos.to_nat p)
  | _ => show_nat (Z.to_nat z)
  end.

Definition join_comma (l : list string) : string :=
  match l with
  | [] => ""
  | x :: l' => fold_left (fun acc y => acc +:+ "," +:+ y) l' x
  end.

(** [`${v}`]: the text a template literal substitutes for [v].  A
    number that is not an integer prints with a fraction or an exponent,
    which is outside the fragment ([None]). *)
Definition to_string (v : value) : option string :=
  match v with
  | VUndefined => Some "undefined"
  | VNull => Some "null"
  | VNaN => Some "NaN"
  | VNum q => if Qeq_bool q (inject_Z (Qfloor q)) && (Z.abs (Qfloor q) <? 10 ^ 21)%Z
              then Some (show_Z (Qfloor q)) else None
  | VStr s => Some s
  | VList l => Some (join_comma l)
  | VFun name => Some ("function " +:+ name +:+ "() { [native code] }")
  | VObj => Some "[object Object]"
  end.

(** *** [String.prototype.trim]

    Text is held as its UTF-8 bytes.  The white space that [trim]
    removes is the [WhiteSpace] and the [LineTerminator] of the
    language: the ASCII characters 9 to 13 and 32, and U+00A0, U+1680,
    U+2000 to U+200A, U+2028, U+2029, U+202F, U+205F, U+3000 and
    U+FEFF, which take two or three bytes. *)

Definition is_space (c : ascii) : bool :=
  let n := nat_of_ascii c in
  (n =? 32)%nat || ((9 <=? n)%nat && (n <=? 13)%nat).

(** U+00A0 is [C2 A0]. *)
Definition is_space2 (a b : ascii) : bool :=
  ((nat_of_ascii a =? 194) && (nat_of_ascii b =? 160))%nat.

(** U+1680 is [E1 9A 80]; U+2000 to U+200A are [E2 80 80] to
    [E2 80 8A]; U+2028, U+2029 and U+202F are [E2 80 A8], [E2 80 A9] and
    [E2 80 AF]; U+205F is [E2 81 9F]; U+3000 is [E3 80 80]; U+FEFF is
    [EF BB BF]. *)
Definition is_space3 (a b c : ascii) : bool :=
  let a := nat_of_ascii a in
  let b := nat_of_ascii b in
  let c := nat_of_ascii c in
  ((a =? 225) && (b =? 154) && (c =? 128)
   || (a =? 226) && (b =? 128)
      && ((128 <=? c) && (c <=? 138) || (c =? 168) || (c =? 169) || (c =? 175))
   || (a =? 226) && (b =? 129) && (c =? 159)
   || (a =? 227) && (b =? 128) && (c =? 128)
   || (a =? 239) && (b =? 187) && (c =? 191))%nat.

Fixpoint trim_start (s : string) : string :=
  match s with
  | EmptyString => EmptyString
  | String a s1 =>
      if is_space a then trim_start s1
      else
        match s1 with
        | EmptyString => s
        | String b s2 =>
            if is_space2 a b then trim_start s2
            else
              match s2 with
              | EmptyString => s
              | String c s3 => if is_space3 a b c then trim_start s3 else s
              end
        end
  end.

(** [s] is one white-space character. *)
Definition is_space_char (s : string) : bool :=
  match s with
  | String a EmptyString => is_space a
  | String a (String b EmptyString) => is_space2 a b
  | String a (String b (String c EmptyString)) => is_space3 a b c
  | _ => false
  end.

(** What is left of the tail ends in no white space, so with one more
    character in front it ends in white space only when it is one
    white-space character as a whole. *)
Fixpoint trim_end (s : string) : string :=
  match s with
  | EmptyString => EmptyString
  | String c s' =>
      let t := String c (trim_end s') in
      if is_space_char t then EmptyString else t
  end.

Definition trim (s : string) : string := trim_end (trim_start s).

(** *** [parseInt] *)

Definition digit_of (radix : Z) (c : ascii) : option Z :=
  let n := Z.of_nat (nat_of_ascii c) in
  let d := if (48 <=? n)%Z && (n <=? 57)%Z then Some (n - 48)%Z
           else if (97 <=? n)%Z && (n <=? 122)%Z then Some (n - 87)%Z
           else if (65 <=? n)%Z && (n <=? 90)%Z then Some (n - 55)%Z
           else None in
  match d with
  | Some k => if (k <? radix)%Z then Some k else None
  | None => None
  end.

(** The longest prefix of digits, read in [radix]; [None] when the text
    does not start with a digit. *)
Fixpoint digits (radix : Z) (acc : option Z) (s : string) : option Z :=
  match s with
  | String c s' =>
      match digit_of radix c with
      | Some d => digits radix (Some (default 0%Z acc * radix + d)%Z) s'
      | None => acc
      end
  | EmptyString => acc
  end.

Definition strip_hex (s : string) : option string :=
  match s with
  | String "0" (String "x" r) | String "0" (String "X" r) => Some r
  | _ => None
  end.

(** The integer [parseInt(text)] reads: leading white space, an optional
    sign, an optional [0x] prefix, then digits; [NaN] when no digit
    follows.  This is the mathematical integer the text spells, before
    it becomes a number. *)
Definition parseInt_text (s : string) : value :=
  let s := trim_start s in
  let (sign, body) :=
    match s with
    | String "-" r => ((-1)%Z, r)
    | String "+" r => (1%Z, r)
    | _ => (1%Z, s)
    end in
  let n := match strip_hex body with
           | Some r => digits 16 None r
           | None => digits 10 None body
           end in
  match n with
  | Some k => VNum (inject_Z (sign * k))
  | None => VNaN
  end.

(** The integer read becomes a number, that is a double: up to [2^53]
    in magnitude it is that integer, beyond it is rounded, which is
    outside the fragment ([None]). *)
Definition to_number (v : value) : option value :=
  match v with
  | VNum q => if safe_integer (Qfloor q) then Some v else None
  | _ => Some v
  end.

(** [parseInt(v)] reads the text of [v].  A number prints as plain
    decimal text when it is zero or its magnitude lies in
    [[1e-6, 1e21)], and reading that text back truncates it towards
    zero; smaller and larger magnitudes print with an exponent and are
    outside the fragment. *)
Definition parseInt (v : value) : option value :=
  match v with
  | VNum q =>
      if Qeq_bool q 0 then Some (VNum 0)
      else if Qle_bool (1 # 1000000) (Qabs q) && negb (Qle_bool (inject_Z (10 ^ 21)) (Qabs q))
      then Some (VNum (inject_Z (Z.quot (Qnum q) (Zpos (Qden q)))))
      else None
  | VStr s => to_number (parseInt_text s)
  | VList l => to_number (parseInt_text (join_comma l))
  | VUndefined | VNull | VNaN | VFun _ | VObj => Some VNaN
  end.

End Js.

Import Js.

(** ** Effects: collaborator calls, exceptions, the request trace *)

(** What a handler does to the outside world, in the order it does it. *)
Inductive Event : Type :=
| CacheGet (args : list string)
| CacheSet (args : list string) (ttl : Z)
| Query (text : string) (params : list value)
| ConsoleError (label : string).

(** How a computation ends: with a value, with a raised exception, or
    outside the JavaScript fragment modelled above. *)
Inductive Outcome (A : Type) : Type :=
| Ok (a : A)
| Throw (e : string)
| Unmodelled.
Arguments Ok {A} a.
Arguments Throw {A} e.
Arguments Unmodelled {A}.

Definition outcome_bind {A B} (f : A -> Outcome B) (o : Outcome A) : Outcome B :=
  match o with
  | Ok a => f a
  | Throw e => Throw e
  | Unmodelled => Unmodelled
  end.

#[export] Instance outcome_ret : MRet Outcome := fun _ a => Ok a.
#[export] Instance outcome_mbind : MBind Outcome := fun _ _ f o => outcome_bind f o.

Definition of_option {A} (o : option A) : Outcome A :=
  match o with
  | Some a => Ok a
  | None => Unmodelled
  end.

(** A handler: a trace transformer that ends in an [Outcome]. *)
Definition M (A : Type) : Type := list Event -> Outcome A * list Event.

Definition m_bind {A B} (f : A -> M B) (m : M A) : M B :=
  fun tr =>
    match m tr with
    | (Ok a, tr') => f a tr'
    | (Throw e, tr') => (Throw e, tr')
    | (Unmodelled, tr') => (Unmodelled, tr')
    end.

#[export] Instance m_ret : MRet M := fun _ a tr => (Ok a, tr).
#[export] Instance m_mbind : MBind M := fun _ _ f m => m_bind f m.

Definition lift {A} (o : Outcome A) : M A := fun tr => (o, tr).

(** A call to a collaborator: the call is recorded, then it answers. *)
Definition call {A} (ev : Event) (answer : Outcome A) : M A :=
  fun tr => (answer, (tr ++ [ev])%list).

(** [try { body } catch (error) { handler }] *)
Definition try_catch {A} (body : M A) (handler : string -> M A) : M A :=
  fun tr =>
    match body tr with
    | (Throw e, tr') => handler e tr'
    | r => r
    end.

(** [await Promise.all([a, b])]: both calls are issued before either is
    awaited, so both are recorded even when the first one rejects. *)
Definition both {A B} (a : M A) (b : M B) : M (A * B) :=
  fun tr =>
    let (ra, tr1) := a tr in
    let (rb, tr2) := b tr1 in
    (x ← ra; y ← rb; mret (x, y), tr2).

(** The caller-facing result: [res.status(s).json({success, ...})]. *)
Inductive Response (D : Type) : Type :=
| Success (status : Z) (data : D)
| Failure (status : Z) (error : string).
Arguments Success {D} status data.
Arguments Failure {D} status error.

Definition status {D} (r : Response D) : Z :=
  match r with
  | Success s _ | Failure s _ => s
  end.

Definition Row : Type := gmap string value.

(** [../config/db]: the two query functions, as the handlers see them. *)
Record Db : Type := {
  getRow : string -> list value -> Outcome (option Row);
  getRows : string -> list value -> Outcome (list Row)
}.

Definition db_getRow (db : Db) (text : string) (params : list value) : M (option Row) :=
  call (Query text params) (getRow db text params).

Definition db_getRows (db : Db) (text : string) (params : list value) : M (list Row) :=
  call (Query text params) (getRows db text params).

(** [`%${s}%`] *)
Definition wrap (s : string) : value := VStr ("%" +:+ s +:+ "%").

Definition internal_error {D} (label : string) (_ : string) : M (Response D) :=
  _ ← call (ConsoleError label) (Ok tt);
  mret (Failure 500 "Internal server error").

(** [../services/cache]: the cache service, as the handlers see it.  Any
    of its calls may raise. *)
Module cacheService.
Record t (D : Type) : Type := {
  generateKey : list string -> string;
  get : string -> Outcome (option D);
  set : string -> D -> Z -> Outcome unit;
  getSearchCache : string -> string -> Outcome (option D);
  cacheSearch : string -> string -> D -> Z -> Outcome unit
}.
Arguments generateKey {D} _ _.
Arguments get {D} _ _.
Arguments set {D} _ _ _ _.
Arguments getSearchCache {D} _ _ _.
Arguments cacheSearch {D} _ _ _ _ _.
End cacheService.

(** ** [Array.prototype.sort] with a comparator

    The sort is stable, so for a consistent comparator its result is the
    one stable insertion computes: [x] is placed before the first [y]
    with [cmp x y <= 0]. *)
Section Sort.
Context {A : Type} (cmp : A -> A -> Q).

Fixpoint insert_sorted (x : A) (l : list A) : list A :=
  match l with
  | [] => [x]
  | y :: l' => if Qle_bool (cmp x y) 0 then x :: l else y :: insert_sorted x l'
  end.

Definition sort (l : list A) : list A := foldr insert_sorted [] l.
End Sort.

(** ** compare.js, [GET /:username1/:username2] *)
Module ComparePlayers.

Definition player_sql : string :=
  "SELECT * FROM player_stats WHERE username ILIKE $1".

Definition skills_sql : string := "
            SELECT skill_type, AVG(skill_value) as avg_skill
            FROM skill_tracking 
            WHERE username ILIKE $1
            GROUP BY skill_type
          ".

Definition scores_sql : string := "
            SELECT * FROM algeria_top50 
            WHERE username ILIKE $1 
            ORDER BY pp DESC 
            LIMIT 10
          ".

(** [{ ...player, topScores }] *)
Record PlayerView : Type := { row : Row; topScores : list Row }.

(** [{ player1, player2, difference }] *)
Record Diff : Type := { of_player1 : value; of_player2 : value; difference : value }.

Record StatComparison : Type := {
  totalPP : Diff;
  weightedPP : Diff;
  accuracy : Diff;
  firstPlaces : Diff;
  totalScores : Diff;
  countryRank : Diff
}.

Record Data : Type := {
  player1 : PlayerView;
  player2 : PlayerView;
  skillComparison : list (string * Diff);
  statComparison : StatComparison
}.

Definition skill_names : list string :=
  ["aim"; "speed"; "accuracy"; "reading"; "consistency"].

(** [skills.find(s => s.skill_type === skill)] *)
Definition find_skill (skills : list Row) (skill : string) : option Row :=
  List.find (fun s => Js.is_string (Js.get s "skill_type") skill) skills.

(** [higher a b]: [difference: a - b]. *)
Definition higher (a b : value) : Outcome Diff :=
  d ← of_option (Js.sub a b);
  mret {| of_player1 := a; of_player2 := b; difference := d |}.

(** [lower a b]: [difference: b - a], the order the source uses for
    [countryRank] ("Lower is better"). *)
Definition lower (a b : value) : Outcome Diff :=
  d ← of_option (Js.sub b a);
  mret {| of_player1 := a; of_player2 := b; difference := d |}.

Definition skill_entry (parseFloat : value -> value) (skills1 skills2 : list Row)
    (skill : string) : Outcome (string * Diff) :=
  let skill1 := find_skill skills1 skill in
  let skill2 := find_skill skills2 skill in
  let v1 := match skill1 with Some s => parseFloat (Js.get s "avg_skill") | None => VNum 0 end in
  let v2 := match skill2 with Some s => parseFloat (Js.get s "avg_skill") | None => VNum 0 end in
  d ← higher v1 v2;
  mret (skill, d).

Fixpoint for_each {A B} (f : A -> Outcome B) (l : list A) : Outcome (list B) :=
  match l with
  | [] => mret []
  | x :: l' => y ← f x; ys ← for_each f l'; mret (y :: ys)
  end.

Definition stat_comparison (player1 player2 : Row) : Outcome StatComparison :=
  totalPP ← higher (Js.or (Js.get player1 "total_pp") (VNum 0))
                   (Js.or (Js.get player2 "total_pp") (VNum 0));
  weightedPP ← higher (Js.or (Js.get player1 "weighted_pp") (VNum 0))
                      (Js.or (Js.get player2 "weighted_pp") (VNum 0));
  accuracy ← higher (Js.or (Js.get player1 "accuracy_avg") (VNum 0))
                    (Js.or (Js.get player2 "accuracy_avg") (VNum 0));
  firstPlaces ← higher (Js.or (Js.get player1 "first_places") (VNum 0))
                       (Js.or (Js.get player2 "first_places") (VNum 0));
  totalScores ← higher (Js.or (Js.get player1 "total_scores") (VNum 0))
                       (Js.or (Js.get player2 "total_scores") (VNum 0));
  countryRank ← lower (Js.or (Js.get player1 "country_rank") (VNum 999999))
                      (Js.or (Js.get player2 "country_rank") (VNum 999999));
  mret {| totalPP := totalPP; weightedPP := weightedPP; accuracy := accuracy;
          firstPlaces := firstPlaces; totalScores := totalScores;
          countryRank := countryRank |}.

Definition assemble (parseFloat : value -> value) (player1 player2 : Row)
    (skills1 skills2 scores1 scores2 : list Row) : Outcome Data :=
  skillComparison ← for_each (skill_entry parseFloat skills1 skills2) skill_names;
  statComparison ← stat_comparison player1 player2;
  mret {| player1 := {| row := player1; topScores := scores1 |};
          player2 := {| row := player2; topScores := scores2 |};
          skillComparison := skillComparison;
          statComparison := statComparison |}.

Definition handler (cache : cacheService.t Data) (db : Db) (parseFloat : value -> value)
    (username1 username2 : string) : M (Response Data) :=
  try_catch
    (let cacheKey := cacheService.generateKey cache ["compare"; username1; username2] in
     data ← call (CacheGet [cacheKey]) (cacheService.get cache cacheKey);
     match data with
     | Some data => mret (Success 200 data)
     | None =>
         '(player1, player2) ←
           both (db_getRow db player_sql [wrap username1])
                (db_getRow db player_sql [wrap username2]);
         match player1, player2 with
         | Some player1, Some player2 =>
             '(skills1, skills2, (scores1, scores2)) ←
               both (both (db_getRows db skills_sql [wrap username1])
                          (db_getRows db skills_sql [wrap username2]))
                    (both (db_getRows db scores_sql [wrap username1])
                          (db_getRows db scores_sql [wrap username2]));
             data ← lift (assemble parseFloat player1 player2 skills1 skills2 scores1 scores2);
             _ ← call (CacheSet [cacheKey] 600) (cacheService.set cache cacheKey data 600);
             mret (Success 200 data)
         | _, _ => mret (Failure 404 "One or both players not found")
         end
     end)
    (internal_error "Compare players error:").

End ComparePlayers.

(** ** compare.js, [GET /:username1/:username2/beatmap/:beatmapId] *)
Module CompareBeatmap.

Definition score_sql : string := "
          SELECT * FROM algeria_top50 
          WHERE username ILIKE $1 AND beatmap_id = $2
        ".

Definition beatmap_sql : string := "
          SELECT * FROM beatmap_metadata 
          WHERE beatmap_id = $1
        ".

(** [{ username, score, hasScore }] *)
Record Side : Type := { username : string; score : option Row; hasScore : bool }.

Record Differences : Type := {
  diff_rank : value;
  diff_score : value;
  diff_accuracy : value;
  diff_pp : value;
  diff_maxCombo : value
}.

Record Comparison : Type := {
  beatmap : option Row;
  player1 : Side;
  player2 : Side;
  winner : string;
  differences : option Differences
}.

(** The winner on rank, "lower is better". *)
Definition winner_of (username1 username2 : string) (score1 score2 : Row) : Outcome string :=
  first ← of_option (Js.lt (Js.get score1 "rank") (Js.get score2 "rank"));
  if first : bool then mret username1
  else
    second ← of_option (Js.lt (Js.get score2 "rank") (Js.get score1 "rank"));
    if second : bool then mret username2 else mret "tie".

Definition differences_of (score1 score2 : Row) : Outcome Differences :=
  rank ← of_option (Js.sub (Js.get score1 "rank") (Js.get score2 "rank"));
  score ← of_option (Js.sub (Js.get score1 "score") (Js.get score2 "score"));
  accuracy ← of_option (Js.sub (Js.get score1 "accuracy") (Js.get score2 "accuracy"));
  pp ← of_option (Js.sub (Js.or (Js.get score1 "pp") (VNum 0))
                         (Js.or (Js.get score2 "pp") (VNum 0)));
  maxCombo ← of_option (Js.sub (Js.or (Js.get score1 "max_combo") (VNum 0))
                               (Js.or (Js.get score2 "max_combo") (VNum 0)));
  mret {| diff_rank := rank; diff_score := score; diff_accuracy := accuracy;
          diff_pp := pp; diff_maxCombo := maxCombo |}.

Definition compare (username1 username2 : string) (score1 score2 beatmapInfo : option Row)
    : Outcome Comparison :=
  let side1 := {| username := username1; score := score1; hasScore := bool_decide (is_Some score1) |} in
  let side2 := {| username := username2; score := score2; hasScore := bool_decide (is_Some score2) |} in
  match score1, score2 with
  | Some s1, Some s2 =>
      w ← winner_of username1 username2 s1 s2;
      d ← differences_of s1 s2;
      mret {| beatmap := beatmapInfo; player1 := side1; player2 := side2;
              winner := w; differences := Some d |}
  | Some _, None =>
      mret {| beatmap := beatmapInfo; player1 := side1; player2 := side2;
              winner := username1; differences := None |}
  | None, _ =>
      mret {| beatmap := beatmapInfo; player1 := side1; player2 := side2;
              winner := username2; differences := None |}
  end.

Definition handler (db : Db) (username1 username2 beatmapId : string)
    : M (Response Comparison) :=
  try_catch
    ('(score1, score2, beatmapInfo) ←
       both (both (db_getRow db score_sql [wrap username1; VStr beatmapId])
                  (db_getRow db score_sql [wrap username2; VStr beatmapId]))
            (db_getRow db beatmap_sql [VStr beatmapId]);
     match score1, score2 with
     | None, None => mret (Failure 404 "Neither player has a score on this beatmap")
     | _, _ =>
         comparison ← lift (compare username1 username2 score1 score2 beatmapInfo);
         mret (Success 200 comparison)
     end)
    (internal_error "Beatmap comparison error:").

End CompareBeatmap.

(** ** compare.js, [POST /multiple] *)
Module CompareMultiple.

Definition player_sql : string := "
        SELECT * FROM player_stats 
        WHERE username ILIKE $1
      ".

(** [req.body]: a field that is absent takes its default. *)
Record Body : Type := {
  body_usernames : option (list string);
  body_metrics : option (list string)
}.

Definition default_metrics : list string :=
  ["weighted_pp"; "accuracy_avg"; "first_places"].

(** [{ username, value, rank }] *)
Record RankEntry : Type := {
  entry_username : value;
  entry_value : value;
  entry_rank : nat
}.

(** [{ best, worst, average }] *)
Record Summary : Type := { best : value; worst : value; average : value }.

Record Comparison : Type := {
  players : list Row;
  metrics : gmap string Summary;
  rankings : gmap string (list RankEntry)
}.

(** The [for ... of] loop: one awaited lookup per username, a player
    that is found is pushed, one that is not is skipped. *)
Fixpoint fetch (db : Db) (usernames : list string) (players : list Row) : M (list Row) :=
  match usernames with
  | [] => mret players
  | username :: rest =>
      player ← db_getRow db player_sql [wrap username];
      match player with
      | Some player => fetch db rest (players ++ [player])%list
      | None => fetch db rest players
      end
  end.

(** [p[metric] || 0] *)
Definition metric_value (p : Row) (metric : string) : value :=
  Js.or (Js.get p metric) (VNum 0).

Definition num (v : value) : Q :=
  match v with
  | VNum q => q
  | _ => 0%Q
  end.

(** The callback of [players.reduce], from 0. *)
Definition sum_metric (players : list Row) (metric : string) : Q :=
  foldl (fun sum p => (sum + num (metric_value p metric))%Q) 0%Q players.

(** The sum and the mean come out without rounding: the sum after each
    player and the quotient by the number of players are doubles. *)
Definition exact_mean (players : list Row) (metric : string) : bool :=
  forallb (fun k => Js.is_double (sum_metric (take k players) metric))
          (seq 1 (length players))
  && Js.is_double (sum_metric players metric / inject_Z (Z.of_nat (length players))).

(** The arithmetic below is the one of numbers.  A metric is inside the
    fragment when [p[metric] || 0] is a number, a double, for every
    player, when the sum and the mean of these numbers are computed
    without rounding, and when it is not [__proto__]: an assignment to
    that key reaches the setter every object inherits and creates no
    property. *)
Definition numeric (players : list Row) (metric : string) : bool :=
  negb (String.eqb metric "__proto__")
  && forallb (fun p => match metric_value p metric with
                       | VNum q => Js.is_double q
                       | _ => false
                       end) players
  && exact_mean players metric.

(** The comparator handed to [sort]. *)
Definition comparator (metric : string) (a b : Row) : Q :=
  let aVal := num (metric_value a metric) in
  let bVal := num (metric_value b metric) in
  if String.eqb metric "avg_rank" then (aVal - bVal)%Q else (bVal - aVal)%Q.

(** The body of [metrics.forEach]: the ranking and the summary of one
    metric.  [sortedPlayers[0][metric]] raises a [TypeError] on an empty
    array. *)
Definition rank_metric (players : list Row) (metric : string)
    : Outcome (list RankEntry * Summary) :=
  if negb (numeric players metric) then Unmodelled
  else
    let sortedPlayers := sort (comparator metric) players in
    let ranking :=
      imap (fun index player =>
              {| entry_username := Js.get player "username";
                 entry_value := metric_value player metric;
                 entry_rank := index + 1 |}) sortedPlayers in
    match head sortedPlayers, last sortedPlayers with
    | Some first, Some final =>
        Ok (ranking,
            {| best := metric_value first metric;
               worst := metric_value final metric;
               average := VNum (Qred (sum_metric players metric
                                      / inject_Z (Z.of_nat (length players)))) |})
    | _, _ => Throw "TypeError"
    end.

Fixpoint for_each_metric (ps : list Row) (ms : list string) (c : Comparison)
    : Outcome Comparison :=
  match ms with
  | [] => Ok c
  | metric :: rest =>
      '(ranking, summary) ← rank_metric ps metric;
      for_each_metric ps rest
        {| players := players c;
           metrics := <[metric := summary]> (metrics c);
           rankings := <[metric := ranking]> (rankings c) |}
  end.

Definition compare (ps : list Row) (ms : list string) : Outcome Comparison :=
  for_each_metric ps ms {| players := ps; metrics := ∅; rankings := ∅ |}.

Definition handler (db : Db) (body : Body) : M (Response Comparison) :=
  try_catch
    (let usernames := default [] (body_usernames body) in
     let metrics := default default_metrics (body_metrics body) in
     if (length usernames <? 2)%nat || (5 <? length usernames)%nat
     then mret (Failure 400 "Please provide between 2 and 5 usernames")
     else
       players ← fetch db usernames [];
       if (length players <? 2)%nat
       then mret (Failure 404 "At least 2 valid players required")
       else
         comparison ← lift (compare players metrics);
         mret (Success 200 comparison))
    (internal_error "Multiple comparison error:").

End CompareMultiple.

(** ** search.js, [GET /] *)
Module Search.

Definition players_sql : string := "
            SELECT 
              username, 
              user_id, 
              weighted_pp, 
              first_places, 
              avatar_url, 
              country_rank,
              accuracy_avg,
              total_scores
            FROM player_stats
            WHERE username ILIKE $1 AND is_active = true
            ORDER BY weighted_pp DESC
            LIMIT $2
          ".

Definition beatmaps_sql : string := "
            SELECT DISTINCT 
              bm.beatmap_id, 
              bm.artist, 
              bm.title, 
              bm.version,
              bm.difficulty_rating,
              bm.creator,
              COUNT(ats.username) as algerian_players,
              AVG(ats.accuracy) as avg_accuracy,
              MAX(ats.pp) as best_pp
            FROM beatmap_metadata bm
            LEFT JOIN algeria_top50 ats ON bm.beatmap_id = ats.beatmap_id
            WHERE bm.artist ILIKE $1 OR bm.title ILIKE $1 OR bm.version ILIKE $1 OR bm.creator ILIKE $1
            GROUP BY bm.beatmap_id, bm.artist, bm.title, bm.version, bm.difficulty_rating, bm.creator
            ORDER BY algerian_players DESC, bm.difficulty_rating DESC
            LIMIT $2
          ".

Definition scores_sql : string := "
            SELECT 
              beatmap_id, 
              beatmap_title, 
              artist, 
              difficulty_name,
              username, 
              rank, 
              score, 
              accuracy, 
              mods, 
              pp,
              last_updated
            FROM algeria_top50
            WHERE beatmap_title ILIKE $1 OR artist ILIKE $1 OR username ILIKE $1
            ORDER BY pp DESC
            LIMIT $2
          ".

(** [req.query]; [q] is required by the route's validator. *)
Record Params : Type := {
  q : string;
  type : option string;
  limit : option value
}.

(** [results]: a key is present only when its branch ran. *)
Record Results : Type := {
  players : option (list Row);
  beatmaps : option (list Row);
  scores : option (list Row)
}.

(** [{ success: true, query, type, data }] *)
Record Payload : Type := {
  payload_query : string;
  payload_type : string;
  payload_data : Results
}.

Definition branch (db : Db) (enabled : bool) (text : string) (searchTerm : string)
    (limit : value) : M (option (list Row)) :=
  if enabled then
    n ← lift (of_option (Js.parseInt limit));
    rows ← db_getRows db text [wrap searchTerm; n];
    mret (Some rows)
  else mret None.

Definition handler (cache : cacheService.t Results) (db : Db) (p : Params)
    : M (Response Payload) :=
  try_catch
    (let type := default "all" (type p) in
     let limit := default (VNum 20) (limit p) in
     let searchTerm := Js.trim (q p) in
     data ← call (CacheGet [searchTerm; type])
                 (cacheService.getSearchCache cache searchTerm type);
     match data with
     | Some data =>
         mret (Success 200
                 {| payload_query := searchTerm; payload_type := type; payload_data := data |})
     | None =>
         players ← branch db (String.eqb type "all" || String.eqb type "players")
                     players_sql searchTerm limit;
         beatmaps ← branch db (String.eqb type "all" || String.eqb type "beatmaps")
                      beatmaps_sql searchTerm limit;
         scores ← branch db (String.eqb type "all" || String.eqb type "scores")
                    scores_sql searchTerm limit;
         let data := {| players := players; beatmaps := beatmaps; scores := scores |} in
         _ ← call (CacheSet [searchTerm; type] 600)
               (cacheService.cacheSearch cache searchTerm type data 600);
         mret (Success 200
                 {| payload_query := searchTerm; payload_type := type; payload_data := data |})
     end)
    (internal_error "Search error:").

End Search.

(** ** search.js, [GET /players] *)
Module SearchPlayers.

(** The object literal [sortColumns]. *)
Definition sortColumns : gmap string value :=
  {[ "pp" := VStr "weighted_pp DESC";
     "accuracy" := VStr "accuracy_avg DESC";
     "scores" := VStr "total_scores DESC";
     "firsts" := VStr "first_places DESC";
     "name" := VStr "username ASC" ]}.

(** The clauses the allow-list holds. *)
Definition allowed : list string :=
  ["weighted_pp DESC"; "accuracy_avg DESC"; "total_scores DESC";
   "first_places DESC"; "username ASC"].

(** [sortColumns[sortBy] || sortColumns.pp] *)
Definition orderBy (sortBy : string) : value :=
  Js.or (Js.get sortColumns sortBy) (Js.get sortColumns "pp").

Definition sql_before : string := "
        SELECT 
          username, 
          user_id, 
          weighted_pp, 
          accuracy_avg,
          first_places, 
          total_scores,
          avatar_url, 
          country_rank,
          last_seen
        FROM player_stats
        WHERE username ILIKE $1 AND is_active = true
        ORDER BY ".

Definition sql_after : string := "
        LIMIT $2
      ".

(** The query text, with [${orderBy}] substituted. *)
Definition sql (sortBy : string) : option string :=
  clause ← Js.to_string (orderBy sortBy);
  Some (sql_before +:+ clause +:+ sql_after).

Record Params : Type := {
  q : string;
  limit : option value;
  sortBy : option string
}.

Record Meta : Type := { meta_sortBy : string; meta_limit : value; resultsCount : nat }.

Record Payload : Type := { query : string; data : list Row; meta : Meta }.

Definition handler (db : Db) (p : Params) : M (Response Payload) :=
  try_catch
    (let limit := default (VNum 20) (limit p) in
     let sortBy := default "pp" (sortBy p) in
     let searchTerm := Js.trim (q p) in
     text ← lift (of_option (sql sortBy));
     n ← lift (of_option (Js.parseInt limit));
     data ← db_getRows db text [wrap searchTerm; n];
     mret (Success 200
             {| query := searchTerm; data := data;
                meta := {| meta_sortBy := sortBy; meta_limit := n;
                           resultsCount := length data |} |}))
    (internal_error "Player search error:").

End SearchPlayers.

(** ** search.js, [GET /beatmaps] *)
Module SearchBeatmaps.

(** The [switch (sortBy)]. *)
Definition orderBy (sortBy : string) : string :=
  if String.eqb sortBy "difficulty" then "bm.difficulty_rating DESC"
  else if String.eqb sortBy "alphabetical" then "bm.artist ASC, bm.title ASC"
  else if String.eqb sortBy "pp" then "MAX(ats.pp) DESC"
  else "COUNT(ats.username) DESC".

Definition allowed : list string :=
  ["bm.difficulty_rating DESC"; "bm.artist ASC, bm.title ASC";
   "MAX(ats.pp) DESC"; "COUNT(ats.username) DESC"].

Definition sql_before : string := "
        SELECT DISTINCT 
          bm.beatmap_id, 
          bm.artist, 
          bm.title, 
          bm.version,
          bm.difficulty_rating,
          bm.creator,
          bm.length,
          bm.bpm,
          COUNT(ats.username) as algerian_players,
          AVG(ats.accuracy) as avg_accuracy,
          MAX(ats.pp) as best_pp,
          MAX(ats.score) as best_score
        FROM beatmap_metadata bm
        LEFT JOIN algeria_top50 ats ON bm.beatmap_id = ats.beatmap_id
        WHERE 
          bm.artist ILIKE $1 OR 
          bm.title ILIKE $1 OR 
          bm.version ILIKE $1 OR 
          bm.creator ILIKE $1
        GROUP BY bm.beatmap_id, bm.artist, bm.title, bm.version, bm.difficulty_rating, bm.creator, bm.length, bm.bpm
        ORDER BY ".

Definition sql_after : string := "
        LIMIT $2
      ".

Definition sql (sortBy : string) : string :=
  sql_before +:+ orderBy sortBy +:+ sql_after.

End SearchBeatmaps.

(** ** search.js, [POST /advanced] *)
Module SearchAdvanced.

(** [filters.dateRange] *)
Record DateRange : Type := { range_start : value; range_end : value }.

(** [req.body.filters]; an absent field takes the default of the
    destructuring pattern. *)
Record Filters : Type := {
  type : option string;
  minPP : option Q;
  maxPP : option Q;
  minAccuracy : option Q;
  maxAccuracy : option Q;
  minDifficulty : option Q;
  maxDifficulty : option Q;
  mods : option (list string);
  dateRange : option DateRange
}.

Definition no_filters : Filters :=
  {| type := None; minPP := None; maxPP := None; minAccuracy := None;
     maxAccuracy := None; minDifficulty := None; maxDifficulty := None;
     mods := None; dateRange := None |}.

(** [req.body] *)
Record Body : Type := {
  query : option string;
  filters : option Filters;
  limit : option value;
  offset : option value
}.

(** The three variables a query is built in: the text, the parameter
    list and the running parameter index. *)
Record Builder : Type := {
  text : string;
  params : list value;
  paramCount : nat
}.

(** One conditional block:
    [if (cond) { text += fragment(++paramCount); params.push(v); }] *)
Definition add (cond : bool) (fragment : nat -> string) (v : value) (b : Builder) : Builder :=
  if cond then
    let n := S (paramCount b) in
    {| text := text b +:+ fragment n; params := (params b ++ [v])%list; paramCount := n |}
  else b.

(** The closing block: the ORDER BY clause with LIMIT and OFFSET, and the
    two pagination parameters. *)
Definition paginate (order : string) (limit offset : value) (b : Builder) : Outcome Builder :=
  let n1 := S (paramCount b) in
  let n2 := S n1 in
  l ← of_option (Js.parseInt limit);
  o ← of_option (Js.parseInt offset);
  mret {| text := text b +:+ order +:+ " LIMIT " +:+ Js.show_nat n1
                         +:+ " OFFSET " +:+ Js.show_nat n2;
          params := (params b ++ [l; o])%list;
          paramCount := n2 |}.

Definition player_base : string := "
        SELECT 
          username, user_id, weighted_pp, accuracy_avg, first_places, 
          total_scores, avatar_url, country_rank
        FROM player_stats
        WHERE is_active = true
      ".

Definition score_base : string := "
        SELECT 
          beatmap_id, beatmap_title, artist, difficulty_name, username,
          rank, score, accuracy, mods, pp, difficulty_rating, last_updated
        FROM algeria_top50
        WHERE 1=1
      ".

(** The player query: five optional conditions, then the pagination. *)
Definition playerQuery (searchQuery : string) (f : Filters) (limit offset : value)
    : Outcome Builder :=
  let minPP := default 0%Q (minPP f) in
  let maxPP := default 10000%Q (maxPP f) in
  let minAccuracy := default 0%Q (minAccuracy f) in
  let maxAccuracy := default 1%Q (maxAccuracy f) in
  let b := {| text := player_base; params := []; paramCount := 0 |} in
  let b := add (Js.truthy (VStr searchQuery))
               (fun n => " AND username ILIKE " +:+ Js.show_nat n) (wrap searchQuery) b in
  let b := add (Js.ltb 0 minPP)
               (fun n => " AND weighted_pp >= " +:+ Js.show_nat n) (VNum minPP) b in
  let b := add (Js.ltb maxPP 10000)
               (fun n => " AND weighted_pp <= " +:+ Js.show_nat n) (VNum maxPP) b in
  let b := add (Js.ltb 0 minAccuracy)
               (fun n => " AND accuracy_avg >= " +:+ Js.show_nat n) (VNum minAccuracy) b in
  let b := add (Js.ltb maxAccuracy 1)
               (fun n => " AND accuracy_avg <= " +:+ Js.show_nat n) (VNum maxAccuracy) b in
  paginate " ORDER BY weighted_pp DESC" limit offset b.

(** The score query: ten optional conditions, then the pagination;
    [getTime v] stands for [new Date(v).getTime()]. *)
Definition scoreQuery (getTime : value -> value) (searchQuery : string) (f : Filters)
    (limit offset : value) : Outcome Builder :=
  let minPP := default 0%Q (minPP f) in
  let maxPP := default 10000%Q (maxPP f) in
  let minAccuracy := default 0%Q (minAccuracy f) in
  let maxAccuracy := default 1%Q (maxAccuracy f) in
  let minDifficulty := default 0%Q (minDifficulty f) in
  let maxDifficulty := default 10%Q (maxDifficulty f) in
  let mods := default [] (mods f) in
  let dateRange := default {| range_start := VUndefined; range_end := VUndefined |}
                           (dateRange f) in
  let b := {| text := score_base; params := []; paramCount := 0 |} in
  let b := add (Js.truthy (VStr searchQuery))
               (fun n => " AND (beatmap_title ILIKE " +:+ Js.show_nat n
                           +:+ " OR artist ILIKE " +:+ Js.show_nat n
                           +:+ " OR username ILIKE " +:+ Js.show_nat n +:+ ")")
               (wrap searchQuery) b in
  let b := add (Js.ltb 0 minPP)
               (fun n => " AND pp >= " +:+ Js.show_nat n) (VNum minPP) b in
  let b := add (Js.ltb maxPP 10000)
               (fun n => " AND pp <= " +:+ Js.show_nat n) (VNum maxPP) b in
  let b := add (Js.ltb 0 minAccuracy)
               (fun n => " AND accuracy >= " +:+ Js.show_nat n) (VNum minAccuracy) b in
  let b := add (Js.ltb maxAccuracy 1)
               (fun n => " AND accuracy <= " +:+ Js.show_nat n) (VNum maxAccuracy) b in
  let b := add (Js.ltb 0 minDifficulty)
               (fun n => " AND difficulty_rating >= " +:+ Js.show_nat n) (VNum minDifficulty) b in
  let b := add (Js.ltb maxDifficulty 10)
               (fun n => " AND difficulty_rating <= " +:+ Js.show_nat n) (VNum maxDifficulty) b in
  let b := add (0 <? length mods)%nat
               (fun n => " AND mods = ANY(" +:+ Js.show_nat n +:+ ")") (VList mods) b in
  let b := add (Js.truthy (range_start dateRange))
               (fun n => " AND last_updated >= " +:+ Js.show_nat n)
               (getTime (range_start dateRange)) b in
  let b := add (Js.truthy (range_end dateRange))
               (fun n => " AND last_updated <= " +:+ Js.show_nat n)
               (getTime (range_end dateRange)) b in
  paginate " ORDER BY pp DESC" limit offset b.

Record Results : Type := { players : option (list Row); scores : option (list Row) }.

Record Payload : Type := {
  payload_query : string;
  payload_filters : Filters;
  payload_data : Results;
  meta_limit : value;
  meta_offset : value
}.

Definition run (db : Db) (enabled : bool) (built : Outcome Builder) : M (option (list Row)) :=
  if enabled then
    b ← lift built;
    rows ← db_getRows db (text b) (params b);
    mret (Some rows)
  else mret None.

Definition handler (db : Db) (getTime : value -> value) (body : Body)
    : M (Response Payload) :=
  try_catch
    (let searchQuery := default "" (query body) in
     let filters := default no_filters (filters body) in
     let limit := default (VNum 20) (limit body) in
     let offset := default (VNum 0) (offset body) in
     let type := default "all" (type filters) in
     players ← run db (String.eqb type "all" || String.eqb type "players")
                 (playerQuery searchQuery filters limit offset);
     scores ← run db (String.eqb type "all" || String.eqb type "scores")
                (scoreQuery getTime searchQuery filters limit offset);
     l ← lift (of_option (Js.parseInt limit));
     o ← lift (of_option (Js.parseInt offset));
     mret (Success 200
             {| payload_query := searchQuery; payload_filters := filters;
                payload_data := {| players := players; scores := scores |};
                meta_limit := l; meta_offset := o |}))
    (internal_error "Advanced search error:").

End SearchAdvanced.

(** ** The storage behind [getRow] *)
Module Pg.

(** ASCII case folding, as [ILIKE] compares. *)
Definition fold_case (c : ascii) : ascii :=
  let n := nat_of_ascii c in
  if (65 <=? n)%nat && (n <=? 90)%nat then ascii_of_nat (n + 32) else c.

(** Modelled from the spec: the matching done by the database behind
    [getRow] ([../config/db] is not under src/).  This is the SQL [LIKE]
    match of a whole subject against a pattern: [%] stands for any run
    of characters, [_] for any one character, and a backslash makes the
    character after it literal. *)
Fixpoint like (pattern : list ascii) : list ascii -> bool :=
  match pattern with
  | [] => fun subject => match subject with [] => true | _ => false end
  | "%"%char :: rest =>
      fix skip (subject : list ascii) : bool :=
        like rest subject
        || match subject with
           | [] => false
           | _ :: subject' => skip subject'
           end
  | "_"%char :: rest =>
      fun subject => match subject with [] => false | _ :: subject' => like rest subject' end
  | "\"%char :: c :: rest =>
      fun subject =>
        match subject with
        | [] => false
        | d :: subject' => Ascii.eqb c d && like rest subject'
        end
  | c :: rest =>
      fun subject =>
        match subject with
        | [] => false
        | d :: subject' => Ascii.eqb c d && like rest subject'
        end
  end.

(** [subject ILIKE pattern] *)
Definition ilike (subject pattern : string) : bool :=
  like (map fold_case (String.list_ascii_of_string pattern))
       (map fold_case (String.list_ascii_of_string subject)).

(** [subject] contains [needle], letter case aside. *)
Definition contains (subject needle : string) : Prop :=
  exists before after : list ascii,
    map fold_case (String.list_ascii_of_string subject)
    = (before ++ map fold_case (String.list_ascii_of_string needle) ++ after)%list.

Definition username_ilike (pattern : value) (r : Row) : bool :=
  match Js.get r "username", pattern with
  | VStr u, VStr p => ilike u p
  | _, _ => false
  end.

(** Modelled from the spec: [getRow] over a [player_stats] table, for the
    lookup [WHERE username ILIKE $1] the comparison routes issue; it
    answers with the first row that matches, or with none. *)
Definition player_stats (table : list Row) : Db :=
  {| getRow := fun text params =>
       if String.eqb text ComparePlayers.player_sql
          || String.eqb text CompareMultiple.player_sql
       then match params with
            | [pattern] => Ok (List.find (username_ilike pattern) table)
            | _ => Throw "bind message supplies the wrong number of parameters"
            end
       else Ok None;
     getRows := fun _ _ => Ok [] |}.

End Pg.

(** ** compare.js, [GET /:username1/:username2/head-to-head] *)
Module CompareHeadToHead.

Definition common_sql : string := "
        SELECT 
          s1.beatmap_id,
          s1.beatmap_title,
          s1.artist,
          s1.difficulty_name,
          s1.difficulty_rating,
          s1.username as player1_username,
          s1.rank as player1_rank,
          s1.score as player1_score,
          s1.accuracy as player1_accuracy,
          s1.pp as player1_pp,
          s1.mods as player1_mods,
          s2.username as player2_username,
          s2.rank as player2_rank,
          s2.score as player2_score,
          s2.accuracy as player2_accuracy,
          s2.pp as player2_pp,
          s2.mods as player2_mods,
          CASE 
            WHEN s1.rank < s2.rank THEN $1
            WHEN s2.rank < s1.rank THEN $2
            ELSE 'tie'
          END as winner
        FROM algeria_top50 s1
        JOIN algeria_top50 s2 ON s1.beatmap_id = s2.beatmap_id
        WHERE s1.username ILIKE $3 AND s2.username ILIKE $4
        ORDER BY GREATEST(s1.pp, s2.pp) DESC
        LIMIT $5
      ".

(** [{ totalBeatmaps, player1Wins, player2Wins, ties }] *)
Record Summary : Type := {
  totalBeatmaps : nat;
  player1Wins : nat;
  player2Wins : nat;
  ties : nat
}.

Definition no_games : Summary :=
  {| totalBeatmaps := 0; player1Wins := 0; player2Wins := 0; ties := 0 |}.

(** [{ commonBeatmaps, summary, players }]; [players] is left out of the
    answer for an empty result. *)
Record Data : Type := {
  commonBeatmaps : list Row;
  summary : Summary;
  players : option (string * string)
}.

(** The callback of [commonBeatmaps.reduce]. *)
Definition tally (username1 username2 : string) (acc : Summary) (beatmap : Row) : Summary :=
  let acc := {| totalBeatmaps := S (totalBeatmaps acc); player1Wins := player1Wins acc;
                player2Wins := player2Wins acc; ties := ties acc |} in
  if Js.is_string (Js.get beatmap "winner") username1 then
    {| totalBeatmaps := totalBeatmaps acc; player1Wins := S (player1Wins acc);
       player2Wins := player2Wins acc; ties := ties acc |}
  else if Js.is_string (Js.get beatmap "winner") username2 then
    {| totalBeatmaps := totalBeatmaps acc; player1Wins := player1Wins acc;
       player2Wins := S (player2Wins acc); ties := ties acc |}
  else
    {| totalBeatmaps := totalBeatmaps acc; player1Wins := player1Wins acc;
       player2Wins := player2Wins acc; ties := S (ties acc) |}.

Definition summarize (username1 username2 : string) (commonBeatmaps : list Row) : Summary :=
  foldl (tally username1 username2) no_games commonBeatmaps.

Definition handler (db : Db) (username1 username2 : string) (limit : option value)
    : M (Response Data) :=
  try_catch
    (let limit := default (VNum 20) limit in
     n ← lift (of_option (Js.parseInt limit));
     commonBeatmaps ← db_getRows db common_sql
                        [VStr username1; VStr username2; wrap username1; wrap username2; n];
     if (length commonBeatmaps =? 0)%nat
     then mret (Success 200
                  {| commonBeatmaps := []; summary := no_games; players := None |})
     else mret (Success 200
                  {| commonBeatmaps := commonBeatmaps;
                     summary := summarize username1 username2 commonBeatmaps;
                     players := Some (username1, username2) |}))
    (internal_error "Head-to-head error:").

End CompareHeadToHead.

(** ** search.js, [GET /beatmaps], the handler *)
Module SearchBeatmapsRoute.

Record Params : Type := {
  q : string;
  limit : option value;
  sortBy : option string
}.

Record Meta : Type := { meta_sortBy : string; meta_limit : value; resultsCount : nat }.

Record Payload : Type := { query : string; data : list Row; meta : Meta }.

Definition handler (db : Db) (p : Params) : M (Response Payload) :=
  try_catch
    (let limit := default (VNum 20) (limit p) in
     let sortBy := default "popularity" (sortBy p) in
     let searchTerm := Js.trim (q p) in
     n ← lift (of_option (Js.parseInt limit));
     data ← db_getRows db (SearchBeatmaps.sql sortBy) [wrap searchTerm; n];
     mret (Success 200
             {| query := searchTerm; data := data;
                meta := {| meta_sortBy := sortBy; meta_limit := n;
                           resultsCount := length data |} |}))
    (internal_error "Beatmap search error:").

End SearchBeatmapsRoute.

(** ** search.js, [GET /suggestions] *)
Module SearchSuggestions.

Definition players_sql : string := "
          SELECT username, avatar_url, weighted_pp
          FROM player_stats
          WHERE username ILIKE $1 AND is_active = true
          ORDER BY weighted_pp DESC
          LIMIT $2
        ".

Definition beatmaps_sql : string := "
          SELECT DISTINCT 
            CONCAT(artist, ' - ', title) as full_title,
            artist,
            title,
            COUNT(ats.username) as popularity
          FROM beatmap_metadata bm
          LEFT JOIN algeria_top50 ats ON bm.beatmap_id = ats.beatmap_id
          WHERE artist ILIKE $1 OR title ILIKE $1
          GROUP BY artist, title
          ORDER BY popularity DESC
          LIMIT $2
        ".

Definition artists_sql : string := "
          SELECT DISTINCT 
            artist,
            COUNT(DISTINCT bm.beatmap_id) as beatmap_count,
            COUNT(ats.username) as score_count
          FROM beatmap_metadata bm
          LEFT JOIN algeria_top50 ats ON bm.beatmap_id = ats.beatmap_id
          WHERE artist ILIKE $1
          GROUP BY artist
          ORDER BY score_count DESC, beatmap_count DESC
          LIMIT $2
        ".

Record Params : Type := {
  q : string;
  type : option string;
  limit : option value
}.

Record Suggestions : Type := {
  players : option (list Row);
  beatmaps : option (list Row);
  artists : option (list Row)
}.

Record Payload : Type := { query : string; suggestions : Suggestions }.

(** [`${searchTerm}%`]: the term is a prefix here, not an infix. *)
Definition prefix_of (searchTerm : string) : value := VStr (searchTerm +:+ "%").

Definition branch (db : Db) (enabled : bool) (text : string) (searchTerm : string)
    (limit : value) : M (option (list Row)) :=
  if enabled then
    n ← lift (of_option (Js.parseInt limit));
    rows ← db_getRows db text [prefix_of searchTerm; n];
    mret (Some rows)
  else mret None.

Definition handler (db : Db) (p : Params) : M (Response Payload) :=
  try_catch
    (let type := default "all" (type p) in
     let limit := default (VNum 10) (limit p) in
     let searchTerm := Js.trim (q p) in
     players ← branch db (String.eqb type "all" || String.eqb type "players")
                 players_sql searchTerm limit;
     beatmaps ← branch db (String.eqb type "all" || String.eqb type "beatmaps")
                  beatmaps_sql searchTerm limit;
     artists ← branch db (String.eqb type "all" || String.eqb type "artists")
                 artists_sql searchTerm limit;
     mret (Success 200
             {| query := searchTerm;
                suggestions := {| players := players; beatmaps := beatmaps;
                                  artists := artists |} |}))
    (internal_error "Search suggestions error:").

End SearchSuggestions.

(** ** search.js, [GET /popular] *)
Module SearchPopular.

Definition players_sql : string := "
      SELECT username, weighted_pp, first_places, avatar_url
      FROM player_stats
      WHERE is_active = true
      ORDER BY weighted_pp DESC
      LIMIT $1
    ".

Definition beatmaps_sql : string := "
      SELECT DISTINCT 
        bm.beatmap_id,
        bm.artist,
        bm.title,
        bm.version,
        bm.difficulty_rating,
        COUNT(ats.username) as algerian_players
      FROM beatmap_metadata bm
      LEFT JOIN algeria_top50 ats ON bm.beatmap_id = ats.beatmap_id
      GROUP BY bm.beatmap_id, bm.artist, bm.title, bm.version, bm.difficulty_rating
      ORDER BY algerian_players DESC
      LIMIT $1
    ".

(** [v / 2] on a number operand. *)
Definition half (v : value) : option value :=
  match v with
  | VNum q => Some (VNum (Qred (q / 2)))
  | VNaN => Some VNaN
  | _ => None
  end.

Record Data : Type := { players : list Row; beatmaps : list Row }.

Definition handler (db : Db) (limit : option value) : M (Response Data) :=
  try_catch
    (let limit := default (VNum 20) limit in
     n ← lift (of_option (Js.parseInt limit));
     h ← lift (of_option (half n));
     popularPlayers ← db_getRows db players_sql [h];
     n' ← lift (of_option (Js.parseInt limit));
     h' ← lift (of_option (half n'));
     popularBeatmaps ← db_getRows db beatmaps_sql [h'];
     mret (Success 200 {| players := popularPlayers; beatmaps := popularBeatmaps |}))
    (internal_error "Popular search error:").

End SearchPopular.

(** ** Requests and collaborators used as concrete inputs *)
Module Fixtures.

Definition alice : Row :=
  {[ "username" := VStr "alice"; "weighted_pp" := VNum 800; "country_rank" := VNum 5 ]}.

Definition bob : Row :=
  {[ "username" := VStr "bobby"; "weighted_pp" := VNum 500; "country_rank" := VNum 20 ]}.

Definition db : Db := Pg.player_stats [alice; bob].

(** A table with a player whose name holds a backslash. *)
Definition slash : Row :=
  {[ "username" := VStr "back\slash"; "weighted_pp" := VNum 100; "country_rank" := VNum 7 ]}.

Definition slash_db : Db := Pg.player_stats [slash; alice].




(** Two scores on one beatmap: the first holds rank 1, the second rank 3. *)
Definition score_rank1 : Row :=
  {[ "username" := VStr "alice"; "rank" := VNum 1; "score" := VNum 990000;
     "accuracy" := VNum 1; "pp" := VNum 300; "max_combo" := VNum 800 ]}.

Definition score_rank3 : Row :=
  {[ "username" := VStr "bobby"; "rank" := VNum 3; "score" := VNum 950000;
     "accuracy" := VNum 1; "pp" := VNum 250; "max_combo" := VNum 700 ]}.

(** A player whose [avg_rank] and [country_rank] are null, and one who
    holds an average rank of 5. *)
Definition unranked : Row :=
  {[ "username" := VStr "newcomer"; "avg_rank" := VNull; "country_rank" := VNull ]}.

Definition ranked : Row :=
  {[ "username" := VStr "veteran"; "avg_rank" := VNum 5; "country_rank" := VNum 20 ]}.

(** A stand-in for [parseFloat] on values that are numbers already. *)
Definition parseFloat (v : value) : value :=
  match v with
  | VNum q => VNum q
  | _ => VNaN
  end.

(** A cache whose [get] and [getSearchCache] raise. *)
Definition faulty_get (D : Type) : cacheService.t D :=
  {| cacheService.generateKey := fun parts => String.concat ":" parts;
     cacheService.get := fun _ => Throw "ECONNREFUSED";
     cacheService.set := fun _ _ _ => Ok tt;
     cacheService.getSearchCache := fun _ _ => Throw "ECONNREFUSED";
     cacheService.cacheSearch := fun _ _ _ _ => Ok tt |}.

(** A cache that misses on every read and raises on every write. *)
Definition faulty_set (D : Type) : cacheService.t D :=
  {| cacheService.generateKey := fun parts => String.concat ":" parts;
     cacheService.get := fun _ => Ok None;
     cacheService.set := fun _ _ _ => Throw "ECONNREFUSED";
     cacheService.getSearchCache := fun _ _ => Ok None;
     cacheService.cacheSearch := fun _ _ _ _ => Throw "ECONNREFUSED" |}.

(** A cache that misses on every read and accepts every write. *)
Definition empty_cache (D : Type) : cacheService.t D :=
  {| cacheService.generateKey := fun parts => String.concat ":" parts;
     cacheService.get := fun _ => Ok None;
     cacheService.set := fun _ _ _ => Ok tt;
     cacheService.getSearchCache := fun _ _ => Ok None;
     cacheService.cacheSearch := fun _ _ _ _ => Ok tt |}.

(** Bodies of [POST /multiple] with one, two, three, five and six
    usernames; ["nobody"] matches no stored player. *)
Definition multiple (usernames : list string) : CompareMultiple.Body :=
  {| CompareMultiple.body_usernames := Some usernames;
     CompareMultiple.body_metrics := None |}.

Definition one_name : list string := ["alice"].
Definition two_names : list string := ["alice"; "bob"].
Definition three_names : list string := ["alice"; "nobody"; "bob"].
Definition five_names : list string := ["alice"; "bob"; "ALICE"; "bobby"; "lic"].
Definition six_names : list string := ["alice"; "bob"; "ALICE"; "bobby"; "lic"; "obb"].

(** [GET /players?q=alice&sortBy=constructor] *)
Definition players_by_constructor : SearchPlayers.Params :=
  {| SearchPlayers.q := "alice"; SearchPlayers.limit := None;
     SearchPlayers.sortBy := Some "constructor" |}.

Definition search_alice : Search.Params :=
  {| Search.q := " alice "; Search.type := Some "players"; Search.limit := None |}.

End Fixtures.

(** ** Notions the statements are written with *)

(** [x] may stand before [y] under the comparator [cmp]. *)
Definition before {A} (cmp : A -> A -> Q) (x y : A) : Prop := (cmp x y <= 0)%Q.



(** The two-player comparison reaches [cacheService.set] with [data]:
    the read missed without raising, both players were found, and all
    four row sets arrived. *)
Definition compare_writes (cache : cacheService.t ComparePlayers.Data) (db : Db)
    (parseFloat : value -> value) (username1 username2 : string)
    (data : ComparePlayers.Data) : Prop :=
  cacheService.get cache (cacheService.generateKey cache ["compare"; username1; username2])
    = Ok None /\
  exists player1 player2 skills1 skills2 scores1 scores2,
    getRow db ComparePlayers.player_sql [wrap username1] = Ok (Some player1) /\
    getRow db ComparePlayers.player_sql [wrap username2] = Ok (Some player2) /\
    getRows db ComparePlayers.skills_sql [wrap username1] = Ok skills1 /\
    getRows db ComparePlayers.skills_sql [wrap username2] = Ok skills2 /\
    getRows db ComparePlayers.scores_sql [wrap username1] = Ok scores1 /\
    getRows db ComparePlayers.scores_sql [wrap username2] = Ok scores2 /\
    ComparePlayers.assemble parseFloat player1 player2 skills1 skills2 scores1 scores2
      = Ok data.

(** What a branch of the main search leaves in the results: the rows
    its query returned when the branch runs, no field when it does not. *)
Definition branch_found (db : Db) (on : bool) (text searchTerm : string) (limit : value)
    (found : option (list Row)) : Prop :=
  if on then
    exists n rows,
      Js.parseInt limit = Some n
      /\ getRows db text [wrap searchTerm; n] = Ok rows
      /\ found = Some rows
  else found = None.

(** The main search reaches [cacheService.cacheSearch] with [data]: the
    read missed without raising, and every branch the type selects got
    the rows that [data] holds. *)
Definition search_writes (search_cache : cacheService.t Search.Results) (db : Db)
    (p : Search.Params) (data : Search.Results) : Prop :=
  let type := default "all" (Search.type p) in
  let limit := default (VNum 20) (Search.limit p) in
  let searchTerm := Js.trim (Search.q p) in
  cacheService.getSearchCache search_cache searchTerm type = Ok None
  /\ branch_found db (String.eqb type "all" || String.eqb type "players")
        Search.players_sql searchTerm limit (Search.players data)
  /\ branch_found db (String.eqb type "all" || String.eqb type "beatmaps")
        Search.beatmaps_sql searchTerm limit (Search.beatmaps data)
  /\ branch_found db (String.eqb type "all" || String.eqb type "scores")
        Search.scores_sql searchTerm limit (Search.scores data).

(** [c] occurs in [s]. *)
Fixpoint has_char (c : ascii) (s : string) : bool :=
  match s with
  | EmptyString => false
  | String d s' => Ascii.eqb c d || has_char c s'
  end.

(** The characters a [LIKE] pattern reads specially, and the texts
    that hold none of them. *)
Definition special (c : ascii) : bool :=
  Ascii.eqb c "%" || Ascii.eqb c "_" || Ascii.eqb c "\".

Definition plain (s : string) : bool :=
  negb (has_char "%" s || has_char "_" s || has_char "\" s).

(** The words of a text: its runs of characters other than white
    space. *)
Fixpoint words_from (word : string) (s : string) : list string :=
  match s with
  | EmptyString => if String.eqb word "" then [] else [word]
  | String c s' =>
      if Js.is_space c
      then (if String.eqb word "" then words_from "" s' else word :: words_from "" s')
      else words_from (word +:+ String c "") s'
  end.

Definition words (s : string) : list string := words_from "" s.

(** How many of the conditions are met. *)
Definition count_true (l : list bool) : nat := length (filter (fun b => b = true) l).

(** The conditions of the player query, in source order. *)
Definition player_present (searchQuery : string) (f : SearchAdvanced.Filters) : list bool :=
  [ Js.truthy (VStr searchQuery);
    Js.ltb 0 (default 0%Q (SearchAdvanced.minPP f));
    Js.ltb (default 10000%Q (SearchAdvanced.maxPP f)) 10000;
    Js.ltb 0 (default 0%Q (SearchAdvanced.minAccuracy f));
    Js.ltb (default 1%Q (SearchAdvanced.maxAccuracy f)) 1 ].

(** The conditions of the score query, in source order. *)
Definition score_present (searchQuery : string) (f : SearchAdvanced.Filters) : list bool :=
  player_present searchQuery f ++
  [ Js.ltb 0 (default 0%Q (SearchAdvanced.minDifficulty f));
    Js.ltb (default 10%Q (SearchAdvanced.maxDifficulty f)) 10;
    (0 <? length (default [] (SearchAdvanced.mods f)))%nat;
    Js.truthy (SearchAdvanced.range_start
                 (default {| SearchAdvanced.range_start := VUndefined;
                             SearchAdvanced.range_end := VUndefined |}
                          (SearchAdvanced.dateRange f)));
    Js.truthy (SearchAdvanced.range_end
                 (default {| SearchAdvanced.range_start := VUndefined;
                             SearchAdvanced.range_end := VUndefined |}
                          (SearchAdvanced.dateRange f))) ]%list.

(** Two builder states that agree on the text and on the index. *)
Definition same_shape (b b' : SearchAdvanced.Builder) : Prop :=
  SearchAdvanced.text b = SearchAdvanced.text b'
  /\ SearchAdvanced.paramCount b = SearchAdvanced.paramCount b'.

(** [m] adds events at the end of the trace and touches nothing before. *)
Definition extends {A} (m : M A) : Prop :=
  forall tr, exists more, snd (m tr) = (tr ++ more)%list.

(** The first things [m] does are [evs], in that order. *)
Definition starts_with {A} (evs : list Event) (m : M A) : Prop :=
  forall tr, exists more, snd (m tr) = (tr ++ evs ++ more)%list.

(** The players the lookups find, in request order: a username the
    database answers with no row for contributes nothing. *)
Definition resolved (db : Db) (usernames : list string) : list Row :=
  omap (fun u =>
          match getRow db CompareMultiple.player_sql [wrap u] with
          | Ok found => found
          | _ => None
          end) usernames.

(** What is left of the multi-player handler once the bound check has
    passed. *)
Definition after_check (db : Db) (usernames metrics : list string)
    : M (Response CompareMultiple.Comparison) :=
  players ← CompareMultiple.fetch db usernames [];
  if (length players <? 2)%nat
  then mret (Failure 404 "At least 2 valid players required")
  else
    comparison ← lift (CompareMultiple.compare players metrics);
    mret (Success 200 comparison).

(** [m] may raise, and a value it returns satisfies [P]. *)
Definition yields {A} (P : A -> Prop) (m : M A) : Prop :=
  forall tr,
    match fst (m tr) with
    | Ok a => P a
    | _ => True
    end.

(** [m] raises nothing, and a value it returns satisfies [P]. *)
Definition answers {A} (P : A -> Prop) (m : M A) : Prop :=
  forall tr,
    match fst (m tr) with
    | Ok a => P a
    | Throw _ => False
    | Unmodelled => True
    end.

(** The answers of the comparison routes: [200] with a payload, or one
    of the fixed failures. *)
Definition compare_response {D} (r : Response D) : Prop :=
  match r with
  | Success s _ => s = 200%Z
  | Failure s msg =>
      (s = 400%Z /\ msg = "Please provide between 2 and 5 usernames")
      \/ (s = 404%Z /\ (msg = "One or both players not found"
                        \/ msg = "Neither player has a score on this beatmap"
                        \/ msg = "At least 2 valid players required"))
      \/ (s = 500%Z /\ msg = "Internal server error")
  end.

(** The answers of the search routes: [200] with a payload, or the one
    fixed failure. *)
Definition search_response {D} (r : Response D) : Prop :=
  match r with
  | Success s _ => s = 200%Z
  | Failure s msg => s = 500%Z /\ msg = "Internal server error"
  end.




(** The lookup the multi-player comparison sends for [username]. *)
Definition lookup_event (username : string) : Event :=
  Query CompareMultiple.player_sql [wrap username].

(** The row names [username] as its winner. *)
Definition won_by (username : string) (beatmap : Row) : bool :=
  Js.is_string (Js.get beatmap "winner") username.

(** The branch for [name] runs: [type === 'all' || type === name]. *)
Definition enabled (type name : string) : bool :=
  String.eqb type "all" || String.eqb type name.

(** The query of a branch, when the branch runs. *)
Definition when (cond : bool) (ev : Event) : list Event :=
  if cond then [ev] else [].

(** The queries of the main search, in the order they are sent. *)
Definition search_queries (type searchTerm : string) (n : value) : list Event :=
  (when (enabled type "players") (Query Search.players_sql [wrap searchTerm; n])
   ++ when (enabled type "beatmaps") (Query Search.beatmaps_sql [wrap searchTerm; n])
   ++ when (enabled type "scores") (Query Search.scores_sql [wrap searchTerm; n]))%list.

(** The queries of the suggestions, in the order they are sent. *)
Definition suggestion_queries (type searchTerm : string) (n : value) : list Event :=
  (when (enabled type "players")
     (Query SearchSuggestions.players_sql [SearchSuggestions.prefix_of searchTerm; n])
   ++ when (enabled type "beatmaps")
        (Query SearchSuggestions.beatmaps_sql [SearchSuggestions.prefix_of searchTerm; n])
   ++ when (enabled type "artists")
        (Query SearchSuggestions.artists_sql [SearchSuggestions.prefix_of searchTerm; n]))%list.

(** The database answers every row-set query. *)
Definition answers_rows (db : Db) : Prop :=
  forall text params, exists rows, getRows db text params = Ok rows.

(** The values whose condition is met, in order. *)
Fixpoint met (conds : list bool) (vals : list value) : list value :=
  match conds, vals with
  | c :: conds', v :: vals' => ((if c then [v] else []) ++ met conds' vals')%list
  | _, _ => []
  end.

(** The values the player query can bind, in source order. *)
Definition player_values (searchQuery : string) (f : SearchAdvanced.Filters) : list value :=
  [ wrap searchQuery;
    VNum (default 0%Q (SearchAdvanced.minPP f));
    VNum (default 10000%Q (SearchAdvanced.maxPP f));
    VNum (default 0%Q (SearchAdvanced.minAccuracy f));
    VNum (default 1%Q (SearchAdvanced.maxAccuracy f)) ].

(** The values the score query can bind, in source order. *)
Definition score_values (getTime : value -> value) (searchQuery : string)
    (f : SearchAdvanced.Filters) : list value :=
  (player_values searchQuery f ++
   [ VNum (default 0%Q (SearchAdvanced.minDifficulty f));
     VNum (default 10%Q (SearchAdvanced.maxDifficulty f));
     VList (default [] (SearchAdvanced.mods f));
     getTime (SearchAdvanced.range_start
                (default {| SearchAdvanced.range_start := VUndefined;
                            SearchAdvanced.range_end := VUndefined |}
                         (SearchAdvanced.dateRange f)));
     getTime (SearchAdvanced.range_end
                (default {| SearchAdvanced.range_start := VUndefined;
                            SearchAdvanced.range_end := VUndefined |}
                         (SearchAdvanced.dateRange f))) ])%list.

(** [s] holds decimal digits only. *)
Fixpoint decimal (s : string) : bool :=
  match s with
  | EmptyString => true
  | String c s' =>
      match Js.digit_of 10 c with
      | Some _ => decimal s'
      | None => false
      end
  end.

Definition first_char (s : string) : option ascii :=
  match s with
  | String c _ => Some c
  | EmptyString => None
  end.

Fixpoint last_char (s : string) : option ascii :=
  match s with
  | EmptyString => None
  | String c EmptyString => Some c
  | String _ s' => last_char s'
  end.

(** [s] holds white space only. *)
Fixpoint blank (s : string) : bool :=
  match s with
  | EmptyString => true
  | String c s' => Js.is_space c && blank s'
  end.

(** The search request [p] with white space put around its [q]. *)
Definition padded (before after : string) (p : Search.Params) : Search.Params :=
  {| Search.q := before +:+ Search.q p +:+ after;
     Search.type := Search.type p;
     Search.limit := Search.limit p |}.

(** Half of the integer [z], in lowest terms. *)
Definition halved (z : Z) : Q :=
  if Z.even z then inject_Z (z / 2) else (z # 2).

(** The number with its sign changed; [NaN] stays [NaN]. *)
Definition negated (v : value) : value :=
  match v with
  | VNum q => VNum (- q)
  | _ => v
  end.

(** [d'] is [d] with the two players exchanged. *)
Definition mirrored (d d' : ComparePlayers.Diff) : Prop :=
  ComparePlayers.of_player1 d' = ComparePlayers.of_player2 d
  /\ ComparePlayers.of_player2 d' = ComparePlayers.of_player1 d
  /\ ComparePlayers.difference d' = negated (ComparePlayers.difference d).

Definition mirrored_skill (e e' : string * ComparePlayers.Diff) : Prop :=
  fst e' = fst e /\ mirrored (snd e) (snd e').

(** A skill or statistic on which neither player holds anything. *)
Definition zero_diff : ComparePlayers.Diff :=
  {| ComparePlayers.of_player1 := VNum 0; ComparePlayers.of_player2 := VNum 0;
     ComparePlayers.difference := VNum 0 |}.

(** ** Further collaborators and requests used as concrete inputs *)
Module MoreFixtures.

(** A cache that holds [data] under every key. *)
Definition warm_cache {D : Type} (data : D) : cacheService.t D :=
  {| cacheService.generateKey := fun parts => String.concat ":" parts;
     cacheService.get := fun _ => Ok (Some data);
     cacheService.set := fun _ _ _ => Ok tt;
     cacheService.getSearchCache := fun _ _ => Ok (Some data);
     cacheService.cacheSearch := fun _ _ _ _ => Ok tt |}.

(** A comparison as a cache may hold it. *)
Definition cached_comparison : ComparePlayers.Data :=
  {| ComparePlayers.player1 := {| ComparePlayers.row := ∅; ComparePlayers.topScores := [] |};
     ComparePlayers.player2 := {| ComparePlayers.row := ∅; ComparePlayers.topScores := [] |};
     ComparePlayers.skillComparison := [];
     ComparePlayers.statComparison :=
       {| ComparePlayers.totalPP := zero_diff; ComparePlayers.weightedPP := zero_diff;
          ComparePlayers.accuracy := zero_diff; ComparePlayers.firstPlaces := zero_diff;
          ComparePlayers.totalScores := zero_diff;
          ComparePlayers.countryRank := zero_diff |} |}.

Definition cached_results : Search.Results :=
  {| Search.players := Some []; Search.beatmaps := None; Search.scores := None |}.

(** A database out of reach: every query raises. *)
Definition unreachable_db : Db :=
  {| getRow := fun _ _ => Throw "ECONNREFUSED";
     getRows := fun _ _ => Throw "ECONNREFUSED" |}.

(** A database that answers every query with no row. *)
Definition empty_db : Db :=
  {| getRow := fun _ _ => Ok None;
     getRows := fun _ _ => Ok [] |}.





(** Rows of a head-to-head result: two won by ["alice"], one by
    ["bob"], one tied. *)
Definition games : list Row :=
  [ {[ "beatmap_id" := VNum 1; "winner" := VStr "alice" ]};
    {[ "beatmap_id" := VNum 2; "winner" := VStr "bob" ]};
    {[ "beatmap_id" := VNum 3; "winner" := VStr "tie" ]};
    {[ "beatmap_id" := VNum 4; "winner" := VStr "alice" ]} ].

(** A database that answers every row-set query with [games]. *)
Definition games_db : Db :=
  {| getRow := fun _ _ => Ok None;
     getRows := fun _ _ => Ok games |}.

(** [GET /?q=alice&type=artists]: a type the main search has no branch
    for. *)
Definition search_artists : Search.Params :=
  {| Search.q := "alice"; Search.type := Some "artists"; Search.limit := None |}.

(** [GET /suggestions?q=%20Al&type=players] *)
Definition suggest_players : SearchSuggestions.Params :=
  {| SearchSuggestions.q := " Al"; SearchSuggestions.type := Some "players";
     SearchSuggestions.limit := None |}.

(** [POST /advanced] with [{ query: 'ab', filters: { type: 'beatmaps' } }] *)
Definition advanced_beatmaps : SearchAdvanced.Body :=
  {| SearchAdvanced.query := Some "ab";
     SearchAdvanced.filters :=
       Some {| SearchAdvanced.type := Some "beatmaps"; SearchAdvanced.minPP := None;
               SearchAdvanced.maxPP := None; SearchAdvanced.minAccuracy := None;
               SearchAdvanced.maxAccuracy := None; SearchAdvanced.minDifficulty := None;
               SearchAdvanced.maxDifficulty := None; SearchAdvanced.mods := None;
               SearchAdvanced.dateRange := None |};
     SearchAdvanced.limit := None; SearchAdvanced.offset := None |}.

(** Two filter sets that meet the same conditions with different
    values. *)
Definition pp_above (q : Q) : SearchAdvanced.Filters :=
  {| SearchAdvanced.type := None; SearchAdvanced.minPP := Some q;
     SearchAdvanced.maxPP := None; SearchAdvanced.minAccuracy := None;
     SearchAdvanced.maxAccuracy := None; SearchAdvanced.minDifficulty := None;
     SearchAdvanced.maxDifficulty := None; SearchAdvanced.mods := None;
     SearchAdvanced.dateRange := None |}.

(** A database that finds [alice] under every name and has no skill and
    no score on record. *)
Definition alice_only : Db :=
  {| getRow := fun _ _ => Ok (Some Fixtures.alice);
     getRows := fun _ _ => Ok [] |}.

(** [GET /beatmaps?q=freedom&sortBy=newest]: a sort key the switch does
    not list. *)
Definition beatmaps_newest : SearchBeatmapsRoute.Params :=
  {| SearchBeatmapsRoute.q := "freedom"; SearchBeatmapsRoute.limit := None;
     SearchBeatmapsRoute.sortBy := Some "newest" |}.

(** One tracked skill. *)
Definition aim_only : list Row :=
  [ {[ "skill_type" := VStr "aim"; "avg_skill" := VNum 7 ]} ].

(** [GET /beatmaps?q=freedom&limit=-5] *)
Definition beatmaps_negative : SearchBeatmapsRoute.Params :=
  {| SearchBeatmapsRoute.q := "freedom"; SearchBeatmapsRoute.limit := Some (VStr "-5");
     SearchBeatmapsRoute.sortBy := None |}.

End MoreFixtures.
(** * Theorems *)

(** ** Running handlers *)

Lemma run_call {A B} (ev : Event) (answer : Outcome A) (k : A -> M B) (tr : list Event) :
  (call ev answer ≫= k) tr =
  match answer with
  | Ok a => k a (tr ++ [ev])%list
  | Throw e => (Throw e, (tr ++ [ev])%list)
  | Unmodelled => (Unmodelled, (tr ++ [ev])%list)
  end.
Proof. unfold mbind, m_mbind, m_bind, call. by destruct answer. Qed.

Lemma run_lift {A B} (o : Outcome A) (k : A -> M B) (tr : list Event) :
  (lift o ≫= k) tr =
  match o with
  | Ok a => k a tr
  | Throw e => (Throw e, tr)
  | Unmodelled => (Unmodelled, tr)
  end.
Proof. unfold mbind, m_mbind, m_bind, lift. by destruct o. Qed.

Lemma run_ret {A B} (a : A) (k : A -> M B) (tr : list Event) :
  (mret a ≫= k) tr = k a tr.
Proof. reflexivity. Qed.

Lemma run_both_calls {A B} (e1 e2 : Event) (a : Outcome A) (b : Outcome B) (tr : list Event) :
  both (call e1 a) (call e2 b) tr = (x ← a; y ← b; mret (x, y), (tr ++ [e1; e2])%list).
Proof. unfold both, call. by rewrite <- app_assoc. Qed.

Lemma run_bind_ok {A B} (m : M A) (k : A -> M B) tr a tr' :
  m tr = (Ok a, tr') -> (m ≫= k) tr = k a tr'.
Proof. unfold mbind, m_mbind, m_bind. by intros ->. Qed.

Lemma run_catch_ok {A} (body : M A) (h : string -> M A) tr a tr' :
  body tr = (Ok a, tr') -> try_catch body h tr = (Ok a, tr').
Proof. unfold try_catch. by intros ->. Qed.

Lemma run_catch_throw {A} (body : M A) (h : string -> M A) tr e tr' :
  body tr = (Throw e, tr') -> try_catch body h tr = h e tr'.
Proof. unfold try_catch. by intros ->. Qed.

(** ** Cache faults (C1) *)
Section CacheFaults.
Variable cache : cacheService.t ComparePlayers.Data.
Variable search_cache : cacheService.t Search.Results.
Variable db : Db.
Variable parseFloat : value -> value.

Lemma compare_get_fault username1 username2 e :
  let key := cacheService.generateKey cache ["compare"; username1; username2] in
  cacheService.get cache key = Throw e ->
  ComparePlayers.handler cache db parseFloat username1 username2 []
  = (Ok (Failure 500 "Internal server error"),
     [CacheGet [key]; ConsoleError "Compare players error:"]).
Proof.
  intros key Hget. unfold ComparePlayers.handler, try_catch.
  rewrite run_call. fold key. by rewrite Hget.
Qed.

Lemma compare_body_after_miss username1 username2 data :
  compare_writes cache db parseFloat username1 username2 data ->
  let key := cacheService.generateKey cache ["compare"; username1; username2] in
  exists tr,
    ComparePlayers.handler cache db parseFloat username1 username2 []
    = try_catch
        (_ ← call (CacheSet [key] 600) (cacheService.set cache key data 600);
         mret (Success 200 data))
        (internal_error "Compare players error:") tr.
Proof.
  intros (Hget & p1 & p2 & k1 & k2 & s1 & s2 & H1 & H2 & H3 & H4 & H5 & H6 & Hd) key.
  subst key. eexists. unfold ComparePlayers.handler, try_catch.
  rewrite run_call, Hget.
  unfold db_getRow, db_getRows.
  unfold mbind at 1, m_mbind at 1, m_bind at 1.
  rewrite run_both_calls, H1, H2. cbn -[call both lift ComparePlayers.assemble].
  unfold mbind at 1, m_mbind at 1, m_bind at 1.
  unfold both at 1. rewrite !run_both_calls, H3, H4, H5, H6.
  cbn -[call lift ComparePlayers.assemble].
  rewrite run_lift, Hd. reflexivity.
Qed.

Lemma compare_set_fault username1 username2 data e :
  compare_writes cache db parseFloat username1 username2 data ->
  cacheService.set cache (cacheService.generateKey cache ["compare"; username1; username2])
    data 600 = Throw e ->
  fst (ComparePlayers.handler cache db parseFloat username1 username2 [])
  = Ok (Failure 500 "Internal server error").
Proof.
  intros Hw Hset. destruct (compare_body_after_miss _ _ _ Hw) as [tr ->].
  unfold try_catch. rewrite run_call, Hset. reflexivity.
Qed.

Lemma compare_fresh username1 username2 data :
  compare_writes cache db parseFloat username1 username2 data ->
  cacheService.set cache (cacheService.generateKey cache ["compare"; username1; username2])
    data 600 = Ok tt ->
  fst (ComparePlayers.handler cache db parseFloat username1 username2 [])
  = Ok (Success 200 data).
Proof.
  intros Hw Hset. destruct (compare_body_after_miss _ _ _ Hw) as [tr ->].
  unfold try_catch. rewrite run_call, Hset. reflexivity.
Qed.

Lemma search_get_fault p e :
  cacheService.getSearchCache search_cache (Js.trim (Search.q p))
    (default "all" (Search.type p)) = Throw e ->
  fst (Search.handler search_cache db p []) = Ok (Failure 500 "Internal server error").
Proof.
  intros Hget. unfold Search.handler, try_catch.
  rewrite run_call, Hget. reflexivity.
Qed.

Lemma search_branch_found on text searchTerm limit found tr :
  branch_found db on text searchTerm limit found ->
  exists tr', Search.branch db on text searchTerm limit tr = (Ok found, tr').
Proof.
  unfold branch_found, Search.branch. destruct on.
  - intros (n & rows & Hn & Hrows & ->).
    rewrite run_lift, Hn. cbn -[call]. unfold db_getRows.
    rewrite run_call, Hrows. by eexists.
  - intros ->. by eexists.
Qed.

Lemma search_body_after_miss p data :
  search_writes search_cache db p data ->
  exists tr,
    Search.handler search_cache db p []
    = try_catch
        (_ ← call (CacheSet [Js.trim (Search.q p); default "all" (Search.type p)] 600)
               (cacheService.cacheSearch search_cache (Js.trim (Search.q p))
                  (default "all" (Search.type p)) data 600);
         mret (Success 200
                 {| Search.payload_query := Js.trim (Search.q p);
                    Search.payload_type := default "all" (Search.type p);
                    Search.payload_data := data |}))
        (internal_error "Search error:") tr.
Proof.
  destruct data as [players beatmaps scores].
  intros (Hget & Hplayers & Hbeatmaps & Hscores). cbn [Search.players Search.beatmaps
    Search.scores] in *.
  unfold Search.handler, try_catch. rewrite run_call, Hget.
  edestruct search_branch_found as (tr1 & E1); [exact Hplayers |].
  rewrite (run_bind_ok _ _ _ _ _ E1).
  edestruct search_branch_found as (tr2 & E2); [exact Hbeatmaps |].
  rewrite (run_bind_ok _ _ _ _ _ E2).
  edestruct search_branch_found as (tr3 & E3); [exact Hscores |].
  rewrite (run_bind_ok _ _ _ _ _ E3).
  by eexists.
Qed.

Lemma search_set_fault p data e :
  search_writes search_cache db p data ->
  cacheService.cacheSearch search_cache (Js.trim (Search.q p))
    (default "all" (Search.type p)) data 600 = Throw e ->
  fst (Search.handler search_cache db p []) = Ok (Failure 500 "Internal server error").
Proof.
  intros Hw Hset. destruct (search_body_after_miss _ _ Hw) as (tr & ->).
  unfold try_catch. rewrite run_call, Hset. reflexivity.
Qed.

Lemma search_fresh p data :
  search_writes search_cache db p data ->
  cacheService.cacheSearch search_cache (Js.trim (Search.q p))
    (default "all" (Search.type p)) data 600 = Ok tt ->
  fst (Search.handler search_cache db p [])
  = Ok (Success 200
          {| Search.payload_query := Js.trim (Search.q p);
             Search.payload_type := default "all" (Search.type p);
             Search.payload_data := data |}).
Proof.
  intros Hw Hset. destruct (search_body_after_miss _ _ Hw) as (tr & ->).
  unfold try_catch. rewrite run_call, Hset. reflexivity.
Qed.

(** C1, as the code has it: a raise from the cache service, on the read
    or on the write of the very data the handler computed, is not
    absorbed.  It lands in the handler's one [catch], and the caller
    gets [500 Internal server error], in the two-player comparison and
    in the main search alike, also when the fresh data had already been
    computed.  Fresh data is returned with success, by either route,
    when the read misses without raising and the write of that data does
    not raise either. *)
Theorem cache_fault_is_internal_error username1 username2 p e :
  ((cacheService.get cache (cacheService.generateKey cache ["compare"; username1; username2])
      = Throw e
    \/ exists data,
         compare_writes cache db parseFloat username1 username2 data /\
         cacheService.set cache
           (cacheService.generateKey cache ["compare"; username1; username2]) data 600
         = Throw e) ->
   fst (ComparePlayers.handler cache db parseFloat username1 username2 [])
   = Ok (Failure 500 "Internal server error"))
  /\
  ((cacheService.getSearchCache search_cache (Js.trim (Search.q p))
      (default "all" (Search.type p)) = Throw e
    \/ exists data,
         search_writes search_cache db p data /\
         cacheService.cacheSearch search_cache (Js.trim (Search.q p))
           (default "all" (Search.type p)) data 600 = Throw e) ->
   fst (Search.handler search_cache db p []) = Ok (Failure 500 "Internal server error"))
  /\
  (forall data,
      compare_writes cache db parseFloat username1 username2 data ->
      cacheService.set cache
        (cacheService.generateKey cache ["compare"; username1; username2]) data 600
      = Ok tt ->
      fst (ComparePlayers.handler cache db parseFloat username1 username2 [])
      = Ok (Success 200 data))
  /\
  (forall data,
      search_writes search_cache db p data ->
      cacheService.cacheSearch search_cache (Js.trim (Search.q p))
        (default "all" (Search.type p)) data 600 = Ok tt ->
      fst (Search.handler search_cache db p [])
      = Ok (Success 200
              {| Search.payload_query := Js.trim (Search.q p);
                 Search.payload_type := default "all" (Search.type p);
                 Search.payload_data := data |})).
Proof.
  split; [| split; [| split]].
  - intros [Hget | (data & Hw & Hset)].
    + by rewrite (compare_get_fault _ _ _ Hget).
    + by eapply compare_set_fault.
  - intros [Hget | (data & Hw & Hset)].
    + by eapply search_get_fault.
    + by eapply search_set_fault.
  - intros data Hw Hset. by apply compare_fresh.
  - intros data Hw Hset. by apply search_fresh.
Qed.
End CacheFaults.

Lemma cache_fault_is_internal_error_witness :
  fst (ComparePlayers.handler (Fixtures.faulty_get _) Fixtures.db Fixtures.parseFloat
         "alice" "bob" [])
  = Ok (Failure 500 "Internal server error")
  /\ fst (Search.handler (Fixtures.faulty_get _) Fixtures.db Fixtures.search_alice [])
     = Ok (Failure 500 "Internal server error")
  /\ fst (Search.handler (Fixtures.faulty_set _) Fixtures.db Fixtures.search_alice [])
     = Ok (Failure 500 "Internal server error")
  /\ fst (Search.handler (Fixtures.empty_cache _) Fixtures.db Fixtures.search_alice [])
     = Ok (Success 200
             {| Search.payload_query := "alice"; Search.payload_type := "players";
                Search.payload_data :=
                  {| Search.players := Some []; Search.beatmaps := None;
                     Search.scores := None |} |}).
Proof.
  assert (Hfound : forall cache : cacheService.t Search.Results,
             cacheService.getSearchCache cache "alice" "players" = Ok None ->
             search_writes cache Fixtures.db Fixtures.search_alice
               {| Search.players := Some []; Search.beatmaps := None;
                  Search.scores := None |}).
  { intros cache Hmiss. split; [exact Hmiss |]. split; [| split; reflexivity].
    exists (VNum 20), []. repeat split; reflexivity. }
  destruct (cache_fault_is_internal_error (Fixtures.faulty_get _) (Fixtures.faulty_get _)
              Fixtures.db Fixtures.parseFloat "alice" "bob" Fixtures.search_alice
              "ECONNREFUSED") as (Hcompare & Hsearch & _).
  destruct (cache_fault_is_internal_error (Fixtures.faulty_get _) (Fixtures.faulty_set _)
              Fixtures.db Fixtures.parseFloat "alice" "bob" Fixtures.search_alice
              "ECONNREFUSED") as (_ & Hwrite & _).
  destruct (cache_fault_is_internal_error (Fixtures.faulty_get _) (Fixtures.empty_cache _)
              Fixtures.db Fixtures.parseFloat "alice" "bob" Fixtures.search_alice
              "ECONNREFUSED") as (_ & _ & _ & Hfresh).
  split; [| split; [| split]].
  - apply Hcompare. left. reflexivity.
  - apply Hsearch. left. reflexivity.
  - apply Hwrite. right. eexists. split; [apply Hfound; reflexivity | reflexivity].
  - apply (Hfresh _ (Hfound (Fixtures.empty_cache _) eq_refl)). reflexivity.
Defined.

(** C1 as stated fails: with both players in the database a healthy
    cache miss is answered with fresh data, yet the same request is
    answered with an error as soon as the cache read, or the cache write,
    raises. *)
Lemma cache_fault_not_absorbed :
  (exists data,
     fst (ComparePlayers.handler (Fixtures.empty_cache _) Fixtures.db Fixtures.parseFloat
            "alice" "bob" []) = Ok (Success 200 data))
  /\ fst (ComparePlayers.handler (Fixtures.faulty_get _) Fixtures.db Fixtures.parseFloat
            "alice" "bob" []) = Ok (Failure 500 "Internal server error")
  /\ fst (ComparePlayers.handler (Fixtures.faulty_set _) Fixtures.db Fixtures.parseFloat
            "alice" "bob" []) = Ok (Failure 500 "Internal server error")
  /\ fst (Search.handler (Fixtures.faulty_set _) Fixtures.db Fixtures.search_alice [])
     = Ok (Failure 500 "Internal server error").
Proof.
  split; [eexists; vm_compute; reflexivity |].
  repeat split; vm_compute; reflexivity.
Qed.

(** ** The stable insertion sort *)
Section SortFacts.
Context {A : Type} (cmp : A -> A -> Q).

Hypothesis before_total : forall x y, before cmp x y \/ before cmp y x.
Hypothesis before_trans :
  forall x y z, before cmp x y -> before cmp y z -> before cmp x z.




End SortFacts.

(** ** Ranking of one metric in the multi-player comparison (C7) *)
Section Ranking.
Import CompareMultiple.

Variable metric : string.



Hypothesis higher_is_better : metric <> "avg_rank".


End Ranking.

Section RankingCorrect.
Import CompareMultiple.



End RankingCorrect.

(** ** Sign of the differentials (C2) *)

(** The per-beatmap rank differential is player 1's rank minus player
    2's, whatever the ranks are. *)
Lemma beatmap_rank_difference score1 score2 r1 r2 d :
  Js.get score1 "rank" = VNum r1 ->
  Js.get score2 "rank" = VNum r2 ->
  CompareBeatmap.differences_of score1 score2 = Ok d ->
  CompareBeatmap.diff_rank d = VNum (Qred (r1 - r2)).
Proof.
  unfold CompareBeatmap.differences_of. intros -> ->. simpl.
  repeat match goal with
         | |- context [of_option ?o] => destruct o; simpl; [| done]
         end.
  by intros [= <-].
Qed.

(** The country-rank differential is player 2's rank minus player 1's. *)
Lemma country_rank_difference player1 player2 r1 r2 stats :
  Js.or (Js.get player1 "country_rank") (VNum 999999) = VNum r1 ->
  Js.or (Js.get player2 "country_rank") (VNum 999999) = VNum r2 ->
  ComparePlayers.stat_comparison player1 player2 = Ok stats ->
  ComparePlayers.difference (ComparePlayers.countryRank stats) = VNum (Qred (r2 - r1)).
Proof.
  unfold ComparePlayers.stat_comparison, ComparePlayers.higher, ComparePlayers.lower.
  intros -> ->. simpl.
  repeat match goal with
         | |- context [of_option ?o] => destruct o; simpl; [| done]
         end.
  by intros [= <-].
Qed.

(** C2: in the two-player comparison the [countryRank] differential is
    [player2 - player1], so ranks 5 against 20 give +15.  The per-beatmap
    comparison does not flip: with ranks 1 against 3 the winner, decided
    on "lower is better", is player 1, and [differences.rank] is
    [1 - 3 = -2]. *)
Theorem rank_differential_signs :
  match ComparePlayers.stat_comparison Fixtures.alice Fixtures.bob with
  | Ok stats =>
      ComparePlayers.countryRank stats
      = {| ComparePlayers.of_player1 := VNum 5;
           ComparePlayers.of_player2 := VNum 20;
           ComparePlayers.difference := VNum 15 |}
  | _ => False
  end
  /\ CompareBeatmap.compare "alice" "bobby"
       (Some Fixtures.score_rank1) (Some Fixtures.score_rank3) None
     = Ok {| CompareBeatmap.beatmap := None;
             CompareBeatmap.player1 :=
               {| CompareBeatmap.username := "alice";
                  CompareBeatmap.score := Some Fixtures.score_rank1;
                  CompareBeatmap.hasScore := true |};
             CompareBeatmap.player2 :=
               {| CompareBeatmap.username := "bobby";
                  CompareBeatmap.score := Some Fixtures.score_rank3;
                  CompareBeatmap.hasScore := true |};
             CompareBeatmap.winner := "alice";
             CompareBeatmap.differences :=
               Some {| CompareBeatmap.diff_rank := VNum (-2);
                       CompareBeatmap.diff_score := VNum 40000;
                       CompareBeatmap.diff_accuracy := VNum 0;
                       CompareBeatmap.diff_pp := VNum 50;
                       CompareBeatmap.diff_maxCombo := VNum 100 |} |}.
Proof. split; vm_compute; reflexivity. Qed.

(** ** Substitutes for a missing value (C3) *)

(** In the multi-player comparison a value that is null or absent is
    read as 0, for every metric, [avg_rank] included. *)
Lemma missing_metric_is_zero (p : Row) (metric : string) :
  Js.get p metric = VNull \/ Js.get p metric = VUndefined ->
  CompareMultiple.metric_value p metric = VNum 0.
Proof. unfold CompareMultiple.metric_value. by intros [-> | ->]. Qed.

(** C3: a null [country_rank] is replaced by the sentinel 999999 in the
    two-player comparison, but a null [avg_rank] is replaced by 0 in the
    multi-player comparison, whose ascending sort then ranks the player
    with no data first: rank 1, and [best] is that 0. *)
Theorem missing_rank_substitutes :
  match ComparePlayers.stat_comparison Fixtures.unranked Fixtures.ranked with
  | Ok stats =>
      ComparePlayers.countryRank stats
      = {| ComparePlayers.of_player1 := VNum 999999;
           ComparePlayers.of_player2 := VNum 20;
           ComparePlayers.difference := VNum (-999979) |}
  | _ => False
  end
  /\ CompareMultiple.rank_metric [Fixtures.ranked; Fixtures.unranked] "avg_rank"
     = Ok ([ {| CompareMultiple.entry_username := VStr "newcomer";
                CompareMultiple.entry_value := VNum 0;
                CompareMultiple.entry_rank := 1 |};
             {| CompareMultiple.entry_username := VStr "veteran";
                CompareMultiple.entry_value := VNum 5;
                CompareMultiple.entry_rank := 2 |} ],
           {| CompareMultiple.best := VNum 0;
              CompareMultiple.worst := VNum 5;
              CompareMultiple.average := VNum (5 # 2) |}).
Proof. split; vm_compute; reflexivity. Qed.

(** ** The advanced-search query builder (C4, C8) *)

Section Builder.
Import SearchAdvanced.

Lemma has_char_app c s t : has_char c (s +:+ t) = has_char c s || has_char c t.
Proof. induction s as [| d s IH]; simpl; [done |]. by rewrite IH, orb_assoc. Qed.

Lemma has_char_uint c (d : Decimal.uint) :
  (nat_of_ascii c <? 48)%nat = true ->
  has_char c (NilEmpty.string_of_uint d) = false.
Proof.
  intros Hc.
  assert (Hdigit : forall k, (48 <= k)%nat -> (k < 58)%nat ->
                             Ascii.eqb c (ascii_of_nat k) = false).
  { intros k Hk1 Hk2. apply Ascii.eqb_neq. intros ->.
    rewrite nat_ascii_embedding in Hc by lia. apply Nat.ltb_lt in Hc. lia. }
  induction d; simpl; [done | ..]; rewrite IHd, orb_false_r.
  - exact (Hdigit 48%nat ltac:(lia) ltac:(lia)).
  - exact (Hdigit 49%nat ltac:(lia) ltac:(lia)).
  - exact (Hdigit 50%nat ltac:(lia) ltac:(lia)).
  - exact (Hdigit 51%nat ltac:(lia) ltac:(lia)).
  - exact (Hdigit 52%nat ltac:(lia) ltac:(lia)).
  - exact (Hdigit 53%nat ltac:(lia) ltac:(lia)).
  - exact (Hdigit 54%nat ltac:(lia) ltac:(lia)).
  - exact (Hdigit 55%nat ltac:(lia) ltac:(lia)).
  - exact (Hdigit 56%nat ltac:(lia) ltac:(lia)).
  - exact (Hdigit 57%nat ltac:(lia) ltac:(lia)).
Qed.

Lemma show_nat_no_dollar n : has_char "$" (Js.show_nat n) = false.
Proof.
  unfold Js.show_nat, NilZero.string_of_uint.
  destruct (Nat.to_uint n) eqn:E; [done | ..]; rewrite <- E; by apply has_char_uint.
Qed.

Lemma add_text cond fragment v b :
  text (add cond fragment v b)
  = if cond then text b +:+ fragment (S (paramCount b)) else text b.
Proof. by destruct cond. Qed.

Lemma add_params cond fragment v b :
  params (add cond fragment v b) = (params b ++ if cond then [v] else [])%list.
Proof. destruct cond; simpl; [done |]. by rewrite app_nil_r. Qed.

Lemma add_paramCount cond fragment v b :
  paramCount (add cond fragment v b) = (paramCount b + if cond then 1 else 0)%nat.
Proof. destruct cond; simpl; lia. Qed.

(** The running index is the number of parameters pushed so far. *)
Lemma add_lockstep cond fragment v b :
  paramCount b = length (params b) ->
  paramCount (add cond fragment v b) = length (params (add cond fragment v b)).
Proof.
  intros H. rewrite add_paramCount, add_params, length_app, H. by destruct cond.
Qed.

Lemma add_no_dollar cond fragment v b :
  (forall n, has_char "$" (fragment n) = false) ->
  has_char "$" (text b) = false ->
  has_char "$" (text (add cond fragment v b)) = false.
Proof.
  intros Hf Hb. rewrite add_text. destruct cond; [| done].
  by rewrite has_char_app, Hb, Hf.
Qed.

Lemma add_count cond fragment v b :
  length (params (add cond fragment v b))
  = (length (params b) + count_true [cond])%nat.
Proof. rewrite add_params, length_app. by destruct cond. Qed.

Lemma count_true_cons c l : count_true (c :: l) = (count_true [c] + count_true l)%nat.
Proof. unfold count_true. by destruct c. Qed.

Lemma paginate_ok order limit offset l o b :
  Js.parseInt limit = Some l ->
  Js.parseInt offset = Some o ->
  paginate order limit offset b
  = Ok {| text := text b +:+ order +:+ " LIMIT " +:+ Js.show_nat (S (paramCount b))
                    +:+ " OFFSET " +:+ Js.show_nat (S (S (paramCount b)));
          params := (params b ++ [l; o])%list;
          paramCount := S (S (paramCount b)) |}.
Proof. unfold paginate. by intros -> ->. Qed.

Lemma paginate_unmodelled order limit offset b :
  Js.parseInt limit = None \/ Js.parseInt offset = None ->
  paginate order limit offset b = Unmodelled.
Proof.
  unfold paginate. intros [-> | ->]; [done |]. by destruct (Js.parseInt limit).
Qed.
End Builder.

Section BuilderFacts.
Import SearchAdvanced.

Ltac fragment_clean :=
  intros; rewrite ?has_char_app, ?show_nat_no_dollar; reflexivity.

(** What the player query is, once both pagination values are read. *)
Lemma playerQuery_built q f limit offset l o :
  Js.parseInt limit = Some l ->
  Js.parseInt offset = Some o ->
  exists b front,
    playerQuery q f limit offset = Ok b /\
    params b = (front ++ [l; o])%list /\
    length front = count_true (player_present q f) /\
    paramCount b = length (params b) /\
    has_char "$" (text b) = false.
Proof.
  intros Hl Ho. unfold playerQuery.
  rewrite (paginate_ok _ _ _ l o) by done.
  eexists _, _. split; [reflexivity |]. cbn [text params paramCount].
  split; [reflexivity |]. repeat apply conj.
  - rewrite !add_count. cbn [params length]. unfold player_present.
    rewrite !(count_true_cons _ (_ :: _)). lia.
  - rewrite length_app. cbn [length].
    match goal with
    | |- S (S (paramCount ?b)) = _ =>
        assert (paramCount b = length (params b)) as ->
          by (repeat apply add_lockstep; reflexivity)
    end. lia.
  - rewrite !has_char_app, !show_nat_no_dollar, !orb_false_r.
    repeat (apply add_no_dollar; [fragment_clean |]). reflexivity.
Qed.

Lemma scoreQuery_built getTime q f limit offset l o :
  Js.parseInt limit = Some l ->
  Js.parseInt offset = Some o ->
  exists b front,
    scoreQuery getTime q f limit offset = Ok b /\
    params b = (front ++ [l; o])%list /\
    length front = count_true (score_present q f) /\
    paramCount b = length (params b) /\
    has_char "$" (text b) = false.
Proof.
  intros Hl Ho. unfold scoreQuery.
  rewrite (paginate_ok _ _ _ l o) by done.
  eexists _, _. split; [reflexivity |]. cbn [text params paramCount].
  split; [reflexivity |]. repeat apply conj.
  - rewrite !add_count. cbn [params length]. unfold score_present, player_present.
    cbn [app]. rewrite !(count_true_cons _ (_ :: _)). lia.
  - rewrite length_app. cbn [length].
    match goal with
    | |- S (S (paramCount ?b)) = _ =>
        assert (paramCount b = length (params b)) as ->
          by (repeat apply add_lockstep; reflexivity)
    end. lia.
  - rewrite !has_char_app, !show_nat_no_dollar, !orb_false_r.
    repeat (apply add_no_dollar; [fragment_clean |]). reflexivity.
Qed.

(** C4: with [k] conditions met, the advanced-search builder pushes
    exactly [k] values and then the two pagination values, and its
    running index equals the number of values pushed; but the text it
    emits holds no [$] at all: each fragment carries the bare index
    ([ILIKE 1], [LIMIT 2 OFFSET 3]) where a placeholder ([$1]) was
    meant. *)
Theorem advanced_query_without_placeholders getTime q f limit offset :
  match playerQuery q f limit offset with
  | Ok b =>
      length (params b) = (count_true (player_present q f) + 2)%nat /\
      paramCount b = length (params b) /\
      has_char "$" (text b) = false
  | Throw _ => False
  | Unmodelled => Js.parseInt limit = None \/ Js.parseInt offset = None
  end
  /\ match scoreQuery getTime q f limit offset with
     | Ok b =>
         length (params b) = (count_true (score_present q f) + 2)%nat /\
         paramCount b = length (params b) /\
         has_char "$" (text b) = false
     | Throw _ => False
     | Unmodelled => Js.parseInt limit = None \/ Js.parseInt offset = None
     end
  /\ playerQuery "ab" no_filters (VNum 20) (VNum 0)
     = Ok {| text := player_base
                     +:+ " AND username ILIKE 1 ORDER BY weighted_pp DESC LIMIT 2 OFFSET 3";
             params := [VStr "%ab%"; VNum 20; VNum 0];
             paramCount := 3 |}.
Proof.
  destruct (Js.parseInt limit) as [l |] eqn:Hl; [destruct (Js.parseInt offset) as [o |] eqn:Ho |].
  - destruct (playerQuery_built q f limit offset l o Hl Ho)
      as (pb & pfront & -> & Hp & Hpl & Hpc & Hpt).
    destruct (scoreQuery_built getTime q f limit offset l o Hl Ho)
      as (sb & sfront & -> & Hs & Hsl & Hsc & Hst).
    repeat apply conj; try done.
    + rewrite Hp, length_app, Hpl. reflexivity.
    + rewrite Hs, length_app, Hsl. reflexivity.
  - unfold playerQuery, scoreQuery.
    rewrite !paginate_unmodelled by (by right). repeat apply conj; try (by right). done.
  - unfold playerQuery, scoreQuery.
    rewrite !paginate_unmodelled by (by left). repeat apply conj; try (by left). done.
Qed.
End BuilderFacts.

(** ** Pagination (C8) *)
Section Pagination.
Import SearchAdvanced.

(** [parseInt] hands an integer back as it is, whatever its sign. *)
Lemma parseInt_integer (z : Z) :
  (Z.abs z < 10 ^ 21)%Z ->
  Js.parseInt (VNum (inject_Z z)) = Some (VNum (inject_Z z)).
Proof.
  intros Hz. unfold Js.parseInt.
  destruct (Qeq_bool (inject_Z z) 0) eqn:E0.
  - apply Qeq_bool_iff in E0. unfold Qeq in E0. simpl in E0.
    replace z with 0%Z by lia. reflexivity.
  - assert (Hnz : z <> 0%Z) by (intros ->; discriminate E0).
    assert (Hlo : Qle_bool (1 # 1000000) (Qabs (inject_Z z)) = true).
    { apply Qle_bool_iff. unfold Qle. simpl. lia. }
    assert (Hhi : Qle_bool (inject_Z (10 ^ 21)) (Qabs (inject_Z z)) = false).
    { apply not_true_iff_false. rewrite Qle_bool_iff. unfold Qle. simpl. lia. }
    rewrite Hlo, Hhi. simpl. by rewrite Z.quot_1_r.
Qed.

(** C8, as the code has it: whatever [parseInt] reads from [limit] and
    from [offset] is pushed last, in that order, in the player query
    and in the score query; nothing checks the sign and nothing clamps
    the limit, so an integer of either sign is bound as it came. *)
Theorem pagination_parameters_last getTime q f limit offset l o :
  Js.parseInt limit = Some l ->
  Js.parseInt offset = Some o ->
  (exists b front,
      playerQuery q f limit offset = Ok b /\ params b = (front ++ [l; o])%list)
  /\ (exists b front,
        scoreQuery getTime q f limit offset = Ok b /\ params b = (front ++ [l; o])%list)
  /\ (forall z : Z, (Z.abs z < 10 ^ 21)%Z ->
        Js.parseInt (VNum (inject_Z z)) = Some (VNum (inject_Z z))).
Proof.
  intros Hl Ho. repeat apply conj.
  - destruct (playerQuery_built q f limit offset l o Hl Ho) as (b & front & Hb & Hp & _).
    by exists b, front.
  - destruct (scoreQuery_built getTime q f limit offset l o Hl Ho)
      as (b & front & Hb & Hp & _).
    by exists b, front.
  - exact parseInt_integer.
Qed.
End Pagination.

Lemma pagination_parameters_last_witness :
  exists b front,
    SearchAdvanced.playerQuery "ab" SearchAdvanced.no_filters (VStr "50") (VNum 10) = Ok b
    /\ SearchAdvanced.params b = (front ++ [VNum 50; VNum 10])%list.
Proof.
  destruct (pagination_parameters_last (fun _ => VNaN) "ab" SearchAdvanced.no_filters
              (VStr "50") (VNum 10) (VNum 50) (VNum 10)) as [Hplayer _].
  - vm_compute. reflexivity.
  - vm_compute. reflexivity.
  - exact Hplayer.
Defined.

(** C8 as stated fails: a limit of one million is bound as one million,
    and a negative limit and a negative offset are bound as they are. *)
Lemma pagination_not_validated :
  match SearchAdvanced.playerQuery "" SearchAdvanced.no_filters (VNum 1000000) (VNum (-5)) with
  | Ok b => SearchAdvanced.params b = [VNum 1000000; VNum (-5)]
  | _ => False
  end
  /\ match SearchAdvanced.scoreQuery (fun _ => VNaN) "" SearchAdvanced.no_filters
             (VStr "-7") (VStr "-1") with
     | Ok b => SearchAdvanced.params b = [VNum (-7); VNum (-1)]
     | _ => False
     end.
Proof. split; vm_compute; reflexivity. Qed.

(** ** Values and sort clauses in the query text (C5) *)
Section QueryText.
Import SearchAdvanced.

Lemma add_same_shape cond fragment v v' b b' :
  same_shape b b' -> same_shape (add cond fragment v b) (add cond fragment v' b').
Proof.
  intros [Ht Hc]. unfold same_shape.
  rewrite !add_text, !add_paramCount, Ht, Hc. done.
Qed.

(** The text of the player query is fixed by which conditions are met:
    the values themselves reach only the parameter list. *)
Lemma playerQuery_text_independent q f q' f' limit offset limit' offset' b b' :
  player_present q f = player_present q' f' ->
  playerQuery q f limit offset = Ok b ->
  playerQuery q' f' limit' offset' = Ok b' ->
  text b = text b'.
Proof.
  unfold player_present. intros [= H1 H2 H3 H4 H5]. unfold playerQuery, paginate.
  destruct (Js.parseInt limit), (Js.parseInt offset),
    (Js.parseInt limit'), (Js.parseInt offset'); try done.
  simpl. intros [= <-] [= <-]. cbn [text].
  rewrite H1, H2, H3, H4, H5.
  match goal with
  | |- text ?x +:+ _ = text ?y +:+ _ =>
      assert (same_shape x y) as [-> ->]
        by (repeat apply add_same_shape; by split)
  end.
  reflexivity.
Qed.

Lemma scoreQuery_text_independent getTime q f q' f' limit offset limit' offset' b b' :
  score_present q f = score_present q' f' ->
  scoreQuery getTime q f limit offset = Ok b ->
  scoreQuery getTime q' f' limit' offset' = Ok b' ->
  text b = text b'.
Proof.
  unfold score_present, player_present. cbn [app].
  intros [= H1 H2 H3 H4 H5 H6 H7 H8 H9 H10]. unfold scoreQuery, paginate.
  destruct (Js.parseInt limit), (Js.parseInt offset),
    (Js.parseInt limit'), (Js.parseInt offset'); try done.
  simpl. intros [= <-] [= <-]. cbn [text].
  rewrite H1, H2, H3, H4, H5, H6, H7, H8, H9, H10.
  match goal with
  | |- text ?x +:+ _ = text ?y +:+ _ =>
      assert (same_shape x y) as [-> ->]
        by (repeat apply add_same_shape; by split)
  end.
  reflexivity.
Qed.

End QueryText.

(** C5: the [sortBy] lookup in the player search is not closed over its
    allow-list.  [sortBy=constructor] finds the function every object
    inherits, which is truthy, so the default is not taken and the text
    after ORDER BY is that function's source text; the query sent to the
    database carries it.  A name that is neither a column nor inherited
    does fall back to the default, and the [switch] of the beatmap
    search only ever yields one of its four clauses. *)
Theorem sort_lookup_reaches_prototype :
  SearchPlayers.orderBy "constructor" = VFun "Object"
  /\ SearchPlayers.sql "constructor"
     = Some (SearchPlayers.sql_before +:+ "function Object() { [native code] }"
             +:+ SearchPlayers.sql_after)
  /\ ("function Object() { [native code] }" ∉ SearchPlayers.allowed)
  /\ snd (SearchPlayers.handler Fixtures.db Fixtures.players_by_constructor [])
     = [Query (SearchPlayers.sql_before +:+ "function Object() { [native code] }"
               +:+ SearchPlayers.sql_after)
              [VStr "%alice%"; VNum 20]]
  /\ SearchPlayers.orderBy "no_such_column" = VStr "weighted_pp DESC"
  /\ (forall sortBy, SearchBeatmaps.orderBy sortBy ∈ SearchBeatmaps.allowed).
Proof.
  repeat apply conj; try (vm_compute; reflexivity).
  - unfold SearchPlayers.allowed. intros H.
    repeat (apply elem_of_cons in H as [H | H]; [discriminate H |]).
    by apply elem_of_nil in H.
  - intros sortBy. unfold SearchBeatmaps.orderBy, SearchBeatmaps.allowed.
    repeat case_match; set_solver.
Qed.

(** ** Traces only grow *)

Section Extends.
Context {A B : Type}.

Lemma extends_ret (a : A) : extends (mret a).
Proof. intros tr. exists []. by rewrite app_nil_r. Qed.

Lemma extends_lift (o : Outcome A) : extends (lift o).
Proof. intros tr. exists []. by rewrite app_nil_r. Qed.

Lemma extends_call (ev : Event) (answer : Outcome A) : extends (call ev answer).
Proof. intros tr. by exists [ev]. Qed.

Lemma extends_bind (m : M A) (k : A -> M B) :
  extends m -> (forall a, extends (k a)) -> extends (m ≫= k).
Proof.
  intros Hm Hk tr. unfold mbind, m_mbind, m_bind.
  destruct (Hm tr) as [more1 H1]. destruct (m tr) as [[a | e |] tr1]; simpl in H1; subst tr1.
  - destruct (Hk a (tr ++ more1)%list) as [more2 H2]. rewrite H2.
    exists (more1 ++ more2)%list. by rewrite app_assoc.
  - by exists more1.
  - by exists more1.
Qed.

Lemma extends_catch (body : M A) (h : string -> M A) :
  extends body -> (forall e, extends (h e)) -> extends (try_catch body h).
Proof.
  intros Hm Hh tr. unfold try_catch.
  destruct (Hm tr) as [more1 H1]. destruct (body tr) as [[a | e |] tr1]; simpl in H1; subst tr1.
  - by exists more1.
  - destruct (Hh e (tr ++ more1)%list) as [more2 H2]. rewrite H2.
    exists (more1 ++ more2)%list. by rewrite app_assoc.
  - by exists more1.
Qed.

Lemma extends_both (a : M A) (b : M B) : extends a -> extends b -> extends (both a b).
Proof.
  intros Ha Hb tr. unfold both.
  destruct (Ha tr) as [more1 H1]. destruct (a tr) as [ra tr1]; simpl in H1; subst tr1.
  destruct (Hb (tr ++ more1)%list) as [more2 H2].
  destruct (b (tr ++ more1)%list) as [rb tr2]; simpl in H2; subst tr2.
  exists (more1 ++ more2)%list. by rewrite app_assoc.
Qed.
End Extends.

Lemma extends_internal_error {D} label e : extends (@internal_error D label e).
Proof.
  unfold internal_error. apply extends_bind; [apply extends_call |].
  intros _. apply extends_ret.
Qed.

Section StartsWith.
Context {A B C : Type}.

Lemma starts_call_bind (ev : Event) (answer : Outcome A) (k : A -> M B) :
  (forall a, extends (k a)) -> starts_with [ev] (call ev answer ≫= k).
Proof.
  intros Hk tr. rewrite run_call. destruct answer as [a | e |]; simpl.
  - destruct (Hk a (tr ++ [ev])%list) as [more ->]. exists more. by rewrite <- app_assoc.
  - by exists [].
  - by exists [].
Qed.

Lemma starts_both_calls_bind (e1 e2 : Event) (a : Outcome A) (b : Outcome B)
    (k : A * B -> M C) :
  (forall x, extends (k x)) ->
  starts_with [e1; e2] (both (call e1 a) (call e2 b) ≫= k).
Proof.
  intros Hk tr. unfold mbind at 1, m_mbind at 1, m_bind at 1.
  rewrite run_both_calls.
  destruct a as [x | e |]; [destruct b as [y | e |] | ..]; simpl.
  - destruct (Hk (x, y) (tr ++ [e1; e2])%list) as [more ->].
    exists more. by rewrite <- app_assoc.
  - by exists [].
  - by exists [].
  - by exists [].
  - by exists [].
Qed.

Lemma starts_bind (evs : list Event) (m : M A) (k : A -> M B) :
  starts_with evs m -> (forall a, extends (k a)) -> starts_with evs (m ≫= k).
Proof.
  intros Hm Hk tr. unfold mbind, m_mbind, m_bind.
  destruct (Hm tr) as [more1 H1]. destruct (m tr) as [[a | e |] tr1]; simpl in H1; subst tr1.
  - destruct (Hk a (tr ++ evs ++ more1)%list) as [more2 ->].
    exists (more1 ++ more2)%list. by rewrite <- !app_assoc.
  - by exists more1.
  - by exists more1.
Qed.

Lemma starts_catch (evs : list Event) (body : M A) (h : string -> M A) :
  starts_with evs body -> (forall e, extends (h e)) -> starts_with evs (try_catch body h).
Proof.
  intros Hm Hh tr. unfold try_catch.
  destruct (Hm tr) as [more1 H1]. destruct (body tr) as [[a | e |] tr1]; simpl in H1; subst tr1.
  - by exists more1.
  - destruct (Hh e (tr ++ evs ++ more1)%list) as [more2 ->].
    exists (more1 ++ more2)%list. by rewrite <- !app_assoc.
  - by exists more1.
Qed.
End StartsWith.

(** ** The multi-player comparison (C6, C9) *)

Section Multiple.
Import CompareMultiple.
Variable db : Db.

Lemma extends_fetch usernames acc : extends (fetch db usernames acc).
Proof.
  revert acc. induction usernames as [| u rest IH]; intros acc; simpl.
  - apply extends_ret.
  - apply extends_bind; [apply extends_call |]. intros [p |]; apply IH.
Qed.



(** Every event of the loop is a lookup of one of the usernames. *)
Lemma fetch_queries usernames acc tr :
  exists more,
    snd (fetch db usernames acc tr) = (tr ++ more)%list /\
    forall ev, ev ∈ more ->
      exists u, u ∈ usernames /\ ev = Query player_sql [wrap u].
Proof.
  revert acc tr. induction usernames as [| u rest IH]; intros acc tr; simpl.
  - exists []. rewrite app_nil_r. split; [done |]. intros ev H. by apply elem_of_nil in H.
  - unfold db_getRow. rewrite run_call.
    destruct (getRow db player_sql [wrap u]) as [[p |] | e |]; simpl.
    + destruct (IH (acc ++ [p])%list (tr ++ [Query player_sql [wrap u]])%list)
        as (more & -> & Hmore).
      exists (Query player_sql [wrap u] :: more). split; [by rewrite <- app_assoc |].
      intros ev [-> | Hin]%elem_of_cons; [exists u; split; [by left | done] |].
      destruct (Hmore ev Hin) as (u' & Hu' & ->). exists u'. split; [by right | done].
    + destruct (IH acc (tr ++ [Query player_sql [wrap u]])%list) as (more & -> & Hmore).
      exists (Query player_sql [wrap u] :: more). split; [by rewrite <- app_assoc |].
      intros ev [-> | Hin]%elem_of_cons; [exists u; split; [by left | done] |].
      destruct (Hmore ev Hin) as (u' & Hu' & ->). exists u'. split; [by right | done].
    + exists [Query player_sql [wrap u]]. split; [done |].
      intros ev ->%list_elem_of_singleton. exists u. split; [by left | done].
    + exists [Query player_sql [wrap u]]. split; [done |].
      intros ev ->%list_elem_of_singleton. exists u. split; [by left | done].
Qed.



End Multiple.

Section MultipleBounds.
Import CompareMultiple.

Lemma handler_in_range db body :
  2 <= length (default [] (body_usernames body)) <= 5 ->
  handler db body []
  = try_catch
      (after_check db (default [] (body_usernames body))
         (default default_metrics (body_metrics body)))
      (internal_error "Multiple comparison error:") [].
Proof.
  intros [Hlo Hhi]. unfold handler.
  destruct (length _ <? 2)%nat eqn:E1; [apply Nat.ltb_lt in E1; lia |].
  destruct (5 <? length _)%nat eqn:E2; [apply Nat.ltb_lt in E2; lia |].
  reflexivity.
Qed.

Lemma handler_out_of_range db body :
  length (default [] (body_usernames body)) < 2
  \/ 5 < length (default [] (body_usernames body)) ->
  handler db body []
  = (Ok (Failure 400 "Please provide between 2 and 5 usernames"), []).
Proof.
  intros H. unfold handler, try_catch.
  destruct (length _ <? 2)%nat eqn:E1; [reflexivity |].
  destruct (5 <? length _)%nat eqn:E2; [reflexivity |].
  apply Nat.ltb_ge in E1, E2. lia.
Qed.

Lemma extends_after_check db usernames metrics : extends (after_check db usernames metrics).
Proof.
  unfold after_check. apply extends_bind; [apply extends_fetch |].
  intros players. destruct (length players <? 2)%nat; [apply extends_ret |].
  apply extends_bind; [apply extends_lift |]. intros c. apply extends_ret.
Qed.

Lemma after_check_not_400 db usernames metrics tr msg :
  fst (try_catch (after_check db usernames metrics)
         (internal_error "Multiple comparison error:") tr)
  <> Ok (Failure 400 msg).
Proof.
  unfold try_catch, after_check, mbind, m_mbind, m_bind.
  destruct (fetch db usernames [] tr) as [[players | e |] tr1]; simpl; [| done ..].
  destruct (length players <? 2)%nat; simpl; [done |].
  unfold lift. destruct (compare players metrics); simpl; done.
Qed.

(** C6: a request with fewer than 2 or more than 5 usernames is
    answered [400] with nothing asked of the database or of the cache;
    with 2 to 5 usernames the handler goes on to look up the first
    one, and its answer is not that [400].  On a database that knows
    every name asked for, the requests with exactly 2 and exactly 5
    usernames are answered [200]. *)
Theorem multiple_entity_bounds :
  (forall db body,
      (length (default [] (body_usernames body)) < 2
       \/ 5 < length (default [] (body_usernames body)) ->
       handler db body []
       = (Ok (Failure 400 "Please provide between 2 and 5 usernames"), []))
      /\ (2 <= length (default [] (body_usernames body)) <= 5 ->
          (exists first more,
              head (default [] (body_usernames body)) = Some first /\
              snd (handler db body []) = Query player_sql [wrap first] :: more)
          /\ forall msg, fst (handler db body []) <> Ok (Failure 400 msg)))
  /\ (exists c, fst (handler Fixtures.db (Fixtures.multiple Fixtures.two_names) [])
                = Ok (Success 200 c))
  /\ (exists c, fst (handler Fixtures.db (Fixtures.multiple Fixtures.five_names) [])
                = Ok (Success 200 c)).
Proof.
  repeat apply conj; [| eexists; vm_compute; reflexivity ..].
  intros db body. split; [apply handler_out_of_range |].
  intros Hrange. rewrite (handler_in_range _ _ Hrange). split.
  - destruct (default [] (body_usernames body)) as [| first rest] eqn:E;
      [simpl in Hrange; lia |].
    exists first.
    destruct (starts_catch [Query player_sql [wrap first]]
                (after_check db (first :: rest) (default default_metrics (body_metrics body)))
                (internal_error "Multiple comparison error:")) with (tr := @nil Event)
      as [more Hmore].
    + unfold after_check. apply starts_bind.
      * cbn [fetch]. unfold db_getRow. apply starts_call_bind.
        intros [p |]; apply extends_fetch.
      * intros players. destruct (length players <? 2)%nat; [apply extends_ret |].
        apply extends_bind; [apply extends_lift |]. intros c. apply extends_ret.
    + intros e. apply extends_internal_error.
    + by exists more.
  - apply after_check_not_400.
Qed.
End MultipleBounds.

Lemma multiple_entity_bounds_witness :
  CompareMultiple.handler Fixtures.db (Fixtures.multiple Fixtures.one_name) []
  = (Ok (Failure 400 "Please provide between 2 and 5 usernames"), [])
  /\ CompareMultiple.handler Fixtures.db (Fixtures.multiple Fixtures.six_names) []
     = (Ok (Failure 400 "Please provide between 2 and 5 usernames"), [])
  /\ forall msg,
       fst (CompareMultiple.handler Fixtures.db (Fixtures.multiple Fixtures.three_names) [])
       <> Ok (Failure 400 msg).
Proof.
  destruct multiple_entity_bounds as [Hbounds _].
  repeat apply conj.
  - apply (proj1 (Hbounds Fixtures.db (Fixtures.multiple Fixtures.one_name))).
    left. simpl. lia.
  - apply (proj1 (Hbounds Fixtures.db (Fixtures.multiple Fixtures.six_names))).
    right. simpl. lia.
  - apply (proj2 (Hbounds Fixtures.db (Fixtures.multiple Fixtures.three_names))).
    simpl. lia.
Defined.

Section MultipleDrops.
Import CompareMultiple.

End MultipleDrops.



(** Of the three names, ["nobody"] is dropped and the other two
    resolve. *)
Example three_names_resolved :
  (fun r => Js.get r "username") <$> resolved Fixtures.db Fixtures.three_names
  = [VStr "alice"; VStr "bobby"].
Proof. vm_compute. reflexivity. Qed.

(** ** The rankings of the answer (C7) *)
Section MultipleRankings.
Import CompareMultiple.






End MultipleRankings.


(** ** Lookups by pattern (C10) *)
Section Like.
Import Pg.

Lemma like_any (subject : list ascii) : like ["%"%char] subject = true.
Proof. induction subject as [| c subject IH]; [done |]. simpl. exact IH. Qed.

Lemma like_percent_here (rest subject : list ascii) :
  like rest subject = true -> like ("%"%char :: rest) subject = true.
Proof. intros H. destruct subject; simpl; by rewrite H. Qed.

Lemma like_percent_skip (rest subject : list ascii) (c : ascii) :
  like ("%"%char :: rest) subject = true ->
  like ("%"%char :: rest) (c :: subject) = true.
Proof. intros H. simpl. simpl in H. rewrite H. apply orb_true_r. Qed.

Lemma like_percent_prefix (rest before subject : list ascii) :
  like ("%"%char :: rest) subject = true ->
  like ("%"%char :: rest) (before ++ subject) = true.
Proof.
  intros H. induction before as [| c before IH]; [done |].
  rewrite <- app_comm_cons. by apply like_percent_skip.
Qed.

(** A character other than the backslash matches itself. *)
Lemma like_same (c : ascii) (rest subject : list ascii) :
  c <> "\"%char ->
  like rest subject = true ->
  like (c :: rest) (c :: subject) = true.
Proof.
  intros Hc H.
  destruct (Ascii.eqb_spec c "%"%char) as [-> | Hpercent].
  { apply like_percent_skip. by apply like_percent_here. }
  destruct c as [[] [] [] [] [] [] [] []]; try done; simpl; by rewrite H.
Qed.

Lemma like_literal (literal rest subject : list ascii) :
  "\"%char ∉ literal ->
  like rest subject = true ->
  like (literal ++ rest) (literal ++ subject) = true.
Proof.
  intros Hno H. induction literal as [| c literal IH]; [done |].
  rewrite <- !app_comm_cons. apply like_same.
  - intros ->. apply Hno. by left.
  - apply IH. intros Hin. apply Hno. by right.
Qed.

Lemma fold_case_backslash (c : ascii) : fold_case c = "\"%char -> c = "\"%char.
Proof. destruct c as [[] [] [] [] [] [] [] []]; vm_compute; congruence. Qed.

Lemma list_ascii_app (s t : string) :
  String.list_ascii_of_string (s +:+ t)
  = (String.list_ascii_of_string s ++ String.list_ascii_of_string t)%list.
Proof. induction s as [| c s IH]; simpl; [done |]. by rewrite IH. Qed.

Lemma has_char_elem (c : ascii) (s : string) :
  has_char c s = false -> c ∉ String.list_ascii_of_string s.
Proof.
  induction s as [| d s IH]; simpl; [intros _ H; by apply elem_of_nil in H |].
  intros [Hd Hs]%orb_false_iff [-> | Hin]%elem_of_cons.
  - by rewrite Ascii.eqb_refl in Hd.
  - by apply IH.
Qed.

(** A stored name that contains the supplied text, letter case aside,
    matches the wrapped pattern. *)
Lemma ilike_contains (stored supplied : string) :
  has_char "\" supplied = false ->
  contains stored supplied ->
  ilike stored ("%" +:+ supplied +:+ "%") = true.
Proof.
  intros Hno (before & after & Hsplit). unfold ilike.
  rewrite Hsplit, !list_ascii_app, !map_app. simpl.
  change (fold_case "%"%char) with "%"%char.
  apply like_percent_prefix, like_percent_here, like_literal; [| apply like_any].
  intros (c & Hc & Hin)%list_elem_of_fmap.
  symmetry in Hc. apply fold_case_backslash in Hc as ->.
  by apply has_char_elem in Hno.
Qed.

Lemma like_percent_inv (rest subject : list ascii) :
  like ("%"%char :: rest) subject = true ->
  exists before after, subject = (before ++ after)%list /\ like rest after = true.
Proof.
  induction subject as [| c subject IH].
  - simpl. rewrite orb_false_r. intros H. by exists [], [].
  - intros H. simpl in H. apply orb_true_iff in H as [H | H].
    + by exists [], (c :: subject).
    + destruct (IH H) as (b & a & -> & Ha). by exists (c :: b), a.
Qed.

(** A character that is not special matches itself and nothing else. *)
Lemma like_plain_char (c : ascii) (rest subject : list ascii) :
  special c = false ->
  like (c :: rest) subject
  = match subject with
    | [] => false
    | d :: subject' => Ascii.eqb c d && like rest subject'
    end.
Proof.
  destruct c as [[] [] [] [] [] [] [] []]; try discriminate; intros _; reflexivity.
Qed.

Lemma like_literal_inv (literal rest subject : list ascii) :
  Forall (fun c => special c = false) literal ->
  like (literal ++ rest) subject = true ->
  exists after, subject = (literal ++ after)%list /\ like rest after = true.
Proof.
  intros Hplain. revert subject. induction Hplain as [| c literal Hc _ IH]; intros subject.
  - intros H. by exists subject.
  - rewrite <- app_comm_cons, (like_plain_char _ _ _ Hc).
    destruct subject as [| d subject]; [discriminate |].
    intros [Hd H]%andb_true_iff. apply Ascii.eqb_eq in Hd as <-.
    destruct (IH _ H) as (after & -> & Ha). by exists after.
Qed.

Lemma fold_case_special (c : ascii) : special (fold_case c) = special c.
Proof. destruct c as [[] [] [] [] [] [] [] []]; reflexivity. Qed.

Lemma plain_folded (s : string) :
  plain s = true ->
  Forall (fun c => special c = false) (map fold_case (String.list_ascii_of_string s)).
Proof.
  unfold plain. induction s as [| c s IH]; [constructor |].
  cbn [has_char String.list_ascii_of_string map].
  intros H. apply negb_true_iff in H.
  apply orb_false_iff in H as [H Hslash]. apply orb_false_iff in H as [Hpercent Hunder].
  apply orb_false_iff in Hslash as [Hs1 Hs2].
  apply orb_false_iff in Hpercent as [Hp1 Hp2].
  apply orb_false_iff in Hunder as [Hu1 Hu2].
  constructor.
  - rewrite fold_case_special. unfold special.
    rewrite (Ascii.eqb_sym c "%"), (Ascii.eqb_sym c "_"), (Ascii.eqb_sym c "\").
    by rewrite Hp1, Hu1, Hs1.
  - apply IH. by rewrite Hp2, Hu2, Hs2.
Qed.

Lemma plain_no_backslash (s : string) : plain s = true -> has_char "\" s = false.
Proof.
  unfold plain. intros H. apply negb_true_iff in H.
  by apply orb_false_iff in H as [_ H].
Qed.

(** For a supplied text with no special character, the wrapped pattern
    matches exactly the names that contain the text, letter case aside. *)
Lemma ilike_plain (stored supplied : string) :
  plain supplied = true ->
  ilike stored ("%" +:+ supplied +:+ "%") = true <-> contains stored supplied.
Proof.
  intros Hplain. split.
  - unfold ilike. rewrite !list_ascii_app, !map_app. simpl.
    change (fold_case "%"%char) with "%"%char.
    intros H. apply like_percent_inv in H as (before & rest & Hsplit & H).
    apply like_literal_inv in H as (after & -> & _); [| by apply plain_folded].
    by exists before, after.
  - apply ilike_contains. by apply plain_no_backslash.
Qed.

(** What the model of the table answers a lookup with. *)
Lemma player_stats_lookup (table : list Row) (supplied text : string) :
  plain supplied = true ->
  text = ComparePlayers.player_sql \/ text = CompareMultiple.player_sql ->
  match getRow (player_stats table) text [wrap supplied] with
  | Ok (Some r) =>
      r ∈ table
      /\ exists stored, Js.get r "username" = VStr stored /\ contains stored supplied
  | Ok None =>
      forall r stored,
        r ∈ table -> Js.get r "username" = VStr stored -> ~ contains stored supplied
  | _ => False
  end.
Proof.
  intros Hplain Htext.
  assert (Hrun : getRow (player_stats table) text [wrap supplied]
                 = Ok (List.find (username_ilike (wrap supplied)) table)).
  { by destruct Htext as [-> | ->]. }
  rewrite Hrun. destruct (List.find _ table) as [r |] eqn:Hfind.
  - apply find_some in Hfind as [Hin Hmatch]. split; [by apply list_elem_of_In |].
    unfold username_ilike, wrap in Hmatch.
    destruct (Js.get r "username") as [| | | | stored | | |]; try discriminate.
    exists stored. split; [done |]. by apply ilike_plain.
  - intros r stored Hin Hname Hcontains.
    pose proof (find_none _ _ Hfind r (proj1 (list_elem_of_In _ _) Hin)) as Hmatch.
    unfold username_ilike, wrap in Hmatch. rewrite Hname in Hmatch.
    apply (ilike_plain _ _ Hplain) in Hcontains. congruence.
Qed.
End Like.

Section Lookups.

Lemma extends_compare_fetch (cache : cacheService.t ComparePlayers.Data) db parseFloat
    username1 username2 key (found : option Row * option Row) :
  extends
    (let '(player1, player2) := found in
     match player1, player2 with
     | Some player1, Some player2 =>
         '(skills1, skills2, (scores1, scores2)) ←
           both (both (db_getRows db ComparePlayers.skills_sql [wrap username1])
                      (db_getRows db ComparePlayers.skills_sql [wrap username2]))
                (both (db_getRows db ComparePlayers.scores_sql [wrap username1])
                      (db_getRows db ComparePlayers.scores_sql [wrap username2]));
         data ← lift (ComparePlayers.assemble parseFloat player1 player2
                        skills1 skills2 scores1 scores2);
         _ ← call (CacheSet [key] 600) (cacheService.set cache key data 600);
         mret (Success 200 data)
     | _, _ => mret (Failure 404 "One or both players not found")
     end).
Proof.
  destruct found as [[p1 |] [p2 |]]; try apply extends_ret.
  apply extends_bind.
  - unfold db_getRows. repeat apply extends_both; apply extends_call.
  - intros [[s1 s2] [t1 t2]]. apply extends_bind; [apply extends_lift |].
    intros d. apply extends_bind; [apply extends_call |]. intros _. apply extends_ret.
Qed.

(** On a cache miss the two-player comparison first looks both players
    up, each with its username wrapped in [%]. *)
Lemma compare_lookups (cache : cacheService.t ComparePlayers.Data) db parseFloat
    username1 username2 :
  cacheService.get cache (cacheService.generateKey cache ["compare"; username1; username2])
  = Ok None ->
  exists more,
    snd (ComparePlayers.handler cache db parseFloat username1 username2 [])
    = CacheGet [cacheService.generateKey cache ["compare"; username1; username2]]
      :: Query ComparePlayers.player_sql [wrap username1]
      :: Query ComparePlayers.player_sql [wrap username2]
      :: more.
Proof.
  intros Hget. unfold ComparePlayers.handler.
  set (key := cacheService.generateKey cache ["compare"; username1; username2]) in *.
  match goal with
  | |- context [try_catch (call _ _ ≫= ?k) ?h] =>
      assert (Hrun : try_catch (call (CacheGet [key]) (cacheService.get cache key) ≫= k) h []
                     = try_catch (k None) h [CacheGet [key]])
        by (unfold try_catch; by rewrite run_call, Hget);
      rewrite Hrun;
      destruct (starts_catch [Query ComparePlayers.player_sql [wrap username1];
                              Query ComparePlayers.player_sql [wrap username2]]
                  (k None) h) with (tr := [CacheGet [key]]) as [more Hmore]
  end.
  - unfold db_getRow. apply starts_both_calls_bind.
    intros found. apply (extends_compare_fetch cache db parseFloat _ _ key found).
  - intros e. apply extends_internal_error.
  - by exists more.
Qed.

(** Every query of the multi-player comparison is the player lookup,
    bound to one of the requested usernames wrapped in [%]. *)
Lemma multiple_lookups db body text params :
  Query text params ∈ snd (CompareMultiple.handler db body []) ->
  text = CompareMultiple.player_sql /\
  exists u, u ∈ default [] (CompareMultiple.body_usernames body) /\ params = [wrap u].
Proof.
  destruct (decide (2 <= length (default [] (CompareMultiple.body_usernames body)) <= 5))
    as [Hrange | Hout].
  - rewrite (handler_in_range _ _ Hrange).
    unfold try_catch, after_check, mbind, m_mbind, m_bind.
    destruct (fetch_queries db (default [] (CompareMultiple.body_usernames body)) [] [])
      as (more & Hsnd & Hmore).
    destruct (CompareMultiple.fetch db _ [] []) as [[players | e |] tr];
      simpl in Hsnd; subst tr.
    + assert (Hq : Query text params ∈ more ->
                   text = CompareMultiple.player_sql /\
                   exists u, u ∈ default [] (CompareMultiple.body_usernames body)
                             /\ params = [wrap u]).
      { intros Hin. destruct (Hmore _ Hin) as (u & Hu & [= -> ->]). eauto. }
      destruct (length players <? 2)%nat; [exact Hq |].
      unfold lift. destruct (CompareMultiple.compare players _); simpl; try exact Hq.
      intros [Hin | Hin%list_elem_of_singleton]%elem_of_app; [by apply Hq | done].
    + simpl. intros [Hin | Hin%list_elem_of_singleton]%elem_of_app; [| done].
      destruct (Hmore _ Hin) as (u & Hu & [= -> ->]). eauto.
    + simpl. intros Hin. destruct (Hmore _ Hin) as (u & Hu & [= -> ->]). eauto.
  - rewrite handler_out_of_range by lia. simpl. intros Hin. by apply elem_of_nil in Hin.
Qed.
End Lookups.

(** C10, as the code has it: the player lookups of the comparison
    routes bind the supplied username wrapped in [%] to
    [username ILIKE $1].  For a supplied text that holds none of [%],
    [_] and the backslash, the names the pattern matches are exactly
    those that contain the text, letter case aside, and the lookup
    answers with a stored row whose name contains it, or with none when
    no stored name does.  Hence ["ali"] and ["LICE"], neither of them a
    stored name, both resolve to the player stored as ["alice"], and the
    two-player comparison of a player with itself is answered [200]. *)
Theorem lookup_by_containment :
  (words ComparePlayers.player_sql
   = ["SELECT"; "*"; "FROM"; "player_stats"; "WHERE"; "username"; "ILIKE"; "$1"]
   /\ words CompareMultiple.player_sql
      = ["SELECT"; "*"; "FROM"; "player_stats"; "WHERE"; "username"; "ILIKE"; "$1"]
   /\ forall username, wrap username = VStr ("%" +:+ username +:+ "%"))
  /\ (forall (cache : cacheService.t ComparePlayers.Data) db parseFloat username1 username2,
        cacheService.get cache
          (cacheService.generateKey cache ["compare"; username1; username2]) = Ok None ->
        exists more,
          snd (ComparePlayers.handler cache db parseFloat username1 username2 [])
          = CacheGet [cacheService.generateKey cache ["compare"; username1; username2]]
            :: Query ComparePlayers.player_sql [wrap username1]
            :: Query ComparePlayers.player_sql [wrap username2]
            :: more)
  /\ (forall db body text params,
        Query text params ∈ snd (CompareMultiple.handler db body []) ->
        text = CompareMultiple.player_sql /\
        exists u, u ∈ default [] (CompareMultiple.body_usernames body) /\ params = [wrap u])
  /\ (forall stored supplied,
        plain supplied = true ->
        Pg.ilike stored ("%" +:+ supplied +:+ "%") = true <-> Pg.contains stored supplied)
  /\ (forall table supplied text,
        plain supplied = true ->
        text = ComparePlayers.player_sql \/ text = CompareMultiple.player_sql ->
        match getRow (Pg.player_stats table) text [wrap supplied] with
        | Ok (Some r) =>
            r ∈ table
            /\ exists stored, Js.get r "username" = VStr stored /\ Pg.contains stored supplied
        | Ok None =>
            forall r stored,
              r ∈ table -> Js.get r "username" = VStr stored -> ~ Pg.contains stored supplied
        | _ => False
        end)
  /\ match fst (ComparePlayers.handler (Fixtures.empty_cache _) Fixtures.db
                  Fixtures.parseFloat "ali" "LICE" []) with
     | Ok (Success 200 data) =>
         Js.get (ComparePlayers.row (ComparePlayers.player1 data)) "username" = VStr "alice" /\
         Js.get (ComparePlayers.row (ComparePlayers.player2 data)) "username" = VStr "alice"
     | _ => False
     end.
Proof.
  split; [repeat split; reflexivity |].
  split; [exact compare_lookups |].
  split; [exact multiple_lookups |].
  split; [exact ilike_plain |].
  split; [exact player_stats_lookup |].
  vm_compute. split; reflexivity.
Qed.

Lemma lookup_by_containment_witness :
  Pg.ilike "alice" ("%" +:+ "LIC" +:+ "%") = true
  /\ Pg.ilike "bobby" ("%" +:+ "LIC" +:+ "%") = false
  /\ match getRow (Pg.player_stats [Fixtures.bob; Fixtures.alice])
              CompareMultiple.player_sql [wrap "LIC"] with
     | Ok (Some r) => exists stored, Js.get r "username" = VStr stored /\ Pg.contains stored "LIC"
     | _ => False
     end.
Proof.
  destruct lookup_by_containment as (_ & _ & _ & Hmatch & Hlookup & _).
  split; [| split].
  - apply (Hmatch "alice" "LIC"); [reflexivity |].
    exists ["a"%char], ["e"%char]. reflexivity.
  - reflexivity.
  - pose proof (Hlookup [Fixtures.bob; Fixtures.alice] "LIC" CompareMultiple.player_sql
                  eq_refl (or_intror eq_refl)) as H.
    change (getRow (Pg.player_stats [Fixtures.bob; Fixtures.alice])
              CompareMultiple.player_sql [wrap "LIC"])
      with (Ok (Some Fixtures.alice) : Outcome (option Row)) in H |- *.
    exact (proj2 H).
Defined.

(** C10 as stated fails for a supplied text that holds a character the
    pattern reads specially.  ["a_ice"] and ["b%y"] are contained in no
    stored name, yet they resolve to ["alice"] and ["bobby"]; and the
    player stored as ["back\slash"] is not found under that very name,
    which the name contains. *)
Lemma lookup_reads_patterns :
  (Pg.ilike "alice" ("%" +:+ "a_ice" +:+ "%") = true /\ ~ Pg.contains "alice" "a_ice")
  /\ (Pg.ilike "bobby" ("%" +:+ "b%y" +:+ "%") = true /\ ~ Pg.contains "bobby" "b%y")
  /\ match fst (ComparePlayers.handler (Fixtures.empty_cache _) Fixtures.db
                  Fixtures.parseFloat "a_ice" "b%y" []) with
     | Ok (Success 200 data) =>
         Js.get (ComparePlayers.row (ComparePlayers.player1 data)) "username" = VStr "alice" /\
         Js.get (ComparePlayers.row (ComparePlayers.player2 data)) "username" = VStr "bobby"
     | _ => False
     end
  /\ (Pg.contains "back\slash" "back\slash"
      /\ Pg.ilike "back\slash" ("%" +:+ "back\slash" +:+ "%") = false)
  /\ fst (ComparePlayers.handler (Fixtures.empty_cache _) Fixtures.slash_db
            Fixtures.parseFloat "back\slash" "alice" [])
     = Ok (Failure 404 "One or both players not found").
Proof.
  assert (Hnot : forall (c : ascii) (stored supplied : string),
             c ∈ map Pg.fold_case (String.list_ascii_of_string supplied) ->
             c ∉ map Pg.fold_case (String.list_ascii_of_string stored) ->
             ~ Pg.contains stored supplied).
  { intros c stored supplied Hin Hout (before & after & Hsplit). apply Hout.
    rewrite Hsplit. apply elem_of_app. right. apply elem_of_app. by left. }
  split; [split; [reflexivity |] |].
  { apply (Hnot "_"%char); [vm_compute; set_solver |].
    vm_compute. intros H.
    repeat (apply elem_of_cons in H as [H | H]; [discriminate H |]).
    by apply elem_of_nil in H. }
  split; [split; [reflexivity |] |].
  { apply (Hnot "%"%char); [vm_compute; set_solver |].
    vm_compute. intros H.
    repeat (apply elem_of_cons in H as [H | H]; [discriminate H |]).
    by apply elem_of_nil in H. }
  split; [vm_compute; split; reflexivity |].
  split; [split; [by exists [], [] | reflexivity] |].
  vm_compute. reflexivity.
Qed.

(** * Further properties of the routes *)

(** ** What a handler can answer *)
Section Answers.
Context {A B : Type}.

Lemma yields_ret (P : A -> Prop) (a : A) : P a -> yields P (mret a).
Proof. intros H tr. exact H. Qed.

Lemma yields_bind (P : B -> Prop) (m : M A) (k : A -> M B) :
  (forall a, yields P (k a)) -> yields P (m ≫= k).
Proof.
  intros Hk tr. unfold mbind, m_mbind, m_bind.
  destruct (m tr) as [[a | e |] tr1]; simpl; [apply Hk | done ..].
Qed.

Lemma answers_catch (P : A -> Prop) (body : M A) (h : string -> M A) :
  yields P body -> (forall e, answers P (h e)) -> answers P (try_catch body h).
Proof.
  intros Hb Hh tr. unfold try_catch. specialize (Hb tr).
  destruct (body tr) as [[a | e |] tr1]; simpl in *; [done | apply Hh | done].
Qed.
End Answers.

Lemma answers_internal_error {D} (P : Response D -> Prop) label e :
  P (Failure 500 "Internal server error") -> answers P (internal_error label e).
Proof. intros H tr. exact H. Qed.

Ltac settle_response :=
  repeat match goal with
         | |- yields _ (mret _) => apply yields_ret; hnf; auto 10
         | |- yields _ (_ ≫= _) => apply yields_bind; intros ?
         | |- yields _ (match ?x with _ => _ end) => destruct x
         | |- yields _ (if ?c then _ else _) => destruct c
         end.

(** X1: no handler of compare.js lets an exception out: whatever the cache
    and the database do, a run inside the modelled fragment ends in an
    answer, and a failure it answers with carries one of the fixed texts.
    What a collaborator raised never reaches the caller. *)
Theorem compare_routes_answer
    (cache : cacheService.t ComparePlayers.Data) (db : Db) (parseFloat : value -> value)
    (username1 username2 beatmapId : string) (body : CompareMultiple.Body)
    (limit : option value) :
  answers compare_response (ComparePlayers.handler cache db parseFloat username1 username2)
  /\ answers compare_response (CompareBeatmap.handler db username1 username2 beatmapId)
  /\ answers compare_response (CompareMultiple.handler db body)
  /\ answers compare_response (CompareHeadToHead.handler db username1 username2 limit).
Proof.
  unfold ComparePlayers.handler, CompareBeatmap.handler, CompareMultiple.handler,
    CompareHeadToHead.handler. cbv zeta.
  repeat apply conj;
    (apply answers_catch; [| intros e; apply answers_internal_error; hnf; auto 10]);
    settle_response.
Qed.

(** X2: no handler of search.js lets an exception out: a run inside the
    modelled fragment ends in an answer, and the only failure is
    [500 Internal server error]. *)
Theorem search_routes_answer
    (cache : cacheService.t Search.Results) (db : Db) (getTime : value -> value)
    (p : Search.Params) (pp : SearchPlayers.Params) (pb : SearchBeatmapsRoute.Params)
    (body : SearchAdvanced.Body) (ps : SearchSuggestions.Params) (limit : option value) :
  answers search_response (Search.handler cache db p)
  /\ answers search_response (SearchPlayers.handler db pp)
  /\ answers search_response (SearchBeatmapsRoute.handler db pb)
  /\ answers search_response (SearchAdvanced.handler db getTime body)
  /\ answers search_response (SearchSuggestions.handler db ps)
  /\ answers search_response (SearchPopular.handler db limit).
Proof.
  unfold Search.handler, SearchPlayers.handler, SearchBeatmapsRoute.handler,
    SearchAdvanced.handler, SearchSuggestions.handler, SearchPopular.handler. cbv zeta.
  repeat apply conj;
    (apply answers_catch; [| intros e; apply answers_internal_error; hnf; auto 10]);
    settle_response.
Qed.


(** ** The read-through path of the two-player comparison and of the search *)
Section ReadThrough.
Variable cache : cacheService.t ComparePlayers.Data.
Variable search_cache : cacheService.t Search.Results.
Variable db : Db.
Variable parseFloat : value -> value.

(** X3: a cache hit is the whole answer: the handler returns what the cache
    held with [200], asks nothing of the database and writes nothing back
    to the cache, in the two-player comparison and in the main search. *)
Theorem cache_hit_skips_database username1 username2 data p results :
  (cacheService.get cache (cacheService.generateKey cache ["compare"; username1; username2])
   = Ok (Some data) ->
   ComparePlayers.handler cache db parseFloat username1 username2 []
   = (Ok (Success 200 data),
      [CacheGet [cacheService.generateKey cache ["compare"; username1; username2]]]))
  /\ (cacheService.getSearchCache search_cache (Js.trim (Search.q p))
        (default "all" (Search.type p)) = Ok (Some results) ->
      Search.handler search_cache db p []
      = (Ok (Success 200
               {| Search.payload_query := Js.trim (Search.q p);
                  Search.payload_type := default "all" (Search.type p);
                  Search.payload_data := results |}),
         [CacheGet [Js.trim (Search.q p); default "all" (Search.type p)]])).
Proof.
  split; intros Hget.
  - unfold ComparePlayers.handler, try_catch. by rewrite run_call, Hget.
  - unfold Search.handler, try_catch. by rewrite run_call, Hget.
Qed.

(** X4: on a cache miss, when either lookup finds no row the answer is [404]
    after exactly the two lookups: no skill or score query is sent and
    nothing is written to the cache. *)
Theorem compare_player_not_found username1 username2 found1 found2 :
  cacheService.get cache (cacheService.generateKey cache ["compare"; username1; username2])
  = Ok None ->
  getRow db ComparePlayers.player_sql [wrap username1] = Ok found1 ->
  getRow db ComparePlayers.player_sql [wrap username2] = Ok found2 ->
  found1 = None \/ found2 = None ->
  ComparePlayers.handler cache db parseFloat username1 username2 []
  = (Ok (Failure 404 "One or both players not found"),
     [CacheGet [cacheService.generateKey cache ["compare"; username1; username2]];
      Query ComparePlayers.player_sql [wrap username1];
      Query ComparePlayers.player_sql [wrap username2]]).
Proof.
  intros Hget H1 H2 Hnone. unfold ComparePlayers.handler, try_catch.
  rewrite run_call, Hget. unfold db_getRow.
  unfold mbind at 1, m_mbind at 1, m_bind at 1.
  rewrite run_both_calls, H1, H2.
  destruct Hnone as [-> | ->]; [| destruct found1]; reflexivity.
Qed.

(** X5: on a cache miss, a lookup that raises makes the answer [500]; both
    lookups had been sent by then, nothing else is, and nothing is
    written to the cache. *)
Theorem compare_storage_fault username1 username2 e :
  cacheService.get cache (cacheService.generateKey cache ["compare"; username1; username2])
  = Ok None ->
  (getRow db ComparePlayers.player_sql [wrap username1] = Throw e
   \/ (exists found, getRow db ComparePlayers.player_sql [wrap username1] = Ok found)
      /\ getRow db ComparePlayers.player_sql [wrap username2] = Throw e) ->
  ComparePlayers.handler cache db parseFloat username1 username2 []
  = (Ok (Failure 500 "Internal server error"),
     [CacheGet [cacheService.generateKey cache ["compare"; username1; username2]];
      Query ComparePlayers.player_sql [wrap username1];
      Query ComparePlayers.player_sql [wrap username2];
      ConsoleError "Compare players error:"]).
Proof.
  intros Hget Hfault. unfold ComparePlayers.handler, try_catch.
  rewrite run_call, Hget. unfold db_getRow.
  unfold mbind at 1, m_mbind at 1, m_bind at 1.
  rewrite run_both_calls.
  destruct Hfault as [-> | [[found ->] ->]]; reflexivity.
Qed.
End ReadThrough.

Lemma cache_hit_skips_database_witness :
  ComparePlayers.handler (MoreFixtures.warm_cache MoreFixtures.cached_comparison)
    MoreFixtures.unreachable_db Fixtures.parseFloat "alice" "bob" []
  = (Ok (Success 200 MoreFixtures.cached_comparison), [CacheGet ["compare:alice:bob"]])
  /\ fst (Search.handler (MoreFixtures.warm_cache MoreFixtures.cached_results)
            MoreFixtures.unreachable_db Fixtures.search_alice [])
     = Ok (Success 200
             {| Search.payload_query := "alice"; Search.payload_type := "players";
                Search.payload_data := MoreFixtures.cached_results |}).
Proof.
  destruct (cache_hit_skips_database
              (MoreFixtures.warm_cache MoreFixtures.cached_comparison)
              (MoreFixtures.warm_cache MoreFixtures.cached_results)
              MoreFixtures.unreachable_db Fixtures.parseFloat "alice" "bob"
              MoreFixtures.cached_comparison Fixtures.search_alice
              MoreFixtures.cached_results) as [Hcompare Hsearch].
  split.
  - apply Hcompare. reflexivity.
  - rewrite Hsearch; reflexivity.
Defined.

Lemma compare_player_not_found_witness :
  fst (ComparePlayers.handler (Fixtures.empty_cache _) MoreFixtures.empty_db
         Fixtures.parseFloat "alice" "nobody" [])
  = Ok (Failure 404 "One or both players not found").
Proof.
  rewrite (compare_player_not_found (Fixtures.empty_cache _) MoreFixtures.empty_db
             Fixtures.parseFloat "alice" "nobody" None None);
    [reflexivity | reflexivity | reflexivity | reflexivity | left; reflexivity].
Defined.

Lemma compare_storage_fault_witness :
  fst (ComparePlayers.handler (Fixtures.empty_cache _) MoreFixtures.unreachable_db
         Fixtures.parseFloat "alice" "bob" [])
  = Ok (Failure 500 "Internal server error").
Proof.
  rewrite (compare_storage_fault (Fixtures.empty_cache _) MoreFixtures.unreachable_db
             Fixtures.parseFloat "alice" "bob" "ECONNREFUSED");
    [reflexivity | reflexivity | left; reflexivity].
Defined.


(** ** A comparison that is computed and stored *)
Section Fresh.
Import ComparePlayers.

(** X6: on a cache miss with both players found, the handler sends the two
    skill queries and then the two score queries, first player first,
    stores the comparison under the key it had read, for 600 seconds,
    and answers [200] with what it stored. *)
Theorem compare_miss_fills_cache (cache : cacheService.t Data) db parseFloat
    username1 username2 player1 player2 skills1 skills2 scores1 scores2 data :
  cacheService.get cache (cacheService.generateKey cache ["compare"; username1; username2])
  = Ok None ->
  getRow db player_sql [wrap username1] = Ok (Some player1) ->
  getRow db player_sql [wrap username2] = Ok (Some player2) ->
  getRows db skills_sql [wrap username1] = Ok skills1 ->
  getRows db skills_sql [wrap username2] = Ok skills2 ->
  getRows db scores_sql [wrap username1] = Ok scores1 ->
  getRows db scores_sql [wrap username2] = Ok scores2 ->
  assemble parseFloat player1 player2 skills1 skills2 scores1 scores2 = Ok data ->
  cacheService.set cache (cacheService.generateKey cache ["compare"; username1; username2])
    data 600 = Ok tt ->
  handler cache db parseFloat username1 username2 []
  = (Ok (Success 200 data),
     [CacheGet [cacheService.generateKey cache ["compare"; username1; username2]];
      Query player_sql [wrap username1]; Query player_sql [wrap username2];
      Query skills_sql [wrap username1]; Query skills_sql [wrap username2];
      Query scores_sql [wrap username1]; Query scores_sql [wrap username2];
      CacheSet [cacheService.generateKey cache ["compare"; username1; username2]] 600]).
Proof.
  intros Hget H1 H2 H3 H4 H5 H6 Hd Hset. unfold handler, try_catch.
  rewrite run_call, Hget.
  unfold db_getRow, db_getRows.
  unfold mbind at 1, m_mbind at 1, m_bind at 1.
  rewrite run_both_calls, H1, H2. cbn -[call both lift assemble].
  unfold mbind at 1, m_mbind at 1, m_bind at 1.
  unfold both at 1. rewrite !run_both_calls, H3, H4, H5, H6.
  cbn -[call lift assemble].
  rewrite run_lift, Hd. rewrite run_call, Hset. reflexivity.
Qed.
End Fresh.

Lemma compare_miss_fills_cache_witness :
  exists data,
    ComparePlayers.handler (Fixtures.empty_cache _) MoreFixtures.alice_only
      Fixtures.parseFloat "alice" "ali" []
    = (Ok (Success 200 data),
       [CacheGet ["compare:alice:ali"];
        Query ComparePlayers.player_sql [VStr "%alice%"];
        Query ComparePlayers.player_sql [VStr "%ali%"];
        Query ComparePlayers.skills_sql [VStr "%alice%"];
        Query ComparePlayers.skills_sql [VStr "%ali%"];
        Query ComparePlayers.scores_sql [VStr "%alice%"];
        Query ComparePlayers.scores_sql [VStr "%ali%"];
        CacheSet ["compare:alice:ali"] 600]).
Proof.
  eexists.
  apply (compare_miss_fills_cache (Fixtures.empty_cache _) MoreFixtures.alice_only
           Fixtures.parseFloat "alice" "ali" Fixtures.alice Fixtures.alice [] [] [] []);
    reflexivity.
Defined.


(** ** The two-player comparison, seen from either side *)
Section Mirror.
Import ComparePlayers.

Lemma sub_swap (a b d : value) : Js.sub a b = Some d -> Js.sub b a = Some (negated d).
Proof.
  destruct a, b; simpl; intros [= <-]; try reflexivity.
  simpl. do 2 f_equal. rewrite <- Qred_opp. apply Qred_complete. ring.
Qed.

Lemma higher_swap (a b : value) (d : Diff) :
  higher a b = Ok d -> exists d', higher b a = Ok d' /\ mirrored d d'.
Proof.
  unfold higher. destruct (Js.sub a b) as [v |] eqn:E; simpl; [| discriminate].
  intros [= <-]. rewrite (sub_swap _ _ _ E). simpl. eexists. split; [reflexivity | done].
Qed.

Lemma lower_swap (a b : value) (d : Diff) :
  lower a b = Ok d -> exists d', lower b a = Ok d' /\ mirrored d d'.
Proof.
  unfold lower. destruct (Js.sub b a) as [v |] eqn:E; simpl; [| discriminate].
  intros [= <-]. rewrite (sub_swap _ _ _ E). simpl. eexists. split; [reflexivity | done].
Qed.

Lemma skill_entry_swap parseFloat skills1 skills2 skill e :
  skill_entry parseFloat skills1 skills2 skill = Ok e ->
  exists e', skill_entry parseFloat skills2 skills1 skill = Ok e' /\ mirrored_skill e e'.
Proof.
  unfold skill_entry. cbv zeta.
  destruct (higher _ _) as [d | |] eqn:E; simpl; try discriminate.
  intros [= <-]. destruct (higher_swap _ _ _ E) as (d' & -> & Hm).
  simpl. eexists. split; [reflexivity | done].
Qed.

Lemma for_each_related {A B} (R : B -> B -> Prop) (f g : A -> Outcome B) (l : list A) ys :
  (forall x y, f x = Ok y -> exists y', g x = Ok y' /\ R y y') ->
  for_each f l = Ok ys ->
  exists ys', for_each g l = Ok ys' /\ Forall2 R ys ys'.
Proof.
  intros Hfg. revert ys. induction l as [| x l IH]; intros ys; simpl.
  - intros [= <-]. by exists [].
  - destruct (f x) as [y | |] eqn:Ey; simpl; try discriminate.
    destruct (for_each f l) as [ys0 | |]; simpl; try discriminate.
    intros [= <-]. destruct (Hfg _ _ Ey) as (y' & -> & Hy).
    destruct (IH _ eq_refl) as (ys' & -> & Hys). simpl.
    eexists. split; [reflexivity | by constructor].
Qed.

Lemma for_each_elem {A B} (f : A -> Outcome B) (l : list A) ys y :
  for_each f l = Ok ys -> y ∈ ys -> exists x, x ∈ l /\ f x = Ok y.
Proof.
  revert ys. induction l as [| x l IH]; intros ys; simpl.
  - intros [= <-] Hy. by apply elem_of_nil in Hy.
  - destruct (f x) as [y0 | |] eqn:Ey; simpl; try discriminate.
    destruct (for_each f l) as [ys0 | |]; simpl; try discriminate.
    intros [= <-] Hy. apply elem_of_cons in Hy as [-> | Hy].
    + exists x. split; [left | done].
    + destruct (IH _ eq_refl Hy) as (x' & Hx' & Hf). exists x'. split; [by right | done].
Qed.

Lemma for_each_keys {A B} (key : B -> A) (f : A -> Outcome B) (l : list A) ys :
  (forall x y, f x = Ok y -> key y = x) ->
  for_each f l = Ok ys -> key <$> ys = l.
Proof.
  intros Hk. revert ys. induction l as [| x l IH]; intros ys; simpl.
  - by intros [= <-].
  - destruct (f x) as [y0 | |] eqn:Ey; simpl; try discriminate.
    destruct (for_each f l) as [ys0 | |]; simpl; try discriminate.
    intros [= <-]. rewrite fmap_cons. f_equal; [by apply Hk | by apply IH].
Qed.

Lemma skill_entry_key parseFloat skills1 skills2 skill e :
  skill_entry parseFloat skills1 skills2 skill = Ok e -> fst e = skill.
Proof.
  unfold skill_entry. cbv zeta.
  destruct (higher _ _) as [d | |]; simpl; try discriminate. by intros [= <-].
Qed.

Lemma stat_comparison_swap player1 player2 s :
  stat_comparison player1 player2 = Ok s ->
  exists s',
    stat_comparison player2 player1 = Ok s'
    /\ mirrored (totalPP s) (totalPP s') /\ mirrored (weightedPP s) (weightedPP s')
    /\ mirrored (accuracy s) (accuracy s') /\ mirrored (firstPlaces s) (firstPlaces s')
    /\ mirrored (totalScores s) (totalScores s')
    /\ mirrored (countryRank s) (countryRank s').
Proof.
  unfold stat_comparison.
  destruct (higher (Js.or (Js.get player1 "total_pp") _) _) as [d1 | |] eqn:E1;
    simpl; try discriminate.
  destruct (higher (Js.or (Js.get player1 "weighted_pp") _) _) as [d2 | |] eqn:E2;
    simpl; try discriminate.
  destruct (higher (Js.or (Js.get player1 "accuracy_avg") _) _) as [d3 | |] eqn:E3;
    simpl; try discriminate.
  destruct (higher (Js.or (Js.get player1 "first_places") _) _) as [d4 | |] eqn:E4;
    simpl; try discriminate.
  destruct (higher (Js.or (Js.get player1 "total_scores") _) _) as [d5 | |] eqn:E5;
    simpl; try discriminate.
  destruct (lower (Js.or (Js.get player1 "country_rank") _) _) as [d6 | |] eqn:E6;
    simpl; try discriminate.
  intros [= <-].
  destruct (higher_swap _ _ _ E1) as (d1' & -> & H1).
  destruct (higher_swap _ _ _ E2) as (d2' & -> & H2).
  destruct (higher_swap _ _ _ E3) as (d3' & -> & H3).
  destruct (higher_swap _ _ _ E4) as (d4' & -> & H4).
  destruct (higher_swap _ _ _ E5) as (d5' & -> & H5).
  destruct (lower_swap _ _ _ E6) as (d6' & -> & H6).
  simpl. eexists. split; [reflexivity |]. simpl. done.
Qed.

(** X7: comparing B with A is the mirror image of comparing A with B: when
    one comparison is computed so is the other, the two sides change
    places, every difference changes sign (the country rank's too), and
    the skills stay in the same order. *)
Theorem comparison_mirrored parseFloat player1 player2 skills1 skills2 scores1 scores2 d :
  assemble parseFloat player1 player2 skills1 skills2 scores1 scores2 = Ok d ->
  exists d',
    assemble parseFloat player2 player1 skills2 skills1 scores2 scores1 = Ok d'
    /\ ComparePlayers.player1 d' = ComparePlayers.player2 d
    /\ ComparePlayers.player2 d' = ComparePlayers.player1 d
    /\ Forall2 mirrored_skill (skillComparison d) (skillComparison d')
    /\ mirrored (totalPP (statComparison d)) (totalPP (statComparison d'))
    /\ mirrored (weightedPP (statComparison d)) (weightedPP (statComparison d'))
    /\ mirrored (accuracy (statComparison d)) (accuracy (statComparison d'))
    /\ mirrored (firstPlaces (statComparison d)) (firstPlaces (statComparison d'))
    /\ mirrored (totalScores (statComparison d)) (totalScores (statComparison d'))
    /\ mirrored (countryRank (statComparison d)) (countryRank (statComparison d')).
Proof.
  intros H. unfold assemble in H |- *.
  destruct (for_each (skill_entry parseFloat skills1 skills2) skill_names)
    as [sk | |] eqn:Esk; simpl in H; try discriminate.
  destruct (stat_comparison player1 player2) as [st | |] eqn:Est; simpl in H;
    try discriminate.
  injection H as <-.
  destruct (for_each_related mirrored_skill _ (skill_entry parseFloat skills2 skills1) _ _
              (skill_entry_swap parseFloat skills1 skills2) Esk) as (sk' & -> & Hsk).
  destruct (stat_comparison_swap _ _ _ Est) as (st' & -> & Hst).
  simpl. eexists. split; [reflexivity |]. simpl. done.
Qed.

(** X8: the skill comparison always lists the five skills, in the order
    aim, speed, accuracy, reading, consistency, whatever the tracking
    table holds.  A skill with no row for a player counts as 0 for that
    player, and one with no row for either is 0, 0 and difference 0. *)
Theorem skills_always_listed parseFloat player1 player2 skills1 skills2 scores1 scores2 d :
  assemble parseFloat player1 player2 skills1 skills2 scores1 scores2 = Ok d ->
  fst <$> skillComparison d = ["aim"; "speed"; "accuracy"; "reading"; "consistency"]
  /\ forall skill diff,
       (skill, diff) ∈ skillComparison d ->
       (find_skill skills1 skill = None -> of_player1 diff = VNum 0)
       /\ (find_skill skills2 skill = None -> of_player2 diff = VNum 0)
       /\ (find_skill skills1 skill = None -> find_skill skills2 skill = None ->
           diff = zero_diff).
Proof.
  unfold assemble.
  destruct (for_each (skill_entry parseFloat skills1 skills2) skill_names)
    as [sk | |] eqn:Esk; simpl; try discriminate.
  destruct (stat_comparison player1 player2) as [st | |]; simpl; try discriminate.
  intros [= <-]. simpl. split.
  - apply (for_each_keys fst _ _ _ (skill_entry_key parseFloat skills1 skills2) Esk).
  - intros skill diff Hin.
    destruct (for_each_elem _ _ _ _ Esk Hin) as (x & _ & Hx).
    pose proof (skill_entry_key _ _ _ _ _ Hx) as Hkey. simpl in Hkey. subst x.
    revert Hx. unfold skill_entry, higher. cbv zeta.
    destruct (Js.sub _ _) as [v |] eqn:E; simpl; [| discriminate].
    intros [= <-]. simpl. repeat split.
    + by intros ->.
    + by intros ->.
    + intros H1 H2. rewrite H1, H2 in E |- *. simpl in E. by injection E as <-.
Qed.
End Mirror.

Lemma comparison_mirrored_witness :
  exists d d',
    ComparePlayers.assemble Fixtures.parseFloat Fixtures.alice Fixtures.bob
      MoreFixtures.aim_only [] [] [] = Ok d
    /\ ComparePlayers.assemble Fixtures.parseFloat Fixtures.bob Fixtures.alice
         [] MoreFixtures.aim_only [] [] = Ok d'
    /\ ComparePlayers.difference (ComparePlayers.countryRank (ComparePlayers.statComparison d))
       = VNum 15
    /\ ComparePlayers.difference (ComparePlayers.countryRank (ComparePlayers.statComparison d'))
       = VNum (-15).
Proof.
  eexists.
  assert (Hd : ComparePlayers.assemble Fixtures.parseFloat Fixtures.alice Fixtures.bob
                 MoreFixtures.aim_only [] [] [] = Ok _) by reflexivity.
  destruct (comparison_mirrored _ _ _ _ _ _ _ _ Hd)
    as (d' & Hd' & _ & _ & _ & _ & _ & _ & _ & _ & _ & _ & Hrank).
  exists d'. split; [exact Hd |]. split; [exact Hd' |]. split; [reflexivity |].
  rewrite Hrank. reflexivity.
Defined.

Lemma skills_always_listed_witness :
  exists d,
    ComparePlayers.assemble Fixtures.parseFloat Fixtures.alice Fixtures.bob
      MoreFixtures.aim_only [] [] [] = Ok d
    /\ fst <$> ComparePlayers.skillComparison d
       = ["aim"; "speed"; "accuracy"; "reading"; "consistency"].
Proof.
  eexists.
  assert (Hd : ComparePlayers.assemble Fixtures.parseFloat Fixtures.alice Fixtures.bob
                 MoreFixtures.aim_only [] [] [] = Ok _) by reflexivity.
  split; [exact Hd |].
  exact (proj1 (skills_always_listed _ _ _ _ _ _ _ _ Hd)).
Defined.


(** ** The per-beatmap comparison *)
Section Beatmap.
Import CompareBeatmap.


(** X10: when the three queries answer: with no score on either side the
    answer is [404]; with a score on one side only, that player is the
    winner, no differential is computed, and the answer is [200]. *)
Theorem beatmap_one_sided db username1 username2 beatmapId score1 score2 beatmapInfo :
  getRow db score_sql [wrap username1; VStr beatmapId] = Ok score1 ->
  getRow db score_sql [wrap username2; VStr beatmapId] = Ok score2 ->
  getRow db beatmap_sql [VStr beatmapId] = Ok beatmapInfo ->
  (score1 = None -> score2 = None ->
   fst (handler db username1 username2 beatmapId [])
   = Ok (Failure 404 "Neither player has a score on this beatmap"))
  /\ (forall s, score1 = Some s -> score2 = None ->
        fst (handler db username1 username2 beatmapId [])
        = Ok (Success 200
                {| beatmap := beatmapInfo;
                   player1 := {| username := username1; score := Some s; hasScore := true |};
                   player2 := {| username := username2; score := None; hasScore := false |};
                   winner := username1;
                   differences := None |}))
  /\ (forall s, score1 = None -> score2 = Some s ->
        fst (handler db username1 username2 beatmapId [])
        = Ok (Success 200
                {| beatmap := beatmapInfo;
                   player1 := {| username := username1; score := None; hasScore := false |};
                   player2 := {| username := username2; score := Some s; hasScore := true |};
                   winner := username2;
                   differences := None |})).
Proof.
  intros H1 H2 H3.
  assert (Hrun : forall tr,
             (both (both (db_getRow db score_sql [wrap username1; VStr beatmapId])
                         (db_getRow db score_sql [wrap username2; VStr beatmapId]))
                   (db_getRow db beatmap_sql [VStr beatmapId])) tr
             = (Ok (score1, score2, beatmapInfo),
                (tr ++ [Query score_sql [wrap username1; VStr beatmapId];
                        Query score_sql [wrap username2; VStr beatmapId];
                        Query beatmap_sql [VStr beatmapId]])%list)).
  { intros tr. unfold both at 1. unfold db_getRow. rewrite run_both_calls, H1, H2.
    unfold call. rewrite H3. simpl. by rewrite <- app_assoc. }
  repeat apply conj.
  - intros -> ->. unfold handler, try_catch.
    by rewrite (run_bind_ok _ _ _ _ _ (Hrun [])).
  - intros s -> ->. unfold handler, try_catch.
    by rewrite (run_bind_ok _ _ _ _ _ (Hrun [])).
  - intros s -> ->. unfold handler, try_catch.
    by rewrite (run_bind_ok _ _ _ _ _ (Hrun [])).
Qed.
End Beatmap.


(** ** Ties, ascending metrics and storage faults in the multi-player comparison *)
Section Stable.
Context {A : Type} (cmp : A -> A -> Q) (P : A -> bool).

Hypothesis tied : forall x y, P x = true -> P y = true -> Qle_bool (cmp x y) 0 = true.


End Stable.


Section MultipleMore.
Import CompareMultiple.







Lemma fetch_fault db before u after acc tr e :
  (forall v, v ∈ before -> exists r, getRow db player_sql [wrap v] = Ok r) ->
  getRow db player_sql [wrap u] = Throw e ->
  fetch db (before ++ u :: after) acc tr
  = (Throw e, (tr ++ (lookup_event <$> before ++ [u]))%list).
Proof.
  revert acc tr. induction before as [| v before IH]; intros acc tr Hdb Hu.
  - cbn [app fetch]. unfold db_getRow. by rewrite run_call, Hu.
  - destruct (Hdb v) as [r Hr]; [by left |].
    rewrite <- app_comm_cons. cbn [fetch]. unfold db_getRow. rewrite run_call, Hr.
    assert (Hrest : forall v', v' ∈ before -> exists r, getRow db player_sql [wrap v'] = Ok r)
      by (intros; apply Hdb; by right).
    destruct r as [p |]; rewrite (IH _ _ Hrest Hu);
      by rewrite <- app_assoc.
Qed.

(** X13: the lookups run one after the other, and the first one that raises
    ends the request with [500]: the usernames after it are never looked
    up, whatever was found before. *)
Theorem multiple_storage_fault db body before u after e :
  default [] (body_usernames body) = (before ++ u :: after)%list ->
  2 <= length (default [] (body_usernames body)) <= 5 ->
  (forall v, v ∈ before -> exists r, getRow db player_sql [wrap v] = Ok r) ->
  getRow db player_sql [wrap u] = Throw e ->
  handler db body []
  = (Ok (Failure 500 "Internal server error"),
     ((lookup_event <$> before ++ [u]) ++ [ConsoleError "Multiple comparison error:"])%list).
Proof.
  intros Hnames Hrange Hdb Hu. rewrite (handler_in_range _ _ Hrange), Hnames.
  unfold try_catch, after_check, mbind, m_mbind, m_bind.
  by rewrite (fetch_fault db before u after [] [] e Hdb Hu).
Qed.
End MultipleMore.



Lemma beatmap_one_sided_witness :
  fst (CompareBeatmap.handler MoreFixtures.empty_db "alice" "bob" "42" [])
  = Ok (Failure 404 "Neither player has a score on this beatmap").
Proof.
  apply (proj1 (beatmap_one_sided MoreFixtures.empty_db "alice" "bob" "42" None None None
                  eq_refl eq_refl eq_refl)); reflexivity.
Defined.



Lemma multiple_storage_fault_witness :
  CompareMultiple.handler MoreFixtures.unreachable_db
    (Fixtures.multiple Fixtures.two_names) []
  = (Ok (Failure 500 "Internal server error"),
     [lookup_event "alice"; ConsoleError "Multiple comparison error:"]).
Proof.
  apply (multiple_storage_fault MoreFixtures.unreachable_db
           (Fixtures.multiple Fixtures.two_names) [] "alice" ["bob"] "ECONNREFUSED").
  - reflexivity.
  - simpl. lia.
  - intros v Hv. by apply elem_of_nil in Hv.
  - reflexivity.
Defined.


(** ** The head-to-head summary *)
Section HeadToHead.
Import CompareHeadToHead.

Lemma summarize_from username1 username2 (rows : list Row) (acc : Summary) :
  let s := foldl (tally username1 username2) acc rows in
  totalBeatmaps s = totalBeatmaps acc + length rows
  /\ player1Wins s = player1Wins acc + length (List.filter (won_by username1) rows)
  /\ player2Wins s
     = player2Wins acc
       + length (List.filter (fun b => negb (won_by username1 b) && won_by username2 b) rows)
  /\ ties s
     = ties acc
       + length (List.filter (fun b => negb (won_by username1 b) && negb (won_by username2 b))
                   rows).
Proof.
  revert acc. induction rows as [| b rows IH]; intros acc; cbn [foldl List.filter length].
  - repeat split; lia.
  - specialize (IH (tally username1 username2 acc b)). cbv zeta in IH.
    destruct IH as (Ht & H1 & H2 & H3). rewrite Ht, H1, H2, H3.
    unfold tally, won_by.
    destruct (Js.is_string (Js.get b "winner") username1),
      (Js.is_string (Js.get b "winner") username2); simpl; repeat split; lia.
Qed.

(** X14: when the query answers, the answer is [200] after that one query,
    and its summary counts every row once: [totalBeatmaps] is the number
    of rows and equals wins plus ties; [player1Wins] counts the rows
    whose winner is [username1], so when both usernames are the same
    text player 2 wins nothing. *)
Theorem head_to_head_counts db username1 username2 limit n rows :
  Js.parseInt (default (VNum 20) limit) = Some n ->
  getRows db common_sql
    [VStr username1; VStr username2; wrap username1; wrap username2; n] = Ok rows ->
  exists data,
    handler db username1 username2 limit []
    = (Ok (Success 200 data),
       [Query common_sql
          [VStr username1; VStr username2; wrap username1; wrap username2; n]])
    /\ commonBeatmaps data = rows
    /\ totalBeatmaps (summary data) = length rows
    /\ player1Wins (summary data) + player2Wins (summary data) + ties (summary data)
       = length rows
    /\ player1Wins (summary data) = length (List.filter (won_by username1) rows)
    /\ (username1 = username2 -> player2Wins (summary data) = 0).
Proof.
  intros Hn Hrows. unfold handler, try_catch.
  rewrite run_lift, Hn. cbn [of_option]. unfold db_getRows. rewrite run_call, Hrows.
  destruct rows as [| b rows]; [by eexists |].
  cbn [length Nat.eqb]. eexists. split; [reflexivity |]. cbn [commonBeatmaps summary].
  split; [done |].
  pose proof (summarize_from username1 username2 (b :: rows) no_games) as Hs.
  cbv zeta in Hs. fold (summarize username1 username2 (b :: rows)) in Hs.
  destruct Hs as (Ht & H1 & H2 & H3).
  change (S (length rows)) with (length (b :: rows)).
  rewrite Ht, H1, H2, H3. cbn [no_games totalBeatmaps player1Wins player2Wins ties].
  generalize (b :: rows). clear. intros l.
  repeat apply conj.
  - lia.
  - induction l as [| x l IH]; [done |]. cbn [List.filter length].
    destruct (won_by username1 x), (won_by username2 x); simpl; lia.
  - lia.
  - intros <-.
    induction l as [| x l IH]; [done |]. cbn [List.filter].
    destruct (won_by username1 x); simpl; exact IH.
Qed.
End HeadToHead.

Lemma head_to_head_counts_witness :
  exists data,
    fst (CompareHeadToHead.handler MoreFixtures.games_db "alice" "bob" None [])
    = Ok (Success 200 data)
    /\ CompareHeadToHead.summary data
       = {| CompareHeadToHead.totalBeatmaps := 4; CompareHeadToHead.player1Wins := 2;
            CompareHeadToHead.player2Wins := 1; CompareHeadToHead.ties := 1 |}.
Proof.
  destruct (head_to_head_counts MoreFixtures.games_db "alice" "bob" None (VNum 20)
              MoreFixtures.games eq_refl eq_refl) as (data & Hrun & _).
  exists data. split; [by rewrite Hrun |].
  injection Hrun as <-. vm_compute. reflexivity.
Defined.


(** ** Which queries a search sends *)
Section Dispatch.
Variable db : Db.
Hypothesis db_answers : answers_rows db.

Lemma search_branch_run on text term limit n tr :
  Js.parseInt limit = Some n ->
  exists r,
    Search.branch db on text term limit tr
    = (Ok r, (tr ++ when on (Query text [wrap term; n]))%list)
    /\ (is_Some r <-> on = true).
Proof.
  intros Hn. unfold Search.branch, when. destruct on.
  - destruct (db_answers text [wrap term; n]) as [rows Hrows].
    rewrite run_lift, Hn. cbn [of_option]. unfold db_getRows. rewrite run_call, Hrows.
    eexists. split; [reflexivity |]. split; [done | by eexists].
  - exists None. rewrite app_nil_r. split; [done |]. split; [by intros [? ?] | done].
Qed.

(** X15: on a cache miss the main search sends the queries of the branches
    its [type] selects, players, beatmaps, scores in that order, then
    writes the results to the cache for 600 seconds and answers [200].
    A [type] with no branch sends no query at all: the empty result is
    cached and returned as a success. *)
Theorem search_dispatch (cache : cacheService.t Search.Results) p n :
  cacheService.getSearchCache cache (Js.trim (Search.q p)) (default "all" (Search.type p))
  = Ok None ->
  Js.parseInt (default (VNum 20) (Search.limit p)) = Some n ->
  (forall data, cacheService.cacheSearch cache (Js.trim (Search.q p))
                  (default "all" (Search.type p)) data 600 = Ok tt) ->
  exists data,
    Search.handler cache db p []
    = (Ok (Success 200
             {| Search.payload_query := Js.trim (Search.q p);
                Search.payload_type := default "all" (Search.type p);
                Search.payload_data := data |}),
       (CacheGet [Js.trim (Search.q p); default "all" (Search.type p)]
        :: search_queries (default "all" (Search.type p)) (Js.trim (Search.q p)) n
        ++ [CacheSet [Js.trim (Search.q p); default "all" (Search.type p)] 600])%list)
    /\ (is_Some (Search.players data)
        <-> enabled (default "all" (Search.type p)) "players" = true)
    /\ (is_Some (Search.beatmaps data)
        <-> enabled (default "all" (Search.type p)) "beatmaps" = true)
    /\ (is_Some (Search.scores data)
        <-> enabled (default "all" (Search.type p)) "scores" = true).
Proof.
  intros Hget Hn Hset. unfold Search.handler, try_catch.
  set (type := default "all" (Search.type p)). set (term := Js.trim (Search.q p)).
  fold type term in Hget, Hset.
  rewrite run_call, Hget.
  edestruct (search_branch_run (enabled type "players")) as (r1 & E1 & I1); [exact Hn |].
  unfold enabled in E1 at 1. rewrite (run_bind_ok _ _ _ _ _ E1).
  edestruct (search_branch_run (enabled type "beatmaps")) as (r2 & E2 & I2); [exact Hn |].
  unfold enabled in E2 at 1. rewrite (run_bind_ok _ _ _ _ _ E2).
  edestruct (search_branch_run (enabled type "scores")) as (r3 & E3 & I3); [exact Hn |].
  unfold enabled in E3 at 1. rewrite (run_bind_ok _ _ _ _ _ E3).
  rewrite run_call, Hset.
  exists {| Search.players := r1; Search.beatmaps := r2; Search.scores := r3 |}.
  split; [| done]. unfold search_queries. cbn [app]. by rewrite <- !app_assoc.
Qed.

Lemma suggestions_branch_run on text term limit n tr :
  Js.parseInt limit = Some n ->
  exists r,
    SearchSuggestions.branch db on text term limit tr
    = (Ok r, (tr ++ when on (Query text [SearchSuggestions.prefix_of term; n]))%list)
    /\ (is_Some r <-> on = true).
Proof.
  intros Hn. unfold SearchSuggestions.branch, when. destruct on.
  - destruct (db_answers text [SearchSuggestions.prefix_of term; n]) as [rows Hrows].
    rewrite run_lift, Hn. cbn [of_option]. unfold db_getRows. rewrite run_call, Hrows.
    eexists. split; [reflexivity |]. split; [done | by eexists].
  - exists None. rewrite app_nil_r. split; [done |]. split; [by intros [? ?] | done].
Qed.

(** X16: the suggestions never touch the cache and bind the trimmed term as a
    prefix, [term%], not as an infix: the handler sends the queries of
    the branches its [type] selects, players, beatmaps, artists in that
    order, each with that pattern and the parsed limit, and answers
    [200]. *)
Theorem suggestions_dispatch p n :
  Js.parseInt (default (VNum 10) (SearchSuggestions.limit p)) = Some n ->
  exists found,
    SearchSuggestions.handler db p []
    = (Ok (Success 200
             {| SearchSuggestions.query := Js.trim (SearchSuggestions.q p);
                SearchSuggestions.suggestions := found |}),
       suggestion_queries (default "all" (SearchSuggestions.type p))
         (Js.trim (SearchSuggestions.q p)) n)
    /\ (is_Some (SearchSuggestions.players found)
        <-> enabled (default "all" (SearchSuggestions.type p)) "players" = true)
    /\ (is_Some (SearchSuggestions.beatmaps found)
        <-> enabled (default "all" (SearchSuggestions.type p)) "beatmaps" = true)
    /\ (is_Some (SearchSuggestions.artists found)
        <-> enabled (default "all" (SearchSuggestions.type p)) "artists" = true).
Proof.
  intros Hn. unfold SearchSuggestions.handler, try_catch.
  set (type := default "all" (SearchSuggestions.type p)).
  set (term := Js.trim (SearchSuggestions.q p)).
  edestruct (suggestions_branch_run (enabled type "players")) as (r1 & E1 & I1); [exact Hn |].
  unfold enabled in E1 at 1. rewrite (run_bind_ok _ _ _ _ _ E1).
  edestruct (suggestions_branch_run (enabled type "beatmaps")) as (r2 & E2 & I2); [exact Hn |].
  unfold enabled in E2 at 1. rewrite (run_bind_ok _ _ _ _ _ E2).
  edestruct (suggestions_branch_run (enabled type "artists")) as (r3 & E3 & I3); [exact Hn |].
  unfold enabled in E3 at 1. rewrite (run_bind_ok _ _ _ _ _ E3).
  exists {| SearchSuggestions.players := r1; SearchSuggestions.beatmaps := r2;
            SearchSuggestions.artists := r3 |}.
  split; [| done]. unfold suggestion_queries. cbn [app]. by rewrite <- !app_assoc.
Qed.

Lemma advanced_run on built b tr :
  built = Ok b ->
  exists r,
    SearchAdvanced.run db on built tr
    = (Ok r, (tr ++ when on (Query (SearchAdvanced.text b) (SearchAdvanced.params b)))%list)
    /\ (is_Some r <-> on = true).
Proof.
  intros ->. unfold SearchAdvanced.run, when. destruct on.
  - destruct (db_answers (SearchAdvanced.text b) (SearchAdvanced.params b)) as [rows Hrows].
    rewrite run_lift. unfold db_getRows. rewrite run_call, Hrows.
    eexists. split; [reflexivity |]. split; [done | by eexists].
  - exists None. rewrite app_nil_r. split; [done |]. split; [by intros [? ?] | done].
Qed.

(** X17: the advanced search sends the player query for the types [all] and
    [players] and the score query for [all] and [scores], in that order,
    each with the text and the parameters its builder made; any other
    type, [beatmaps] included, sends nothing and is still answered [200]
    with empty data.  The answer echoes the parsed limit and offset. *)
Theorem advanced_dispatch getTime body l o :
  Js.parseInt (default (VNum 20) (SearchAdvanced.limit body)) = Some l ->
  Js.parseInt (default (VNum 0) (SearchAdvanced.offset body)) = Some o ->
  let searchQuery := default "" (SearchAdvanced.query body) in
  let filters := default SearchAdvanced.no_filters (SearchAdvanced.filters body) in
  let type := default "all" (SearchAdvanced.type filters) in
  exists pb sb found,
    SearchAdvanced.playerQuery searchQuery filters
      (default (VNum 20) (SearchAdvanced.limit body))
      (default (VNum 0) (SearchAdvanced.offset body)) = Ok pb
    /\ SearchAdvanced.scoreQuery getTime searchQuery filters
         (default (VNum 20) (SearchAdvanced.limit body))
         (default (VNum 0) (SearchAdvanced.offset body)) = Ok sb
    /\ SearchAdvanced.handler db getTime body []
       = (Ok (Success 200
                {| SearchAdvanced.payload_query := searchQuery;
                   SearchAdvanced.payload_filters := filters;
                   SearchAdvanced.payload_data := found;
                   SearchAdvanced.meta_limit := l;
                   SearchAdvanced.meta_offset := o |}),
          (when (enabled type "players")
             (Query (SearchAdvanced.text pb) (SearchAdvanced.params pb))
           ++ when (enabled type "scores")
                (Query (SearchAdvanced.text sb) (SearchAdvanced.params sb)))%list)
    /\ (is_Some (SearchAdvanced.players found) <-> enabled type "players" = true)
    /\ (is_Some (SearchAdvanced.scores found) <-> enabled type "scores" = true).
Proof.
  intros Hl Ho searchQuery filters type.
  destruct (playerQuery_built searchQuery filters _ _ l o Hl Ho) as (pb & _ & Hpb & _).
  destruct (scoreQuery_built getTime searchQuery filters _ _ l o Hl Ho) as (sb & _ & Hsb & _).
  exists pb, sb. unfold SearchAdvanced.handler, try_catch.
  fold searchQuery filters type.
  edestruct (advanced_run (enabled type "players")) as (r1 & E1 & I1); [exact Hpb |].
  unfold enabled in E1 at 1. rewrite (run_bind_ok _ _ _ _ _ E1).
  edestruct (advanced_run (enabled type "scores")) as (r2 & E2 & I2); [exact Hsb |].
  unfold enabled in E2 at 1. rewrite (run_bind_ok _ _ _ _ _ E2).
  rewrite run_lift, Hl. cbn [of_option]. rewrite run_lift, Ho. cbn [of_option].
  exists {| SearchAdvanced.players := r1; SearchAdvanced.scores := r2 |}.
  split; [done |]. split; [done |]. split; [| done]. reflexivity.
Qed.
End Dispatch.


Lemma search_dispatch_witness :
  exists data,
    Search.handler (Fixtures.empty_cache _) MoreFixtures.empty_db
      MoreFixtures.search_artists []
    = (Ok (Success 200
             {| Search.payload_query := "alice"; Search.payload_type := "artists";
                Search.payload_data := data |}),
       [CacheGet ["alice"; "artists"]; CacheSet ["alice"; "artists"] 600]).
Proof.
  destruct (search_dispatch MoreFixtures.empty_db ltac:(intros text params; by eexists)
              (Fixtures.empty_cache _) MoreFixtures.search_artists (VNum 20)
              eq_refl eq_refl ltac:(intros data; reflexivity)) as (data & Hrun & _).
  exists data. exact Hrun.
Defined.

Lemma suggestions_dispatch_witness :
  exists found,
    SearchSuggestions.handler MoreFixtures.empty_db MoreFixtures.suggest_players []
    = (Ok (Success 200
             {| SearchSuggestions.query := "Al"; SearchSuggestions.suggestions := found |}),
       [Query SearchSuggestions.players_sql [VStr "Al%"; VNum 10]]).
Proof.
  destruct (suggestions_dispatch MoreFixtures.empty_db ltac:(intros text params; by eexists)
              MoreFixtures.suggest_players (VNum 10) eq_refl) as (found & Hrun & _).
  exists found. exact Hrun.
Defined.

Lemma advanced_dispatch_witness :
  exists found,
    SearchAdvanced.handler MoreFixtures.empty_db (fun _ => VNaN)
      MoreFixtures.advanced_beatmaps []
    = (Ok (Success 200 found), []).
Proof.
  destruct (advanced_dispatch MoreFixtures.empty_db ltac:(intros text params; by eexists)
              (fun _ => VNaN) MoreFixtures.advanced_beatmaps (VNum 20) (VNum 0)
              eq_refl eq_refl) as (pb & sb & found & _ & _ & Hrun & _).
  eexists. exact Hrun.
Defined.


(** ** The beatmap search and its sort key *)
Section BeatmapSearch.
Import SearchBeatmapsRoute.

(** X18: whatever [sortBy] is, the beatmap search sends one query whose ORDER
    BY clause is one of the four fixed clauses, with the wrapped term
    and the parsed limit as its parameters.  A key the switch does not
    list sorts by popularity, and the answer still echoes the key as it
    was given. *)
Theorem beatmap_search_sort_closed db p n rows :
  Js.parseInt (default (VNum 20) (limit p)) = Some n ->
  getRows db (SearchBeatmaps.sql (default "popularity" (sortBy p)))
    [wrap (Js.trim (q p)); n] = Ok rows ->
  exists clause,
    clause ∈ SearchBeatmaps.allowed
    /\ (default "popularity" (sortBy p) ∉ ["difficulty"; "alphabetical"; "pp"] ->
        clause = "COUNT(ats.username) DESC")
    /\ handler db p []
       = (Ok (Success 200
                {| query := Js.trim (q p); data := rows;
                   meta := {| meta_sortBy := default "popularity" (sortBy p);
                              meta_limit := n; resultsCount := length rows |} |}),
          [Query (SearchBeatmaps.sql_before +:+ clause +:+ SearchBeatmaps.sql_after)
             [wrap (Js.trim (q p)); n]]).
Proof.
  intros Hn Hrows. exists (SearchBeatmaps.orderBy (default "popularity" (sortBy p))).
  split; [| split].
  - unfold SearchBeatmaps.orderBy, SearchBeatmaps.allowed.
    repeat case_match; set_solver.
  - intros Hnot. unfold SearchBeatmaps.orderBy.
    repeat case_match; try reflexivity;
      match goal with
      | H : String.eqb _ _ = true |- _ => apply String.eqb_eq in H; rewrite H in Hnot
      end; exfalso; apply Hnot; set_solver.
  - unfold handler, try_catch. cbv zeta.
    rewrite run_lift, Hn. cbn [of_option]. unfold db_getRows.
    rewrite run_call, Hrows. reflexivity.
Qed.
End BeatmapSearch.

Lemma beatmap_search_sort_closed_witness :
  exists payload,
    SearchBeatmapsRoute.handler MoreFixtures.empty_db MoreFixtures.beatmaps_newest []
    = (Ok (Success 200 payload),
       [Query (SearchBeatmaps.sql_before +:+ "COUNT(ats.username) DESC"
               +:+ SearchBeatmaps.sql_after) [VStr "%freedom%"; VNum 20]])
    /\ SearchBeatmapsRoute.meta_sortBy (SearchBeatmapsRoute.meta payload) = "newest".
Proof.
  destruct (beatmap_search_sort_closed MoreFixtures.empty_db MoreFixtures.beatmaps_newest
              (VNum 20) [] eq_refl eq_refl) as (clause & _ & Hdefault & Hrun).
  rewrite Hdefault in Hrun.
  - eexists. split; [exact Hrun | reflexivity].
  - simpl. repeat (apply not_elem_of_cons; split; [discriminate |]). apply not_elem_of_nil.
Defined.


(** ** What the advanced builder binds, and what its text depends on *)
Section AdvancedMore.
Import SearchAdvanced.

(** X19: the parameter list is the values of the conditions that are met, in
    source order, then the two pagination values: a filter left at its
    default (or at a bound that selects everything, such as [minPP] 0 or
    [maxPP] 10000 and above) is not bound at all. *)
Theorem advanced_parameters_in_order getTime q f limit offset l o :
  Js.parseInt limit = Some l ->
  Js.parseInt offset = Some o ->
  exists pb sb,
    playerQuery q f limit offset = Ok pb
    /\ params pb = (met (player_present q f) (player_values q f) ++ [l; o])%list
    /\ scoreQuery getTime q f limit offset = Ok sb
    /\ params sb = (met (score_present q f) (score_values getTime q f) ++ [l; o])%list.
Proof.
  intros Hl Ho. unfold playerQuery, scoreQuery.
  rewrite !(paginate_ok _ _ _ l o) by done.
  eexists _, _. split; [reflexivity |]. split; [| split; [reflexivity |]].
  - cbn [params]. rewrite !add_params. cbn [params app met player_present player_values].
    by rewrite <- !app_assoc.
  - cbn [params]. rewrite !add_params.
    cbn [params app met score_present player_present score_values player_values].
    by rewrite <- !app_assoc.
Qed.

(** X20: the text of an advanced query is fixed by which conditions are met.
    Two requests that meet the same conditions get the same text,
    character for character, whatever the search string and the filter
    values are: those reach the parameter list only. *)
Theorem advanced_text_independent_of_values
    getTime q f q' f' limit offset limit' offset' pb pb' sb sb' :
  score_present q f = score_present q' f' ->
  playerQuery q f limit offset = Ok pb ->
  playerQuery q' f' limit' offset' = Ok pb' ->
  scoreQuery getTime q f limit offset = Ok sb ->
  scoreQuery getTime q' f' limit' offset' = Ok sb' ->
  text pb = text pb' /\ text sb = text sb'.
Proof.
  intros Hsame Hp Hp' Hs Hs'. split.
  - eapply playerQuery_text_independent; [| exact Hp | exact Hp'].
    unfold score_present in Hsame. by apply app_inj_1 in Hsame as [? _].
  - eapply scoreQuery_text_independent; [exact Hsame | exact Hs | exact Hs'].
Qed.

End AdvancedMore.

Lemma advanced_parameters_in_order_witness :
  exists pb,
    SearchAdvanced.playerQuery "ab" (MoreFixtures.pp_above 100) (VNum 20) (VNum 0) = Ok pb
    /\ SearchAdvanced.params pb = [VStr "%ab%"; VNum 100; VNum 20; VNum 0].
Proof.
  destruct (advanced_parameters_in_order (fun _ => VNaN) "ab" (MoreFixtures.pp_above 100)
              (VNum 20) (VNum 0) (VNum 20) (VNum 0) eq_refl eq_refl)
    as (pb & sb & Hpb & Hparams & _).
  exists pb. split; [exact Hpb | exact Hparams].
Defined.

Lemma advanced_text_independent_of_values_witness :
  exists pb pb',
    SearchAdvanced.playerQuery "ab" (MoreFixtures.pp_above 100) (VNum 20) (VNum 0) = Ok pb
    /\ SearchAdvanced.playerQuery "x'; DROP TABLE player_stats; --"
         (MoreFixtures.pp_above 7) (VNum 5) (VNum 50) = Ok pb'
    /\ SearchAdvanced.text pb = SearchAdvanced.text pb'.
Proof.
  destruct (playerQuery_built "ab" (MoreFixtures.pp_above 100) (VNum 20) (VNum 0)
              (VNum 20) (VNum 0) eq_refl eq_refl) as (pb & _ & Hpb & _).
  destruct (playerQuery_built "x'; DROP TABLE player_stats; --" (MoreFixtures.pp_above 7)
              (VNum 5) (VNum 50) (VNum 5) (VNum 50) eq_refl eq_refl) as (pb' & _ & Hpb' & _).
  destruct (scoreQuery_built (fun _ => VNaN) "ab" (MoreFixtures.pp_above 100) (VNum 20)
              (VNum 0) (VNum 20) (VNum 0) eq_refl eq_refl) as (sb & _ & Hsb & _).
  destruct (scoreQuery_built (fun _ => VNaN) "x'; DROP TABLE player_stats; --"
              (MoreFixtures.pp_above 7) (VNum 5) (VNum 50) (VNum 5) (VNum 50)
              eq_refl eq_refl) as (sb' & _ & Hsb' & _).
  exists pb, pb'. split; [exact Hpb |]. split; [exact Hpb' |].
  exact (proj1 (advanced_text_independent_of_values (fun _ => VNaN)
                  "ab" (MoreFixtures.pp_above 100)
                  "x'; DROP TABLE player_stats; --" (MoreFixtures.pp_above 7)
                  (VNum 20) (VNum 0) (VNum 5) (VNum 50)
                  pb pb' sb sb' eq_refl Hpb Hpb' Hsb Hsb')).
Defined.



(** ** Printing a number and reading it back *)
Section RoundTrip.

Lemma digits_of_uint (d : Decimal.uint) (acc : nat) :
  Js.digits 10 (Some (Z.of_nat acc)) (NilEmpty.string_of_uint d)
  = Some (Z.of_nat (Nat.of_uint_acc d acc)).
Proof.
  revert acc. induction d; intros acc; cbn [NilEmpty.string_of_uint Nat.of_uint_acc];
    [reflexivity | ..];
    cbn [Js.digits];
    match goal with
    | |- context [Js.digit_of 10 ?c] =>
        change (Js.digit_of 10 c) with (Js.digit_of 10 c);
        let v := eval vm_compute in (Js.digit_of 10 c) in
        change (Js.digit_of 10 c) with v
    end;
    cbv iota beta; cbn [default];
    rewrite <- IHd; unfold id; do 2 f_equal; rewrite Nat.tail_mul_spec; lia.
Qed.

Lemma digits_start (c : ascii) (s : string) :
  Js.digit_of 10 c <> None ->
  Js.digits 10 None (String c s) = Js.digits 10 (Some 0%Z) (String c s).
Proof. intros Hc. cbn [Js.digits]. by destruct (Js.digit_of 10 c). Qed.

Lemma digits_nilzero (d : Decimal.uint) :
  Js.digits 10 None (NilZero.string_of_uint d) = Some (Z.of_nat (Nat.of_uint d)).
Proof.
  unfold NilZero.string_of_uint, Nat.of_uint.
  destruct d; [reflexivity | ..];
    (etransitivity; [| apply (digits_of_uint _ 0)]);
    cbn [NilEmpty.string_of_uint]; apply digits_start; by vm_compute.
Qed.

Lemma decimal_uint (d : Decimal.uint) : decimal (NilEmpty.string_of_uint d) = true.
Proof. induction d; [reflexivity | ..]; exact IHd. Qed.

Lemma decimal_show_nat (n : nat) : decimal (Js.show_nat n) = true /\ Js.show_nat n <> "".
Proof.
  unfold Js.show_nat, NilZero.string_of_uint.
  destruct (Nat.to_uint n) eqn:E; [done | ..]; rewrite <- E;
    (split; [apply decimal_uint | by rewrite E]).
Qed.

Lemma strip_hex_decimal (s : string) : decimal s = true -> Js.strip_hex s = None.
Proof.
  destruct s as [| c [| c' t]]; [done | ..].
  - intros _. by destruct c as [[] [] [] [] [] [] [] []].
  - intros H. destruct c as [[] [] [] [] [] [] [] []]; try reflexivity.
    destruct c' as [[] [] [] [] [] [] [] []]; try reflexivity; discriminate H.
Qed.

(** An ASCII character that is no white space starts no white space. *)
Lemma trim_start_ascii (a : ascii) (s : string) :
  (nat_of_ascii a <? 128)%nat = true ->
  Js.is_space a = false ->
  Js.trim_start (String a s) = String a s.
Proof.
  intros Hascii Hspace. cbn [Js.trim_start]. rewrite Hspace.
  assert (H2 : forall b, Js.is_space2 a b = false).
  { intros b. unfold Js.is_space2.
    destruct (Nat.eqb_spec (nat_of_ascii a) 194) as [E |]; [| done].
    rewrite E in Hascii. discriminate Hascii. }
  assert (H3 : forall b c, Js.is_space3 a b c = false).
  { intros b c. unfold Js.is_space3. cbv zeta.
    destruct (Nat.eqb_spec (nat_of_ascii a) 225) as [E |];
      [rewrite E in Hascii; discriminate Hascii |].
    destruct (Nat.eqb_spec (nat_of_ascii a) 226) as [E |];
      [rewrite E in Hascii; discriminate Hascii |].
    destruct (Nat.eqb_spec (nat_of_ascii a) 227) as [E |];
      [rewrite E in Hascii; discriminate Hascii |].
    destruct (Nat.eqb_spec (nat_of_ascii a) 239) as [E |];
      [rewrite E in Hascii; discriminate Hascii |].
    reflexivity. }
  destruct s as [| b [| c s3]]; [done | by rewrite H2 | by rewrite H2, H3].
Qed.

Lemma decimal_ascii (c : ascii) (t : string) :
  decimal (String c t) = true ->
  (nat_of_ascii c <? 128)%nat = true /\ Js.is_space c = false.
Proof. destruct c as [[] [] [] [] [] [] [] []]; try discriminate; done. Qed.

Lemma parseInt_text_decimal (s : string) :
  s <> "" -> decimal s = true ->
  Js.parseInt_text s
  = match Js.digits 10 None s with
    | Some k => VNum (inject_Z (1 * k))
    | None => VNaN
    end.
Proof.
  intros Hne H. pose proof (strip_hex_decimal s H) as Hhex.
  destruct s as [| c t]; [done |].
  destruct (decimal_ascii _ _ H) as [Hascii Hspace].
  unfold Js.parseInt_text. rewrite (trim_start_ascii _ _ Hascii Hspace).
  destruct c as [[] [] [] [] [] [] [] []]; try discriminate H; cbv iota; by rewrite Hhex.
Qed.

Lemma parseInt_text_minus (s : string) :
  decimal s = true ->
  Js.parseInt_text ("-" +:+ s)
  = match Js.digits 10 None s with
    | Some k => VNum (inject_Z (-1 * k))
    | None => VNaN
    end.
Proof.
  intros H. pose proof (strip_hex_decimal s H) as Hhex.
  unfold Js.parseInt_text.
  change ("-" +:+ s) with (String "-" s).
  rewrite (trim_start_ascii "-" s eq_refl eq_refl).
  cbv iota. by rewrite Hhex.
Qed.

Lemma parseInt_text_reads_decimal (z : Z) :
  Js.parseInt_text (Js.show_Z z) = VNum (inject_Z z).
Proof.
  assert (Hnat : forall n, Js.digits 10 None (Js.show_nat n) = Some (Z.of_nat n)).
  { intros n. unfold Js.show_nat. rewrite digits_nilzero.
    by rewrite DecimalNat.Unsigned.of_to. }
  destruct z as [| p | p]; unfold Js.show_Z.
  - reflexivity.
  - destruct (decimal_show_nat (Z.to_nat (Z.pos p))) as [Hdec Hne].
    rewrite (parseInt_text_decimal _ Hne Hdec), Hnat. do 2 f_equal. lia.
  - destruct (decimal_show_nat (Pos.to_nat p)) as [Hdec _].
    rewrite (parseInt_text_minus _ Hdec), Hnat. do 2 f_equal. lia.
Qed.

Lemma parseInt_reads_decimal (z : Z) :
  Js.safe_integer z = true ->
  Js.parseInt (VStr (Js.show_Z z)) = Some (VNum (inject_Z z)).
Proof.
  intros Hsafe. unfold Js.parseInt. rewrite parseInt_text_reads_decimal.
  unfold Js.to_number. by rewrite Qfloor_Z, Hsafe.
Qed.
End RoundTrip.

(** X22: a limit that arrives as the decimal text of an integer of at
    most [2^53] in magnitude, as query strings do, is bound as that
    integer and nothing checks it: zero and negative limits reach the
    query as they are, in the head-to-head comparison and in the beatmap
    search, and the beatmap search echoes the number in its answer.
    (Beyond [2^53] the code binds the nearest double.) *)
Theorem limit_text_bound_unchecked db (z : Z) username1 username2 p :
  Js.safe_integer z = true ->
  answers_rows db ->
  SearchBeatmapsRoute.limit p = Some (VStr (Js.show_Z z)) ->
  (exists data,
     CompareHeadToHead.handler db username1 username2 (Some (VStr (Js.show_Z z))) []
     = (Ok (Success 200 data),
        [Query CompareHeadToHead.common_sql
           [VStr username1; VStr username2; wrap username1; wrap username2;
            VNum (inject_Z z)]]))
  /\ (exists payload,
        SearchBeatmapsRoute.handler db p []
        = (Ok (Success 200 payload),
           [Query (SearchBeatmaps.sql (default "popularity" (SearchBeatmapsRoute.sortBy p)))
              [wrap (Js.trim (SearchBeatmapsRoute.q p)); VNum (inject_Z z)]])
        /\ SearchBeatmapsRoute.meta_limit (SearchBeatmapsRoute.meta payload)
           = VNum (inject_Z z)).
Proof.
  intros Hsafe Hdb Hlimit. split.
  - destruct (Hdb CompareHeadToHead.common_sql
                [VStr username1; VStr username2; wrap username1; wrap username2;
                 VNum (inject_Z z)]) as [rows Hrows].
    unfold CompareHeadToHead.handler, try_catch. cbv zeta. cbn [default from_option id].
    rewrite run_lift, (parseInt_reads_decimal _ Hsafe). cbn [of_option].
    unfold db_getRows. rewrite run_call, Hrows.
    destruct (length rows =? 0)%nat; eexists; reflexivity.
  - destruct (Hdb (SearchBeatmaps.sql (default "popularity" (SearchBeatmapsRoute.sortBy p)))
                [wrap (Js.trim (SearchBeatmapsRoute.q p)); VNum (inject_Z z)])
      as [rows Hrows].
    unfold SearchBeatmapsRoute.handler, try_catch. cbv zeta. rewrite Hlimit.
    cbn [default from_option id].
    rewrite run_lift, (parseInt_reads_decimal _ Hsafe). cbn [of_option].
    unfold db_getRows. rewrite run_call, Hrows.
    eexists. split; reflexivity.
Qed.

Lemma limit_text_bound_unchecked_witness :
  exists payload,
    SearchBeatmapsRoute.handler MoreFixtures.empty_db MoreFixtures.beatmaps_negative []
    = (Ok (Success 200 payload),
       [Query (SearchBeatmaps.sql "popularity") [VStr "%freedom%"; VNum (-5)]]).
Proof.
  destruct (limit_text_bound_unchecked MoreFixtures.empty_db (-5) "alice" "bob"
              MoreFixtures.beatmaps_negative eq_refl
              ltac:(intros text params; by eexists) eq_refl)
    as (_ & payload & Hrun & _).
  exists payload. exact Hrun.
Defined.


(** ** The trimmed search term *)
Section Trim.

(** To reason on a text and on what is left of it one, two and three
    characters on. *)
Lemma string_ind3 (P : string -> Prop) :
  P "" ->
  (forall a s1,
      P s1 ->
      (forall b s2, s1 = String b s2 -> P s2) ->
      (forall b c s3, s1 = String b (String c s3) -> P s3) ->
      P (String a s1)) ->
  forall s, P s.
Proof.
  intros Hnil Hcons s.
  cut (P s /\ (forall b s2, s = String b s2 -> P s2)
       /\ (forall b c s3, s = String b (String c s3) -> P s3)); [tauto |].
  induction s as [| a s1 (IH1 & IH2 & IH3)].
  - split; [exact Hnil |]. split; intros; discriminate.
  - split; [by apply Hcons |]. split.
    + intros b s2 [= _ <-]. exact IH1.
    + intros b c s3 [= _ E]. by apply (IH2 c).
Qed.

Lemma trim_start_first (s : string) (c : ascii) :
  first_char (Js.trim_start s) = Some c -> Js.is_space c = false.
Proof.
  induction s as [| a s1 IH1 IH2 IH3] using string_ind3; [done |].
  cbn [Js.trim_start]. destruct (Js.is_space a) eqn:E; [exact IH1 |].
  destruct s1 as [| b s2]; [by intros [= <-] |].
  destruct (Js.is_space2 a b); [by apply (IH2 b) |].
  destruct s2 as [| d s3]; [by intros [= <-] |].
  destruct (Js.is_space3 a b d); [by apply (IH3 b d) |].
  by intros [= <-].
Qed.

Lemma trim_end_first (s : string) (c : ascii) :
  first_char (Js.trim_end s) = Some c -> first_char s = Some c.
Proof.
  destruct s as [| a s]; [done |]. cbn [Js.trim_end]. cbv zeta.
  by destruct (Js.is_space_char _).
Qed.

Lemma trim_end_last (s : string) (c : ascii) :
  last_char (Js.trim_end s) = Some c -> Js.is_space c = false.
Proof.
  induction s as [| a s IH]; [done |]. cbn [Js.trim_end]. cbv zeta.
  destruct (Js.is_space_char (String a (Js.trim_end s))) eqn:E; [done |].
  destruct (Js.trim_end s) as [| b t].
  - cbn in E. by intros [= <-].
  - exact IH.
Qed.

Lemma trim_is_clean (s : string) :
  (forall c, first_char (Js.trim s) = Some c -> Js.is_space c = false)
  /\ (forall c, last_char (Js.trim s) = Some c -> Js.is_space c = false).
Proof.
  split.
  - intros c H. unfold Js.trim in H. apply trim_end_first in H.
    by apply trim_start_first in H.
  - intros c. unfold Js.trim. apply trim_end_last.
Qed.

(** A blank is neither the second nor the third byte of a white-space
    character of several bytes. *)
Lemma blank_code (c : ascii) : Js.is_space c = true -> nat_of_ascii c <= 32.
Proof.
  unfold Js.is_space. cbv zeta. intros [H | H]%orb_true_iff.
  - apply Nat.eqb_eq in H. lia.
  - apply andb_true_iff in H as [_ H]. apply Nat.leb_le in H. lia.
Qed.

Lemma blank_not_second (a b : ascii) : Js.is_space b = true -> Js.is_space2 a b = false.
Proof.
  intros Hb%blank_code. unfold Js.is_space2.
  assert (E : (nat_of_ascii b =? 160)%nat = false) by (apply Nat.eqb_neq; lia).
  rewrite E. apply andb_false_r.
Qed.

Lemma blank_not_inside (a b c : ascii) :
  Js.is_space b = true \/ Js.is_space c = true -> Js.is_space3 a b c = false.
Proof.
  unfold Js.is_space3. cbv zeta. intros [Hb%blank_code | Hc%blank_code].
  - assert (E1 : (nat_of_ascii b =? 154)%nat = false) by (apply Nat.eqb_neq; lia).
    assert (E2 : (nat_of_ascii b =? 128)%nat = false) by (apply Nat.eqb_neq; lia).
    assert (E3 : (nat_of_ascii b =? 129)%nat = false) by (apply Nat.eqb_neq; lia).
    assert (E4 : (nat_of_ascii b =? 187)%nat = false) by (apply Nat.eqb_neq; lia).
    rewrite E1, E2, E3, E4, !andb_false_r. reflexivity.
  - assert (E1 : (nat_of_ascii c =? 128)%nat = false) by (apply Nat.eqb_neq; lia).
    assert (E2 : (128 <=? nat_of_ascii c)%nat = false) by (apply Nat.leb_gt; lia).
    assert (E3 : (nat_of_ascii c =? 168)%nat = false) by (apply Nat.eqb_neq; lia).
    assert (E4 : (nat_of_ascii c =? 169)%nat = false) by (apply Nat.eqb_neq; lia).
    assert (E5 : (nat_of_ascii c =? 175)%nat = false) by (apply Nat.eqb_neq; lia).
    assert (E6 : (nat_of_ascii c =? 159)%nat = false) by (apply Nat.eqb_neq; lia).
    assert (E7 : (nat_of_ascii c =? 191)%nat = false) by (apply Nat.eqb_neq; lia).
    rewrite E1, E2, E3, E4, E5, E6, E7. cbn [andb orb]. rewrite !andb_false_r. reflexivity.
Qed.

Lemma trim_start_blank (w : string) : blank w = true -> Js.trim_start w = "".
Proof.
  induction w as [| a w IH]; [done |]. cbn [blank Js.trim_start].
  intros [Ha Hw]%andb_true_iff. rewrite Ha. by apply IH.
Qed.

Lemma trim_start_pad (w s : string) :
  blank w = true -> Js.trim_start (w +:+ s) = Js.trim_start s.
Proof.
  induction w as [| a w IH]; [done |]. cbn [blank].
  intros [Ha Hw]%andb_true_iff.
  change (String a w +:+ s) with (String a (w +:+ s)).
  cbn [Js.trim_start]. rewrite Ha. by apply IH.
Qed.

Lemma trim_end_blank (w : string) : blank w = true -> Js.trim_end w = "".
Proof.
  induction w as [| a w IH]; [done |]. cbn [blank Js.trim_end].
  intros [Ha Hw]%andb_true_iff. rewrite (IH Hw). cbn. by rewrite Ha.
Qed.

Lemma trim_end_pad (s w : string) :
  blank w = true -> Js.trim_end (s +:+ w) = Js.trim_end s.
Proof.
  intros Hw. induction s as [| a s IH]; [by apply trim_end_blank |].
  change (String a s +:+ w) with (String a (s +:+ w)).
  cbn [Js.trim_end]. by rewrite IH.
Qed.

(** Blanks after one or two characters that are no white space make no
    white space with them. *)
Lemma trim_start_one (a : ascii) (w : string) :
  Js.is_space a = false -> blank w = true ->
  Js.trim_start (String a w) = String a w.
Proof.
  intros Ea Hw. cbn [Js.trim_start]. rewrite Ea.
  destruct w as [| b [| c w]]; [done | ..]; cbn [blank] in Hw;
    apply andb_true_iff in Hw as [Hb Hw].
  - by rewrite (blank_not_second a b Hb).
  - by rewrite (blank_not_second a b Hb), (blank_not_inside a b c (or_introl Hb)).
Qed.

Lemma trim_start_two (a b : ascii) (w : string) :
  Js.is_space a = false -> Js.is_space2 a b = false -> blank w = true ->
  Js.trim_start (String a (String b w)) = String a (String b w).
Proof.
  intros Ea Eab Hw. cbn [Js.trim_start]. rewrite Ea, Eab.
  destruct w as [| c w]; [done |]. cbn [blank] in Hw.
  apply andb_true_iff in Hw as [Hc Hw].
  by rewrite (blank_not_inside a b c (or_intror Hc)).
Qed.

Lemma trim_pad (before after s : string) :
  blank before = true -> blank after = true ->
  Js.trim (before +:+ s +:+ after) = Js.trim s.
Proof.
  intros Hb Ha. unfold Js.trim. rewrite (trim_start_pad _ _ Hb).
  induction s as [| a s1 IH1 IH2 IH3] using string_ind3.
  - change ("" +:+ after) with after. by rewrite (trim_start_blank _ Ha).
  - change (String a s1 +:+ after) with (String a (s1 +:+ after)).
    destruct (Js.is_space a) eqn:Ea; [cbn [Js.trim_start]; by rewrite Ea |].
    destruct s1 as [| b s2].
    { change ("" +:+ after) with after. rewrite (trim_start_one _ _ Ea Ha).
      cbn [Js.trim_start]. rewrite Ea. by apply (trim_end_pad (String a "")). }
    change (String b s2 +:+ after) with (String b (s2 +:+ after)).
    destruct (Js.is_space2 a b) eqn:Eab;
      [cbn [Js.trim_start]; rewrite Ea, Eab; by apply (IH2 b) |].
    destruct s2 as [| c s3].
    { change ("" +:+ after) with after. rewrite (trim_start_two _ _ _ Ea Eab Ha).
      cbn [Js.trim_start]. rewrite Ea, Eab.
      by apply (trim_end_pad (String a (String b ""))). }
    change (String c s3 +:+ after) with (String c (s3 +:+ after)).
    destruct (Js.is_space3 a b c) eqn:Eabc;
      [cbn [Js.trim_start]; rewrite Ea, Eab, Eabc; by apply (IH3 b c) |].
    cbn [Js.trim_start]. rewrite Ea, Eab, Eabc.
    by apply (trim_end_pad (String a (String b (String c s3)))).
Qed.

(** X23: white space around [q] never changes what the main search does: the
    padded request reads and writes the same cache entry, sends the same
    queries and gets the same answer.  The term the handler works with
    has no white space at either end. *)
Theorem search_ignores_surrounding_space (cache : cacheService.t Search.Results) db p
    before after :
  blank before = true ->
  blank after = true ->
  (forall tr, Search.handler cache db (padded before after p) tr
              = Search.handler cache db p tr)
  /\ (forall c, first_char (Js.trim (Search.q (padded before after p))) = Some c ->
                Js.is_space c = false)
  /\ (forall c, last_char (Js.trim (Search.q (padded before after p))) = Some c ->
                Js.is_space c = false).
Proof.
  intros Hb Ha. split.
  - intros tr. unfold Search.handler, padded. cbn [Search.q Search.type Search.limit].
    by rewrite (trim_pad _ _ _ Hb Ha).
  - exact (trim_is_clean (Search.q (padded before after p))).
Qed.
End Trim.

Lemma search_ignores_surrounding_space_witness :
  Search.handler (Fixtures.empty_cache _) MoreFixtures.empty_db
    (padded "  " " " MoreFixtures.search_artists) []
  = Search.handler (Fixtures.empty_cache _) MoreFixtures.empty_db
      MoreFixtures.search_artists [].
Proof.
  apply (proj1 (search_ignores_surrounding_space (Fixtures.empty_cache _)
                  MoreFixtures.empty_db MoreFixtures.search_artists "  " " "
                  eq_refl eq_refl)).
Defined.

(** ** The limit of the popular listing *)
Section Popular.

Lemma Qred_lowest (q : Q) : Z.gcd (Qnum q) (Zpos (Qden q)) = 1%Z -> Qred q = q.
Proof.
  destruct q as [a b]. cbn [Qnum Qden]. intros Hg. unfold Qred.
  pose proof (Z.ggcd_gcd a (Zpos b)) as Hgg.
  pose proof (Z.ggcd_correct_divisors a (Zpos b)) as Hd.
  destruct (Z.ggcd a (Zpos b)) as (g & a' & b'). cbn [fst snd] in *.
  rewrite Hg in Hgg. subst g. destruct Hd as [Ha Hb].
  rewrite Z.mul_1_l in Ha, Hb. subst a'. rewrite <- Hb. reflexivity.
Qed.

Lemma half_integer (z : Z) :
  SearchPopular.half (VNum (inject_Z z)) = Some (VNum (halved z)).
Proof.
  unfold SearchPopular.half, halved. do 2 f_equal.
  destruct (Z.even z) eqn:E.
  - apply Z.even_spec in E as [k ->].
    rewrite (Qred_complete _ (inject_Z k)).
    + rewrite Qred_lowest; [| cbn [inject_Z Qnum Qden]; apply Z.gcd_1_r].
      f_equal. rewrite Z.mul_comm. by rewrite Z.div_mul.
    + unfold Qeq. simpl. lia.
  - assert (Hodd : Z.odd z = true) by (rewrite <- Z.negb_even, E; done).
    apply Z.odd_spec in Hodd as [k ->].
    rewrite (Qred_complete _ ((2 * k + 1) # 2)).
    + apply Qred_lowest. cbn [Qnum Qden].
      rewrite Z.gcd_comm, Z.add_comm, (Z.mul_comm 2 k). rewrite Z.gcd_add_mult_diag_r.
      reflexivity.
    + unfold Qeq. simpl. lia.
Qed.

(** X24: the popular listing binds half of the parsed limit to both of its
    queries and does not round it: an even limit binds an integer (10
    for the default 20), an odd limit binds a number with denominator 2,
    which is what LIMIT then receives. *)
Theorem popular_binds_half db limit z :
  Js.parseInt (default (VNum 20) limit) = Some (VNum (inject_Z z)) ->
  answers_rows db ->
  exists data,
    SearchPopular.handler db limit []
    = (Ok (Success 200 data),
       [Query SearchPopular.players_sql [VNum (halved z)];
        Query SearchPopular.beatmaps_sql [VNum (halved z)]])
    /\ (halved z * 2 == inject_Z z)%Q
    /\ (Z.odd z = true -> Qden (halved z) = 2%positive)
    /\ (Z.even z = true -> halved z = inject_Z (z / 2)).
Proof.
  intros Hn Hdb. unfold SearchPopular.handler, try_catch. cbv zeta.
  destruct (Hdb SearchPopular.players_sql [VNum (halved z)]) as [rows1 H1].
  destruct (Hdb SearchPopular.beatmaps_sql [VNum (halved z)]) as [rows2 H2].
  rewrite run_lift. rewrite Hn. cbn [of_option]. rewrite run_lift, half_integer. cbn [of_option].
  unfold db_getRows. rewrite run_call, H1.
  rewrite run_lift. cbn [of_option]. rewrite run_lift, half_integer. cbn [of_option].
  rewrite run_call, H2.
  eexists. split; [reflexivity |]. unfold halved. split; [| split].
  - destruct (Z.even z) eqn:E.
    + apply Z.even_spec in E as [k ->]. unfold Qeq. simpl.
      rewrite (Z.mul_comm 2 k), Z.div_mul by lia. lia.
    + unfold Qeq. simpl. lia.
  - intros Hodd. rewrite <- Z.negb_odd, Hodd. reflexivity.
  - by intros ->.
Qed.
End Popular.

Lemma popular_binds_half_witness :
  exists data,
    SearchPopular.handler MoreFixtures.empty_db (Some (VStr "5")) []
    = (Ok (Success 200 data),
       [Query SearchPopular.players_sql [VNum (5 # 2)];
        Query SearchPopular.beatmaps_sql [VNum (5 # 2)]]).
Proof.
  destruct (popular_binds_half MoreFixtures.empty_db (Some (VStr "5")) 5 eq_refl
              ltac:(intros text params; by eexists)) as (data & Hrun & _).
  exists data. exact Hrun.
Defined.

